(** * ReconocimientoService: recognition, enrolment and training state machine

    Shallow embedding of [api_app/recognition_service.py] (class
    [ReconocimientoService]) and proofs of the properties its
    specification states about it.

    Conventions of the embedding.
    - Python [float] values that the service only stores, subtracts and
      compares (clock readings, LBPH distances, the configured threshold
      and duration) are rationals [Q], as every finite double is;
      arithmetic on them is exact, the rounding of a float subtraction
      or product is not modelled.
    - Python [int] labels and pixel coordinates are [Z]; list indexing
      and slicing with them follow Python (negative values count from
      the end).
    - A Python [str] is the string of the bytes of its UTF-8 encoding,
      and paths follow [posixpath].
    - OpenCV, base64 and the JPEG codec are library code: they are the
      fields of the class [OpenCV], together with the texts of the
      errors the library raises, Python's [repr] of a path and the
      longest entry name the file system takes; a deterministic test
      double instantiates it further down. A library call that raises
      leaves the object it was called on as it was.
    - The directory [settings.DATA_PATH] exists and is a list of named
      entries in [os.listdir] order, a holding directory is a list of
      named files, and a new entry comes last. The enrolment joins the
      sanitized student name, which has no separator, to [DATA_PATH]:
      the empty name and ["."] give [DATA_PATH] itself, [".."] gives
      its parent, which exists and is not part of the listing, and any
      other name gives the entry of that name. The incremental
      training joins the name as it comes; it is modelled for a name
      that is the name of an entry ([nombre_llano] below), and the
      properties that depend on where the path leads are stated for
      such names. Removing a file or an empty directory, and writing a
      photo into an existing directory, succeed; writing the model
      file succeeds or fails as the caller of the operation says, and
      a failed write leaves the file as it was.
    - The clock reading [time.time()] a recognition makes, the value of
      [int(time.time() * 1000)] an enrolment computes, and the
      availability of the attendance store are arguments of the
      operation.
    - Every operation is a function from the world before the call to
      the world after it, the calls it made to its collaborators, and
      either the returned dictionary or the exception that left it. *)

From Stdlib Require Import ZArith QArith String Ascii List Lia.
From stdpp Require Import gmap strings list fin_maps pretty.

Close Scope Q_scope.
Open Scope string_scope.
Open Scope list_scope.
Open Scope Z_scope.

(** ** Python built-ins used by the service *)

Module Py.

(** [l[i:j]] for a list (and for one axis of a numpy array). *)
Definition clamp (n k : Z) : Z :=
  if k <? 0 then Z.max 0 (k + n) else Z.min k n.

Definition slice {A : Type} (i j : Z) (l : list A) : list A :=
  let n := Z.of_nat (length l) in
  let a := clamp n i in
  let b := clamp n j in
  take (Z.to_nat (b - a)) (drop (Z.to_nat a) l).

(** [l[i]]: [None] stands for [IndexError]. *)
Definition index {A : Type} (l : list A) (i : Z) : option A :=
  let n := Z.of_nat (length l) in
  if i <? 0
  then (if i + n <? 0 then None else l !! Z.to_nat (i + n))
  else l !! Z.to_nat i.

(** [s.rfind(c)]: position of the last [c], or -1. *)
Fixpoint rfind_from (c : ascii) (s : string) (i last : Z) : Z :=
  match s with
  | EmptyString => last
  | String d r => rfind_from c r (i + 1) (if Ascii.eqb d c then i else last)
  end.

Definition rfind (c : ascii) (s : string) : Z := rfind_from c s 0 (-1).

(** [s.find(c)]: position of the first [c], if any. *)
Fixpoint find (c : ascii) (s : string) : option nat :=
  match s with
  | EmptyString => None
  | String d r => if Ascii.eqb d c then Some O else S <$> find c r
  end.

(** [s[i:]] and [s[:i]] for [0 <= i]. *)
Definition from (i : Z) (s : string) : string :=
  String.substring (Z.to_nat i) (String.length s - Z.to_nat i) s.

Definition upto (i : Z) (s : string) : string :=
  String.substring 0 (Z.to_nat i) s.

(** [os.path.basename] (posixpath): [p[p.rfind('/') + 1:]]. *)
Definition basename (p : string) : string :=
  from (rfind "/" p + 1) p.

Fixpoint all_dots (s : string) : bool :=
  match s with
  | EmptyString => true
  | String d r => Ascii.eqb d "." && all_dots r
  end.

(** [os.path.splitext] (genericpath._splitext with sep '/', extsep
    '.'): the extension starts at the last dot, unless that dot sits
    before the last separator or only dots come before it in the
    file name. *)
Definition splitext (p : string) : string * string :=
  let sepIndex := rfind "/" p in
  let dotIndex := rfind "." p in
  if sepIndex <? dotIndex then
    if all_dots (String.substring (Z.to_nat (sepIndex + 1))
                   (Z.to_nat (dotIndex - (sepIndex + 1))) p)
    then (p, "")
    else (upto dotIndex p, from dotIndex p)
  else (p, "").

(** [header, encoded = s.split(',', 1)]: [None] stands for the
    [ValueError] of unpacking a one-element list. *)
Definition split_comma (s : string) : option (string * string) :=
  match find "," s with
  | Some i => Some (upto (Z.of_nat i) s, from (Z.of_nat i + 1) s)
  | None => None
  end.

(** [re.sub(r'^data:image/.+;base64,', '', s)]: the pattern is
    anchored at the start, [.+] is greedy and does not cross a line
    feed, so the match ends with the last [";base64,"] of the first
    line that has at least one character between it and the
    ["data:image/"] prefix. *)
Definition marker : string := ";base64,".
Definition scheme : string := "data:image/".
Definition LF : ascii := Ascii.ascii_of_nat 10.

Fixpoint last_marker (s : string) (i : nat) (best : option nat) : option nat :=
  match s with
  | EmptyString => best
  | String c r =>
      if Ascii.eqb c LF then best
      else last_marker r (S i)
             (if (0 <? i)%nat && String.prefix marker s then Some i else best)
  end.

Definition strip_data_url (s : string) : string :=
  if String.prefix scheme s then
    let rest := from (Z.of_nat (String.length scheme)) s in
    match last_marker rest 0 None with
    | Some i => from (Z.of_nat (i + String.length marker)) rest
    | None => s
    end
  else s.

(** [os.path.join(a, b)] (posixpath). *)
Definition ends_with_sep (a : string) : bool :=
  match String.get (String.length a - 1) a with
  | Some c => Ascii.eqb c "/"
  | None => false
  end.

Definition path_join (a b : string) : string :=
  if String.prefix "/" b then b
  else if (String.length a =? 0)%nat || ends_with_sep a then a +:+ b
  else a +:+ "/" +:+ b.

(** [a < b] and [a >= b] on floats. *)
Definition lt (a b : Q) : bool := negb (Qle_bool b a).
Definition ge (a b : Q) : bool := Qle_bool b a.

End Py.

(** ** Images and the library capabilities *)

(** A single-channel image: rows of pixel intensities. *)
Definition gray : Type := list (list Z).

(** A detection [(x, y, w, h)]. *)
Definition box : Type := (Z * Z * Z * Z)%type.

Inductive interpolation := INTER_NEAREST | INTER_LINEAR | INTER_CUBIC.

(** [img[y:y+h, x:x+w]] on a two-dimensional numpy array. *)
Definition crop (img : gray) (x y w h : Z) : gray :=
  Py.slice x (x + w) <$> Py.slice y (y + h) img.

(** [img.shape == (rows, cols)]. *)
Definition has_shape (img : gray) (rows cols : nat) : Prop :=
  length img = rows ∧ Forall (λ r, length r = cols) img.

(** A non-empty array: at least one row and one column. *)
Definition non_empty (img : gray) : Prop :=
  img ≠ [] ∧ Forall (λ r, r ≠ []) img.

(** What the service calls in cv2, base64 and numpy, and what the run
    time prints. A call that can raise returns [inl msg] for the
    exception with text [msg]. *)
Class OpenCV : Type := {
  (** a decoded BGR image *)
  frame : Type;
  (** the content of a file of a holding directory *)
  file : Type;
  (** the learned state of an [LBPHFaceRecognizer] object *)
  recognizer : Type;
  (** [base64.b64decode(s)] *)
  b64decode : string → string + string;
  (** [cv2.imdecode(np.frombuffer(b, np.uint8), cv2.IMREAD_COLOR)];
      [inr None] is the [None] it returns for bytes that hold no image *)
  imdecode : string → string + option frame;
  (** [cv2.cvtColor(frame, cv2.COLOR_BGR2GRAY)] *)
  cvtColor : frame → gray;
  (** [face_classif.detectMultiScale(gray, scaleFactor, minNeighbors)] *)
  detectMultiScale : gray → Q → Z → list box;
  (** [cv2.resize(src, (width, height), interpolation=...)] *)
  resize : gray → Z * Z → interpolation → string + gray;
  (** [cv2.imread(path, cv2.IMREAD_GRAYSCALE)] on a file's content *)
  imread : file → option gray;
  (** the content [cv2.imwrite(path, img)] leaves in a [.jpg] file *)
  imwrite : gray → file;
  (** [cv2.face.LBPHFaceRecognizer_create()] *)
  LBPHFaceRecognizer_create : recognizer;
  (** [recognizer.predict(img)] *)
  predict : recognizer → gray → string + (Z * Q);
  (** [recognizer.update(imgs, labels)], the object after the call *)
  update : recognizer → list gray → list Z → string + recognizer;
  (** [recognizer.train(imgs, labels)], the object after the call *)
  train : recognizer → list gray → list Z → string + recognizer;
  (** the text of the [cv2.error] of [cv2.cvtColor(None, ...)] *)
  cvtColor_of_None : string;
  (** the text of the [cv2.error] of [recognizer.write(path)] for a
      file that cannot be written *)
  write_failure : string;
  (** [repr(path)], as it stands in the text of an [OSError] *)
  repr : string → string;
  (** the longest name, in bytes, that the file system of [DATA_PATH]
      takes for an entry *)
  NAME_MAX : nat;
}.

(** What the service relies on of [cv2.resize]: for an array with at
    least one row and one column and the size [(150, 150)] it returns
    an array of 150 rows of 150 pixels. *)
Definition resize_contract (cv : OpenCV) : Prop :=
  ∀ (src : gray) (rows cols : nat) (i : interpolation),
    has_shape src rows cols → (0 < rows)%nat → (0 < cols)%nat →
    ∃ dst, resize src (150, 150) i = inr dst ∧ has_shape dst 150 150.

(** ** Association lists: directory listings in enumeration order *)

Section Assoc.
Context {A : Type}.

Fixpoint assoc_get (k : string) (l : list (string * A)) : option A :=
  match l with
  | [] => None
  | (k', v) :: r => if String.eqb k' k then Some v else assoc_get k r
  end.

(** Overwrites the entry in place, or adds it at the end. *)
Fixpoint assoc_put (k : string) (v : A) (l : list (string * A)) : list (string * A) :=
  match l with
  | [] => [(k, v)]
  | (k', v') :: r =>
      if String.eqb k' k then (k, v) :: r else (k', v') :: assoc_put k v r
  end.

Fixpoint assoc_del (k : string) (l : list (string * A)) : list (string * A) :=
  match l with
  | [] => []
  | (k', v') :: r => if String.eqb k' k then r else (k', v') :: assoc_del k r
  end.

Definition names (l : list (string * A)) : list string := fst <$> l.
End Assoc.

(** ** Exceptions, collaborator calls and results *)

Inductive exn :=
| ValueError (msg : string)
| BinasciiError (msg : string)
| CvError (msg : string)
| IndexError (msg : string)
| FileExistsError (path : string)
| NotADirectoryError (path : string)
| OSError (errno : Z) (strerror : string) (path : string)
| FirebaseError (msg : string).

(** [str(e)]; an [OSError] prints its number, its message and the
    [repr] of the path. *)
Definition str {cv : OpenCV} (e : exn) : string :=
  match e with
  | ValueError m | BinasciiError m | CvError m | IndexError m
  | FirebaseError m => m
  | FileExistsError path => "[Errno 17] File exists: " +:+ repr path
  | NotADirectoryError path => "[Errno 20] Not a directory: " +:+ repr path
  | OSError errno strerror path =>
      "[Errno " +:+ pretty errno +:+ "] " +:+ strerror +:+ ": " +:+ repr path
  end.

(** The calls an operation makes on the recognizer object, on the image
    files and on the attendance service, in the order it makes them. *)
Inductive event :=
| Predict (rostro : gray)
| Update (faces_data : list gray) (labels : list Z)
| Train (faces_data : list gray) (labels : list Z)
| WriteModel
| Imwrite (ruta : string) (rostro : gray)
| RegistrarAsistencia (nombre : string).

Definition es_aviso (nombre : string) (e : event) : bool :=
  match e with
  | RegistrarAsistencia n => String.eqb n nombre
  | _ => false
  end.

(** How many times the attendance service was called for [nombre]. *)
Definition avisos (nombre : string) (evs : list event) : nat :=
  length (List.filter (es_aviso nombre) evs).

(** The dictionaries [reconocer_rostro] returns. *)
Inductive resultado :=
| SinRostro
| Reconocido (estudiante : string) (confianza : Q) (box : list Z)
| Desconocido (confianza : Q) (box : list Z).

Definition estado (r : resultado) : string :=
  match r with
  | SinRostro => "sin_rostro"
  | Reconocido _ _ _ => "reconocido"
  | Desconocido _ _ => "desconocido"
  end.

(** The dictionaries the enrolment and training operations return; a
    key that a dictionary does not have is [None]. *)
Record respuesta := {
  ok : bool;
  msg : string;
  ruta : option string;
  imagenes_procesadas : option Z;
  personas : option Z;
  imagenes_totales : option Z;
}.

Definition fallo (m : string) : respuesta :=
  {| ok := false; msg := m; ruta := None;
     imagenes_procesadas := None; personas := None; imagenes_totales := None |}.

(** [settings.RECONOCIMIENTO_CONFIG], [DATA_PATH] and [MODEL_PATH]. *)
Record Settings := {
  DATA_PATH : string;
  MODEL_PATH : string;
  confianza_threshold : Q;
  config_duracion_reconocimiento : Q;
}.

(** [enumerate(l)] and [{name: idx for idx, name in enumerate(l)}]: a
    name that occurs twice keeps its last index. *)
Definition enumerate {A : Type} (l : list A) : list (Z * A) :=
  imap (λ i x, (Z.of_nat i, x)) l.

Definition dict_of_enumerate (l : list string) : gmap string Z :=
  foldl (λ d '(idx, name), <[name := idx]> d) ∅ (enumerate l).

Inductive outcome (A : Type) :=
| Return (a : A)
| Raise (e : exn).
Arguments Return {A} a.
Arguments Raise {A} e.

Section Service.
Context {cv : OpenCV}.

(** An entry of [DATA_PATH]. *)
Inductive node :=
| RegularFile
| Directory (files : list (string * file)).

(** The attributes of the singleton [ReconocimientoService]. *)
Record Service := {
  data_path : string;
  model_path : string;
  face_recognizer : recognizer;
  image_paths : list string;
  label_dict : gmap string Z;
  next_label : Z;
  estudiantes_reconocidos : gset string;
  tiempos_reconocimiento : gmap string Q;
  duracion_reconocimiento : Q;
}.

(** The service together with what it keeps on disk: the entries of
    [data_path] and the recognizer state stored at [model_path], if
    the file exists. *)
Record World := {
  self : Service;
  data : list (string * node);
  model_file : option recognizer;
}.

(** The result of running an operation. *)
Record run (A : Type) := Run {
  after : World;
  events : list event;
  result : outcome A;
}.
Arguments Run {A} _ _ _.
Arguments after {A} _.
Arguments events {A} _.
Arguments result {A} _.

Definition M (A : Type) : Type := World → run A.

Definition ret {A : Type} (a : A) : M A := λ w, Run w [] (Return a).

Definition bind {A B : Type} (m : M A) (k : A → M B) : M B := λ w,
  match m w with
  | Run w1 evs1 (Return a) =>
      match k a w1 with
      | Run w2 evs2 r => Run w2 (evs1 ++ evs2) r
      end
  | Run w1 evs1 (Raise e) => Run w1 evs1 (Raise e)
  end.

Definition raise {A : Type} (e : exn) : M A := λ w, Run w [] (Raise e).

Definition emit (e : event) : M unit := λ w, Run w [e] (Return tt).

Definition get_self : M Service := λ w, Run w [] (Return (self w)).

Definition set_self (s : Service) : M unit := λ w,
  Run {| self := s; data := data w; model_file := model_file w |} [] (Return tt).

Definition get_data : M (list (string * node)) := λ w, Run w [] (Return (data w)).

Definition set_data (d : list (string * node)) : M unit := λ w,
  Run {| self := self w; data := d; model_file := model_file w |} [] (Return tt).

Definition set_model_file (r : recognizer) : M unit := λ w,
  Run {| self := self w; data := data w; model_file := Some r |} [] (Return tt).

#[global] Instance M_ret : MRet M := @ret.
#[global] Instance M_bind : MBind M := λ A B k m, bind m k.

(** [try: body except: handler] with a bare [except]. *)
Definition try_except {A : Type} (body handler : M A) : M A := λ w,
  match body w with
  | Run w1 evs1 (Return a) => Run w1 evs1 (Return a)
  | Run w1 evs1 (Raise _) =>
      match handler w1 with
      | Run w2 evs2 r => Run w2 (evs1 ++ evs2) r
      end
  end.

(** [try: body except Exception as e: handler(e)]. *)
Definition try_except_as {A : Type} (body : M A) (handler : exn → M A) : M A := λ w,
  match body w with
  | Run w1 evs1 (Return a) => Run w1 evs1 (Return a)
  | Run w1 evs1 (Raise e) =>
      match handler e w1 with
      | Run w2 evs2 r => Run w2 (evs1 ++ evs2) r
      end
  end.

(** A library call that raises [mk msg] or returns. *)
Definition call {A : Type} (mk : string → exn) (x : string + A) : M A :=
  match x with
  | inl m => raise (mk m)
  | inr a => ret a
  end.
End Service.

Arguments Run {cv A} _ _ _.
Arguments after {cv A} _.
Arguments events {cv A} _.
Arguments result {cv A} _.

(** ** The operations of [ReconocimientoService] *)

Section Operations.
Context {cv : OpenCV}.

Definition con_recognizer (s : Service) (r : recognizer) : Service :=
  {| data_path := data_path s; model_path := model_path s;
     face_recognizer := r;
     image_paths := image_paths s; label_dict := label_dict s;
     next_label := next_label s;
     estudiantes_reconocidos := estudiantes_reconocidos s;
     tiempos_reconocimiento := tiempos_reconocimiento s;
     duracion_reconocimiento := duracion_reconocimiento s |}.

Definition con_registro (s : Service) (paths : list string)
    (dict : gmap string Z) (next : Z) : Service :=
  {| data_path := data_path s; model_path := model_path s;
     face_recognizer := face_recognizer s;
     image_paths := paths; label_dict := dict; next_label := next;
     estudiantes_reconocidos := estudiantes_reconocidos s;
     tiempos_reconocimiento := tiempos_reconocimiento s;
     duracion_reconocimiento := duracion_reconocimiento s |}.

Definition con_sesion (s : Service) (reconocidos : gset string)
    (tiempos : gmap string Q) : Service :=
  {| data_path := data_path s; model_path := model_path s;
     face_recognizer := face_recognizer s;
     image_paths := image_paths s; label_dict := label_dict s;
     next_label := next_label s;
     estudiantes_reconocidos := reconocidos;
     tiempos_reconocimiento := tiempos;
     duracion_reconocimiento := duracion_reconocimiento s |}.

(** [_initialize]: [disk] lists [DATA_PATH] once [os.makedirs] has
    made sure it exists, [saved] is the content of [MODEL_PATH] when
    that file exists. *)
Definition _initialize (settings : Settings) (disk : list (string * node))
    (saved : option recognizer) : World :=
  let paths := names disk in
  {| self :=
       {| data_path := DATA_PATH settings;
          model_path := MODEL_PATH settings;
          face_recognizer :=
            match saved with Some r => r | None => LBPHFaceRecognizer_create end;
          image_paths := match saved with Some _ => paths | None => [] end;
          label_dict :=
            match saved with Some _ => dict_of_enumerate paths | None => ∅ end;
          next_label :=
            match saved with Some _ => Z.of_nat (length paths) | None => 0 end;
          estudiantes_reconocidos := ∅;
          tiempos_reconocimiento := ∅;
          duracion_reconocimiento := config_duracion_reconocimiento settings |};
     data := disk;
     model_file := saved |}.

Definition decode_image (data_url : string) : M (option frame) :=
  let b64 := Py.strip_data_url data_url in
  img_bytes ← call BinasciiError (b64decode b64);
  call CvError (imdecode img_bytes).

Definition detectar_rostro (frame : option frame) : M (gray * list box) :=
  match frame with
  | None => raise (CvError cvtColor_of_None)
  | Some f =>
      let gray := cvtColor f in
      let faces := detectMultiScale gray (13 # 10) 5 in
      mret (gray, faces)
  end.

(** Modelled from the spec: [asistencia_service.registrar_asistencia]
    is not among the sources; the specification describes it as the
    external collaborator that records an attendance event. The call
    is recorded as an event; [firebase_up] says whether it returns or
    raises. *)
Definition registrar_asistencia (firebase_up : bool) (nombre : string) : M unit :=
  emit (RegistrarAsistencia nombre);;
  if firebase_up then mret tt else raise (FirebaseError "attendance store unavailable").

(** Lines 115-122 of [reconocer_rostro]; [now] is the one reading of
    [time.time()] each branch makes. *)
Definition registro_unico_con_tiempo (now : Q) (firebase_up : bool)
    (nombre : string) : M unit :=
  s ← get_self;
  match tiempos_reconocimiento s !! nombre with
  | None =>
      set_self (con_sesion s (estudiantes_reconocidos s)
                  (<[nombre := now]> (tiempos_reconocimiento s)))
  | Some t0 =>
      if Py.ge (now - t0)%Q (duracion_reconocimiento s) then
        if decide (nombre ∈ estudiantes_reconocidos s) then mret tt
        else
          set_self (con_sesion s ({[nombre]} ∪ estudiantes_reconocidos s)
                      (tiempos_reconocimiento s));;
          registrar_asistencia firebase_up nombre
      else mret tt
  end.

Definition reconocer_rostro (settings : Settings) (now : Q) (firebase_up : bool)
    (image_data : string) : M resultado :=
  frame ← decode_image image_data;
  '(gray, faces) ← detectar_rostro frame;
  match faces with
  | [] => mret SinRostro
  | (x, y, w, h) :: _ =>
      let rostro := crop gray x y w h in
      rostro ← call CvError (resize rostro (150, 150) INTER_CUBIC);
      s ← get_self;
      emit (Predict rostro);;
      '(label, confianza) ← call CvError (predict (face_recognizer s) rostro);
      let box := [x; y; w; h] in
      if Py.lt confianza (confianza_threshold settings)
         && (label <? Z.of_nat (length (image_paths s)))
      then
        match Py.index (image_paths s) label with
        | None => raise (IndexError "list index out of range")
        | Some nombre =>
            registro_unico_con_tiempo now firebase_up nombre;;
            mret (Reconocido nombre confianza box)
        end
      else mret (Desconocido confianza box)
  end.

Definition person_path (s : Service) (estudiante : string) : string :=
  Py.path_join (data_path s) estudiante.

(** Where [os.path.join(DATA_PATH, nombre)] leads for a name without
    separator, as the sanitized name of an enrolment is: to
    [DATA_PATH] itself, to its parent or to the entry [nombre]. *)
Inductive lugar :=
| LaCarpeta
| ElPadre
| Entrada (name : string).

Definition lugar_de (nombre : string) : lugar :=
  if String.eqb nombre "" || String.eqb nombre "." then LaCarpeta
  else if String.eqb nombre ".." then ElPadre
  else Entrada nombre.

Definition NUL : ascii := Ascii.ascii_of_nat 0.

(** [os.makedirs(person_path, exist_ok=True)] for a name without
    separator. [os.mkdir] refuses a path with a null byte and a name
    that is too long for the file system; a directory that exists is
    left alone; a regular file of that name is in the way. *)
Definition makedirs (estudiante : string) : M unit :=
  match Py.find NUL estudiante with
  | Some _ => raise (ValueError "embedded null byte")
  | None =>
      match lugar_de estudiante with
      | LaCarpeta | ElPadre => mret tt
      | Entrada name =>
          s ← get_self;
          if (NAME_MAX <? String.length name)%nat then
            raise (OSError 36 "File name too long" (person_path s estudiante))
          else
            d ← get_data;
            match assoc_get name d with
            | Some (Directory _) => mret tt
            | Some RegularFile => raise (FileExistsError (person_path s estudiante))
            | None => set_data (d ++ [(name, Directory [])])
            end
      end
  end.

(** [cv2.imwrite(ruta, rostro)] for [ruta] the file [filename] in the
    directory of the name [estudiante]; when it cannot write, as onto
    a directory, it returns [False], which the service does not look
    at. A file written into [DATA_PATH] itself is a new entry of the
    listing, and a file written into the parent of [DATA_PATH] is none
    of it. *)
Definition cv_imwrite (estudiante filename ruta : string) (rostro : gray) : M unit :=
  emit (Imwrite ruta rostro);;
  d ← get_data;
  match lugar_de estudiante with
  | Entrada name =>
      match assoc_get name d with
      | Some (Directory files) =>
          set_data (assoc_put name
                      (Directory (assoc_put filename (imwrite rostro) files)) d)
      | _ => mret tt
      end
  | LaCarpeta =>
      match assoc_get filename d with
      | Some (Directory _) => mret tt
      | _ => set_data (assoc_put filename RegularFile d)
      end
  | ElPadre => mret tt
  end.

Definition unpack_error : string :=
  "not enough values to unpack (expected 2, got 1)".

(** [guardar_foto_registro]; [timestamp] is the value of
    [int(time.time() * 1000)] the call computes. *)
Definition guardar_foto_registro (timestamp : Z) (estudiante foto_base64 : string)
    : M respuesta :=
  let estudiante := (Py.splitext (Py.basename estudiante)).1 in
  makedirs estudiante;;
  decoded ← try_except_as
    ('(header, encoded) ←
        match Py.split_comma foto_base64 with
        | Some p => mret p
        | None => raise (ValueError unpack_error)
        end;
     img_bytes ← call BinasciiError (b64decode encoded);
     img ← call CvError (imdecode img_bytes);
     mret (inr img))
    (λ e, mret (inl (fallo ("Error decodificando imagen: " +:+ str e))));
  match decoded with
  | inl respuesta => mret respuesta
  | inr img =>
      '(gray, faces) ← detectar_rostro img;
      match faces with
      | [] => mret (fallo "no face")
      | (x, y, w, h) :: _ =>
          let rostro := crop gray x y w h in
          rostro ← call CvError (resize rostro (150, 150) INTER_CUBIC);
          let filename := "rostro_" +:+ pretty timestamp +:+ ".jpg" in
          s ← get_self;
          let ruta := Py.path_join (person_path s estudiante) filename in
          cv_imwrite estudiante filename ruta rostro;;
          mret {| ok := true; msg := "guardado"; ruta := Some ruta;
                  imagenes_procesadas := None; personas := None;
                  imagenes_totales := None |}
      end
  end.

(** [self.face_recognizer.write(str(self.model_path))]; [disk_ok]
    says whether the file can be written. *)
Definition write_model (disk_ok : bool) : M unit :=
  emit WriteModel;;
  s ← get_self;
  if disk_ok then set_model_file (face_recognizer s)
  else raise (CvError write_failure).

Definition recognizer_update (faces_data : list gray) (labels : list Z) : M unit :=
  emit (Update faces_data labels);;
  s ← get_self;
  r ← call CvError (update (face_recognizer s) faces_data labels);
  set_self (con_recognizer s r).

Definition recognizer_train (faces_data : list gray) (labels : list Z) : M unit :=
  emit (Train faces_data labels);;
  s ← get_self;
  r ← call CvError (train (face_recognizer s) faces_data labels);
  set_self (con_recognizer s r).

(** The files of a holding directory that [cv2.imread] can read, with
    their names. *)
Definition readable (files : list (string * file)) : list (string * gray) :=
  omap (λ nf, (λ img, (nf.1, img)) <$> imread nf.2) files.

(** [entrenar_incremental] for a student name that is the name of an
    entry of [DATA_PATH]: [os.path.exists], [os.listdir] and
    [os.rmdir] then bear on that entry. [disk] says whether the
    [write] of the [try] block and the one of the [except] block can
    write the model file. *)
Definition entrenar_incremental (disk : bool * bool) (estudiante : string)
    : M respuesta :=
  d ← get_data;
  match assoc_get estudiante d with
  | None => mret (fallo "No existe la carpeta del estudiante")
  | Some entry =>
      s ← get_self;
      label ← match label_dict s !! estudiante with
              | Some l => mret l
              | None =>
                  set_self (con_registro s
                              (image_paths s ++ [estudiante])
                              (<[estudiante := next_label s]> (label_dict s))
                              (next_label s + 1));;
                  mret (next_label s)
              end;
      files ← match entry with
              | Directory files => mret files
              | RegularFile => raise (NotADirectoryError (person_path s estudiante))
              end;
      let loaded := readable files in
      let faces_data := snd <$> loaded in
      let labels := (λ _, label) <$> loaded in
      let rutas_procesadas := fst <$> loaded in
      match faces_data with
      | [] => mret (fallo "No hay imágenes para entrenar")
      | _ :: _ =>
          try_except
            (recognizer_update faces_data labels;; write_model disk.1)
            (recognizer_train faces_data labels;; write_model disk.2);;
          let left := List.filter
                        (λ nf, negb (bool_decide (nf.1 ∈ rutas_procesadas))) files in
          d ← get_data;
          set_data (assoc_put estudiante (Directory left) d);;
          d ← get_data;
          match left with
          | [] => set_data (assoc_del estudiante d)
          | _ :: _ => mret tt
          end;;
          mret {| ok := true; msg := "Modelo entrenado"; ruta := None;
                  imagenes_procesadas := Some (Z.of_nat (length faces_data));
                  personas := None; imagenes_totales := None |}
      end
  end.

Definition es_directorio (n : node) : bool :=
  match n with Directory _ => true | RegularFile => false end.

(** [os.listdir(person_path)] for a directory of [d]. *)
Definition listdir (d : list (string * node)) (name_dir : string)
    : list (string * file) :=
  match assoc_get name_dir d with
  | Some (Directory files) => files
  | _ => []
  end.

(** The two nested loops of [entrenar_modelo_completo]: the label
    advances with every person, with or without readable images. *)
Fixpoint leer_personas (d : list (string * node)) (people_list : list string)
    (label : Z) : list gray * list Z :=
  match people_list with
  | [] => ([], [])
  | name_dir :: rest =>
      let imgs := snd <$> readable (listdir d name_dir) in
      let '(faces_data, labels) := leer_personas d rest (label + 1) in
      (imgs ++ faces_data, ((λ _, label) <$> imgs) ++ labels)
  end.

Definition people (d : list (string * node)) : list string :=
  names (List.filter (λ e, es_directorio e.2) d).

Definition entrenar_modelo_completo (disk_ok : bool) : M respuesta :=
  d ← get_data;
  let people_list := people d in
  match people_list with
  | [] => mret (fallo "No hay personas para entrenar")
  | _ :: _ =>
      let '(faces_data, labels) := leer_personas d people_list 0 in
      match faces_data with
      | [] => mret (fallo "No se encontraron imágenes")
      | _ :: _ =>
          s ← get_self;
          set_self (con_recognizer s LBPHFaceRecognizer_create);;
          recognizer_train faces_data labels;;
          s ← get_self;
          set_self (con_registro s people_list
                      (dict_of_enumerate people_list)
                      (Z.of_nat (length people_list)));;
          write_model disk_ok;;
          d ← get_data;
          set_data (foldl (λ acc name_dir, assoc_del name_dir acc) d people_list);;
          mret {| ok := true; msg := "Modelo entrenado completo"; ruta := None;
                  imagenes_procesadas := None;
                  personas := Some (Z.of_nat (length people_list));
                  imagenes_totales := Some (Z.of_nat (length faces_data)) |}
      end
  end.

Definition listar_estudiantes : M (list string) :=
  s ← get_self; mret (image_paths s).

Definition reset_reconocimientos : M unit :=
  s ← get_self; set_self (con_sesion s ∅ ∅).

(** *** Sequences of calls

    A request reaches the service through a view that catches every
    exception, so the service lives on in the state the call left. *)
Inductive llamada :=
| ReconocerRostro (now : Q) (firebase_up : bool) (image_data : string)
| GuardarFotoRegistro (timestamp : Z) (estudiante foto_base64 : string)
| EntrenarIncremental (disk : bool * bool) (estudiante : string)
| EntrenarModeloCompleto (disk_ok : bool)
| ListarEstudiantes
| ResetReconocimientos.

Definition forget {A : Type} (r : run A) : World * list event :=
  (after r, events r).

Definition atender (settings : Settings) (c : llamada) (w : World)
    : World * list event :=
  match c with
  | ReconocerRostro now up img => forget (reconocer_rostro settings now up img w)
  | GuardarFotoRegistro ts e f => forget (guardar_foto_registro ts e f w)
  | EntrenarIncremental disk e => forget (entrenar_incremental disk e w)
  | EntrenarModeloCompleto disk_ok => forget (entrenar_modelo_completo disk_ok w)
  | ListarEstudiantes => forget (listar_estudiantes w)
  | ResetReconocimientos => forget (reset_reconocimientos w)
  end.

Fixpoint atender_todas (settings : Settings) (cs : list llamada) (w : World)
    : World * list event :=
  match cs with
  | [] => (w, [])
  | c :: rest =>
      let '(w1, evs1) := atender settings c w in
      let '(w2, evs2) := atender_todas settings rest w1 in
      (w2, evs1 ++ evs2)
  end.

Definition es_reset (c : llamada) : bool :=
  match c with ResetReconocimientos => true | _ => false end.
End Operations.

(** ** The specification's [normalize]

    Section 4.1 of the specification: crop the box from the
    single-channel conversion of the buffer and resize the crop to the
    canonical 150x150 patch with the fixed interpolation policy. *)
Definition normalize {cv : OpenCV} (pixel_buffer : frame) (b : box)
    : string + gray :=
  let '(x, y, w, h) := b in
  resize (crop (cvtColor pixel_buffer) x y w h) (150, 150) INTER_CUBIC.

(** The patches an operation handed to the classifier, and the ones it
    wrote to a holding directory. *)
Definition patches_predicted (evs : list event) : list gray :=
  omap (λ e, match e with Predict p => Some p | _ => None end) evs.

Definition patches_written (evs : list event) : list gray :=
  omap (λ e, match e with Imwrite _ p => Some p | _ => None end) evs.


(** ** Observations on runs, used to state the properties *)

Section Observations.
Context {cv : OpenCV}.

(** The dictionary a call returned, if it returned. *)
Definition returned {A : Type} (r : run A) : option A :=
  match result r with
  | Return a => Some a
  | Raise _ => None
  end.

(** The ["estado"] of the dictionary [reconocer_rostro] returned. *)
Definition estado_de (r : run resultado) : option string :=
  estado <$> returned r.

Definition with_threshold (settings : Settings) (thr : Q) : Settings :=
  {| DATA_PATH := DATA_PATH settings;
     MODEL_PATH := MODEL_PATH settings;
     confianza_threshold := thr;
     config_duracion_reconocimiento := config_duracion_reconocimiento settings |}.
End Observations.

(** ** Invariants of operations

    [keeps I E m]: started in a world that satisfies [I], the operation
    [m] leaves a world that satisfies [I], whether it returns or
    raises, and every call it makes to a collaborator satisfies [E]. *)
Definition keeps {cv : OpenCV} {A : Type}
    (I : World → Prop) (E : event → Prop) (m : M A) : Prop :=
  ∀ w, I w → I (after (m w)) ∧ Forall E (events (m w)).

(** The world [w] with [s] for its service object. *)
Definition with_self {cv : OpenCV} (w : World) (s : Service) : World :=
  {| self := s; data := data w; model_file := model_file w |}.

Definition with_data {cv : OpenCV} (w : World) (d : list (string * node)) : World :=
  {| self := self w; data := d; model_file := model_file w |}.

Definition with_model_file {cv : OpenCV} (w : World) (r : recognizer) : World :=
  {| self := self w; data := data w; model_file := Some r |}.

(** The session bookkeeping of the service is [R] and [T]. *)
Definition same_session {cv : OpenCV} (R : gset string) (T : gmap string Q)
    (w : World) : Prop :=
  estudiantes_reconocidos (self w) = R ∧ tiempos_reconocimiento (self w) = T.

Definition no_aviso (e : event) : Prop :=
  match e with RegistrarAsistencia _ => False | _ => True end.

(** A run of calls without [reset_reconocimientos]: one session. *)
Definition one_session (cs : list llamada) : Prop :=
  Forall (λ c, es_reset c = false) cs.

(** The invariant of the identity registry: the identities are
    distinct, [next_label] is their number, and the label map sends
    each identity to its position in the list and nothing else. *)
Definition registry_ok (paths : list string) (dict : gmap string Z) (next : Z)
    : Prop :=
  NoDup paths ∧
  next = Z.of_nat (length paths) ∧
  ∀ nombre l, dict !! nombre = Some l ↔ (0 ≤ l ∧ paths !! Z.to_nat l = Some nombre).

Definition registry_inv {cv : OpenCV} (s : Service) : Prop :=
  registry_ok (image_paths s) (label_dict s) (next_label s).

(** [os.path.isdir(os.path.join(DATA_PATH, nombre))] for a name
    without separator: [DATA_PATH] and its parent are directories, and
    another name is one when the listing has a directory of that
    name. *)
Definition es_carpeta {cv : OpenCV} (w : World) (nombre : string) : Prop :=
  match lugar_de nombre with
  | LaCarpeta | ElPadre => True
  | Entrada name => ∃ files, assoc_get name (data w) = Some (Directory files)
  end.

(** [os.makedirs] takes the name: it has no null byte, it is not too
    long for an entry, and no regular file of [DATA_PATH] is in its
    way. *)
Definition se_puede_crear {cv : OpenCV} (w : World) (nombre : string) : Prop :=
  Py.find NUL nombre = None ∧
  ∀ name, lugar_de nombre = Entrada name →
          (String.length name ≤ NAME_MAX)%nat ∧
          assoc_get name (data w) ≠ Some RegularFile.

(** No two entries of [DATA_PATH] have the same name. *)
Definition data_ok {cv : OpenCV} (w : World) : Prop :=
  NoDup (names (data w)).

(** What the specification says of a full retrain: only an identity
    whose holding area has a readable image gets a registry entry. *)
Definition registers_only_non_empty {cv : OpenCV} (disk_ok : bool) (w : World)
    : Prop :=
  let r := entrenar_modelo_completo disk_ok w in
  ∀ nombre, nombre ∈ image_paths (self (after r)) →
            readable (listdir (data w) nombre) ≠ [].

(** The name of the library call behind an event. *)
Definition event_name (e : event) : string :=
  match e with
  | Predict _ => "predict"
  | Update _ _ => "update"
  | Train _ _ => "train"
  | WriteModel => "write"
  | Imwrite _ _ => "imwrite"
  | RegistrarAsistencia _ => "registrar_asistencia"
  end.

(** What a run can do to the count of calls to the attendance service
    for [n] and to the set of registered students: it is silent for a
    student who is registered already, it calls at most once, and a
    student it called for is registered afterwards. *)
Definition once_step {cv : OpenCV} (n : string) (w w' : World) (evs : list event)
    : Prop :=
  (n ∈ estudiantes_reconocidos (self w) →
     avisos n evs = 0%nat ∧ n ∈ estudiantes_reconocidos (self w')) ∧
  (avisos n evs ≤ 1)%nat ∧
  (avisos n evs = 1%nat → n ∈ estudiantes_reconocidos (self w')).

(** The invariant the operations keep, and the events they may emit
    while they keep it. *)
Definition registry_and_data {cv : OpenCV} (w : World) : Prop :=
  registry_inv (self w) ∧ data_ok w.

Definition any_event (e : event) : Prop := True.
(** ** A deterministic test double for the library

    An image payload is its own bytes, one pixel per byte, in one row;
    a payload that starts with ['?'] holds no image. The detector finds
    one face, the whole picture, unless the first pixel is a blank.
    Resizing is nearest-neighbour. The classifier remembers the top-left
    pixel of every patch it was trained on: [update] needs learned
    state, [train] starts over, [predict] answers distance 0 for a
    patch it remembers and 100 for any other. *)
Module Fake.

Fixpoint pixels (s : string) : list Z :=
  match s with
  | EmptyString => []
  | String c r => Z.of_nat (nat_of_ascii c) :: pixels r
  end.

Definition fake_imdecode (b : string) : string + option gray :=
  match b with
  | EmptyString => inl "(-215:Assertion failed) !buf.empty() in function 'imdecode_'"
  | String c _ => if Ascii.eqb c "?" then inr None else inr (Some [pixels b])
  end.

Definition fake_detectMultiScale (g : gray) (scaleFactor : Q) (minNeighbors : Z)
    : list box :=
  match g with
  | (p :: row) :: rows =>
      if p =? 32 then []
      else [(0, 0, Z.of_nat (length (p :: row)), Z.of_nat (length g))]
  | _ => []
  end.

Definition pixel_at (src : gray) (r c : nat) : Z :=
  nth c (nth r src []) 0.

Definition fake_resize (src : gray) (dsize : Z * Z) (i : interpolation) : string + gray :=
  match src with
  | (p :: row) :: rows =>
      let height := Z.to_nat dsize.2 in
      let width := Z.to_nat dsize.1 in
      inr ((λ r, (λ c, pixel_at src (r * length src / height)
                                    (c * length (p :: row) / width))
                   <$> seq 0 width)
             <$> seq 0 height)
  | _ => inl "(-215:Assertion failed) !ssize.empty() in function 'resize'"
  end.

(** What the double keeps of a training image: its top-left pixel. *)
Definition feature (img : gray) : Z := pixel_at img 0 0.

Definition learned : Type := list (Z * Z).

Definition learn (imgs : list gray) (labels : list Z) : learned :=
  zip (feature <$> imgs) labels.

Definition fake_predict (m : learned) (img : gray) : string + (Z * Q) :=
  match m with
  | [] => inl "This LBPH model is not computed yet. Did you call the train method?"
  | (_, first) :: _ =>
      match List.find (λ e, e.1 =? feature img) m with
      | Some (_, l) => inr (l, 0%Q)
      | None => inr (first, 100%Q)
      end
  end.

Definition fake_update (m : learned) (imgs : list gray) (labels : list Z)
    : string + learned :=
  match m with
  | [] => inl "model has no learned state"
  | _ :: _ => inr (m ++ learn imgs labels)
  end.

Definition fake_train (m : learned) (imgs : list gray) (labels : list Z)
    : string + learned :=
  inr (learn imgs labels).

Definition cv : OpenCV := {|
  frame := gray;
  file := option gray;
  recognizer := learned;
  b64decode := inr;
  imdecode := fake_imdecode;
  cvtColor := id;
  detectMultiScale := fake_detectMultiScale;
  resize := fake_resize;
  imread := id;
  imwrite := Some;
  LBPHFaceRecognizer_create := [];
  predict := fake_predict;
  update := fake_update;
  train := fake_train;
  cvtColor_of_None :=
    "OpenCV(4.8.0) color.cpp:182: error: (-215:Assertion failed) !_src.empty() in function 'cvtColor'";
  write_failure :=
    "OpenCV(4.8.0) facerec.cpp:61: error: (-2:Unspecified error) File can't be opened for writing! in function 'write'";
  repr := λ path, "'" +:+ path +:+ "'";
  NAME_MAX := 255;
|}.

Definition settings : Settings := {|
  DATA_PATH := "Data";
  MODEL_PATH := "modelo.xml";
  confianza_threshold := 70%Q;
  config_duracion_reconocimiento := 2%Q;
|}.

(** A fresh process: no model file, an empty [Data] directory. *)
Definition fresh : World (cv := cv) := _initialize (cv := cv) settings [] None.

(** The same process once "ana" has enrolled one photo and the model
    was trained with it. *)
Definition with_ana : World (cv := cv) :=
  (atender_todas (cv := cv) settings
     [GuardarFotoRegistro 1000 "ana" "data:image/jpeg;base64,ana";
      EntrenarIncremental (true, true) "ana"] fresh).1.

(** "ana" seen at t = 0, t = 1 and t = 2.5. *)
Definition ana_at (t : Q) : llamada := ReconocerRostro t true "ana".

Definition three_sightings : list llamada :=
  [ana_at 0%Q; ana_at 1%Q; ana_at (5 # 2)%Q].

Definition with_ana_registered : World (cv := cv) :=
  (atender_todas (cv := cv) settings three_sightings with_ana).1.

(** The next class period: the session is reset and "ana" is seen at
    t = 10 and t = 12. *)
Definition next_period : World (cv := cv) :=
  after (reset_reconocimientos (cv := cv) with_ana_registered).

(** A request for "bob" whose photo is not a data URL: the payload
    has no comma. *)
Definition with_bob_folder : World (cv := cv) :=
  (atender (cv := cv) settings
     (GuardarFotoRegistro 2000 "bob" "bm90IGFuIGltYWdl") with_ana).1.

(** "bob" with one good photo waiting in his holding directory. *)
Definition with_bob_photo : World (cv := cv) :=
  (atender (cv := cv) settings
     (GuardarFotoRegistro 3000 "bob" "data:image/jpeg;base64,bob") with_ana).1.

(** Two holding directories, one with a photo and one without. *)
Definition two_folders : World (cv := cv) :=
  _initialize (cv := cv) settings
    [("ana", Directory (cv := cv) [("rostro_1.jpg", Some [[97; 110; 97]])]);
     ("bob", Directory (cv := cv) [])]
    None.
End Fake.

(** ** Further observations: strings *)

(** The position of the last [c] in [s], counted from the start. *)
Fixpoint last_index (c : ascii) (s : string) : option nat :=
  match s with
  | EmptyString => None
  | String d r =>
      match last_index c r with
      | Some k => Some (S k)
      | None => if Ascii.eqb d c then Some O else None
      end
  end.

(** A data URL with media subtype [subtype] and base64 text [b64]. *)
Definition data_url (subtype b64 : string) : string :=
  Py.scheme +:+ subtype +:+ Py.marker +:+ b64.

(** ** Further observations: the service *)

(** What the training operations own: the recognizer, the registry and
    what is on disk. *)
Definition model_state {cv : OpenCV} (w : World)
    : recognizer * list string * gmap string Z * Z
      * list (string * node) * option recognizer :=
  (face_recognizer (self w), image_paths (self w), label_dict (self w),
   next_label (self w), data w, model_file w).

(** All of the world but the two session containers. *)
Definition outside_session {cv : OpenCV} (w : World) (X : World) : Prop :=
  model_state w = model_state X ∧
  data_path (self w) = data_path (self X) ∧
  model_path (self w) = model_path (self X) ∧
  duracion_reconocimiento (self w) = duracion_reconocimiento (self X).

(** The identity list, the label map and the next label. *)
Definition registry {cv : OpenCV} (w : World) : list string * gmap string Z * Z :=
  (image_paths (self w), label_dict (self w), next_label (self w)).

(** The student [n] has label [l] and the identity list starts with
    [P]. *)
Definition label_kept {cv : OpenCV} (n : string) (l : Z) (P : list string)
    (w : World) : Prop :=
  label_dict (self w) !! n = Some l ∧ P `prefix_of` image_paths (self w).

(** A run of calls without [entrenar_modelo_completo]. *)
Definition es_completo (c : llamada) : bool :=
  match c with EntrenarModeloCompleto _ => true | _ => false end.

Definition no_full_retrain (cs : list llamada) : Prop :=
  Forall (λ c, es_completo c = false) cs.

(** The entries of [DATA_PATH] that are not directories. *)
Definition regular_files {cv : OpenCV} (d : list (string * node))
    : list (string * node) :=
  List.filter (λ e, negb (es_directorio e.2)) d.

(** The file name an enrolment gives to its photo. *)
Definition nombre_foto (timestamp : Z) : string :=
  "rostro_" +:+ pretty timestamp +:+ ".jpg".

(** The entry of [DATA_PATH] an enrolment can change: the holding
    directory of the sanitized name; the photo itself, when that name
    leads to [DATA_PATH]; none, when it leads to the parent. *)
Definition entrada_tocada (timestamp : Z) (estudiante : string) : option string :=
  match lugar_de (Py.splitext (Py.basename estudiante)).1 with
  | Entrada name => Some name
  | LaCarpeta => Some (nombre_foto timestamp)
  | ElPadre => None
  end.

(** A name that is the name of an entry of a directory: not empty,
    not ["."] or [".."], without separator and without null byte. *)
Definition nombre_llano (nombre : string) : bool :=
  negb (String.eqb nombre "") && negb (String.eqb nombre ".")
  && negb (String.eqb nombre "..")
  && negb (bool_decide (is_Some (Py.find "/" nombre)))
  && negb (bool_decide (is_Some (Py.find NUL nombre))).

(** The dedup logic of lines 116-122 calls the attendance service for
    [nombre] at the reading [now]. *)
Definition dispara {cv : OpenCV} (now : Q) (nombre : string) (s : Service) : bool :=
  match tiempos_reconocimiento s !! nombre with
  | Some t0 =>
      Py.ge (now - t0)%Q (duracion_reconocimiento s)
      && negb (bool_decide (nombre ∈ estudiantes_reconocidos s))
  | None => false
  end.

(** ** More scenes for the test double *)

Module Scenes.

(** A service whose recognizer answers label -1 for the picture "ana",
    with two students in the registry. *)
Definition negative_label : World (cv := Fake.cv) :=
  {| self :=
       con_registro
         (con_recognizer (self Fake.fresh) ([(97, -1)] : @recognizer Fake.cv))
         ["ana"; "bob"] (dict_of_enumerate ["ana"; "bob"]) 2;
     data := [];
     model_file := None |}.

(** The patch the test double makes of the picture "ana". *)
Definition ana_patch : gray :=
  match Fake.fake_resize [[97; 110; 97]] (150, 150) INTER_CUBIC with
  | inr p => p
  | inl _ => []
  end.

(** A fresh service with one holding directory: a photo of "bob" and
    a file that is no image. *)
Definition mixed_folder : World (cv := Fake.cv) :=
  _initialize (cv := Fake.cv) Fake.settings
    [("bob", Directory (cv := Fake.cv)
               [("rostro_1.jpg", Some [[98; 111; 98]]); ("notas.txt", None)])]
    None.

(** A data directory with a stray regular file beside the holding
    directory of "ana", and a saved model. *)
Definition stray_file : World (cv := Fake.cv) :=
  _initialize (cv := Fake.cv) Fake.settings
    [("LEEME.txt", RegularFile (cv := Fake.cv));
     ("ana", Directory (cv := Fake.cv) [("rostro_1.jpg", Some [[97; 110; 97]])])]
    None.

(** A data directory in which a regular file has the name "notas". *)
Definition archivo_en_medio : World (cv := Fake.cv) :=
  _initialize (cv := Fake.cv) Fake.settings
    [("notas", RegularFile (cv := Fake.cv))] None.

(** The test double with a detector that finds, in a picture of one
    row and three columns or more, the box of the two pixels after
    the first. *)
Definition detectMultiScale_recorte (g : gray) (scaleFactor : Q) (minNeighbors : Z)
    : list box :=
  match g with
  | (_ :: _ :: _ :: _) :: _ => [(1, 0, 2, 1)]
  | _ => []
  end.

Definition cv_recorte : OpenCV := {|
  frame := gray;
  file := option gray;
  recognizer := Fake.learned;
  b64decode := inr;
  imdecode := Fake.fake_imdecode;
  cvtColor := id;
  detectMultiScale := detectMultiScale_recorte;
  resize := Fake.fake_resize;
  imread := id;
  imwrite := Some;
  LBPHFaceRecognizer_create := [];
  predict := Fake.fake_predict;
  update := Fake.fake_update;
  train := Fake.fake_train;
  cvtColor_of_None := cvtColor_of_None (OpenCV := Fake.cv);
  write_failure := write_failure (OpenCV := Fake.cv);
  repr := repr (OpenCV := Fake.cv);
  NAME_MAX := NAME_MAX (OpenCV := Fake.cv);
|}.

Definition fresh_recorte : World (cv := cv_recorte) :=
  _initialize (cv := cv_recorte) Fake.settings [] None.
End Scenes.

(** * The HTTP layer: [api_app/permissions.py] and the views of [api_app/views.py]
      that call the recognition service

    Conventions of this part.
    - [firebase_admin.auth] is library code: what [verify_id_token]
      answers for a token, the classes its errors are instances of and
      their text are the fields of the class [FirebaseAuth].
    - A request is what the views read of it: the [Authorization]
      header, the parsed body [request.data] and the attribute
      [user_firebase] that [verificar_token] sets. Reading
      [request.data] can raise (a body that does not parse, a body that
      is no object and has no [get]); a value of the body is a string
      or something else, of which the views use the truth value and
      the type name.
    - [str.strip] and the text of the [TypeError] that [re.sub] raises
      for a value that is no string are fields of the class [Runtime].
    - [TypeError] and [AttributeError] never leave the service's own
      operations, so they are no constructors of [exn]: where a view
      raises one inside its [try] block, the block is written with the
      answer its [except Exception as e] clause gives for it.
    - Logging is not modelled. *)

(** ** Python built-ins used by the views *)

(** [s.split(sep)] for a separator of one character. *)
Fixpoint str_split (sep : ascii) (s : string) : list string :=
  match s with
  | EmptyString => [""]
  | String c rest =>
      if Ascii.eqb c sep then "" :: str_split sep rest
      else match str_split sep rest with
           | [] => [String c ""]
           | p :: ps => String c p :: ps
           end
  end.

(** A value of [request.data]. *)
Inductive valor :=
| Texto (s : string)
| Otro (type_name : string) (truth : bool).

(** [bool(v)] *)
Definition truthy (v : valor) : bool :=
  match v with
  | Texto s => negb (String.eqb s "")
  | Otro _ truth => truth
  end.

(** [type(v).__name__] *)
Definition type_name_of (v : valor) : string :=
  match v with
  | Texto _ => "str"
  | Otro t _ => t
  end.

(** [v == s] for a string literal [s]. *)
Definition es_texto (v : valor) (s : string) : bool :=
  match v with
  | Texto t => String.eqb t s
  | Otro _ _ => false
  end.

(** [str(e)] for the [AttributeError] of [v.attr]. *)
Definition attribute_error (v : valor) (attr : string) : string :=
  "'" +:+ type_name_of v +:+ "' object has no attribute '" +:+ attr +:+ "'".

Class Runtime := {
  str_strip : string → string;
  re_type_error : valor → string;
}.

(** [firebase_admin.auth] *)
Class FirebaseAuth := {
  decoded_token : Type;
  auth_error : Type;
  verify_id_token : string → auth_error + decoded_token;
  isinstance_InvalidIdTokenError : auth_error → bool;
  isinstance_ExpiredIdTokenError : auth_error → bool;
  isinstance_RevokedIdTokenError : auth_error → bool;
  auth_str : auth_error → string;
}.

(** ** Requests and responses *)

Definition HTTP_200_OK : Z := 200.
Definition HTTP_400_BAD_REQUEST : Z := 400.
Definition HTTP_401_UNAUTHORIZED : Z := 401.
Definition HTTP_500_INTERNAL_SERVER_ERROR : Z := 500.

(** The dictionaries the views answer with. *)
Inductive cuerpo :=
| CuerpoError (error : string)
| CuerpoEstadoError (mensaje : string)
| CuerpoResultado (resultado : resultado)
| CuerpoRespuesta (resultado : respuesta)
| CuerpoEstudiantes (estudiantes : list string) (total : Z).

Record Response := {
  response_data : cuerpo;
  status_code : Z;
}.

Section Permissions.
Context {fb : FirebaseAuth}.

Record Request := {
  authorization : option string;
  request_data : string + gmap string valor;
  user_firebase : option decoded_token;
}.

Definition con_usuario (request : Request) (decoded : decoded_token) : Request :=
  {| authorization := authorization request;
     request_data := request_data request;
     user_firebase := Some decoded |}.

Definition no_autorizado (error : string) : Response :=
  {| response_data := CuerpoError error; status_code := HTTP_401_UNAUTHORIZED |}.

Definition formato_invalido : Response :=
  no_autorizado "Formato de token inválido. Usa 'Bearer <token>'".

(** [verificar_token(request)]: the response it returns, or [None],
    and the request as it leaves it. *)
Definition verificar_token (request : Request) : option Response * Request :=
  match authorization request with
  | None => (Some (no_autorizado "No se encontró el token de autorización."), request)
  | Some auth_header =>
      if String.eqb auth_header "" then
        (Some (no_autorizado "No se encontró el token de autorización."), request)
      else
        match str_split " " auth_header with
        | [p0; id_token] =>
            if negb (String.eqb p0 "Bearer") then (Some formato_invalido, request)
            else
              match verify_id_token id_token with
              | inr decoded_token => (None, con_usuario request decoded_token)
              | inl e =>
                  if isinstance_InvalidIdTokenError e then
                    (Some (no_autorizado "Token inválido."), request)
                  else if isinstance_ExpiredIdTokenError e then
                    (Some (no_autorizado "Token expirado."), request)
                  else if isinstance_RevokedIdTokenError e then
                    (Some (no_autorizado "Token revocado."), request)
                  else
                    (Some (no_autorizado ("Error verificando token: " +:+ auth_str e)),
                     request)
              end
        | _ => (Some formato_invalido, request)
        end
  end.
End Permissions.

(** ** The views *)

Section Views.
Context {cv : OpenCV} {fb : FirebaseAuth} {rt : Runtime}.

Definition responder (c : cuerpo) (status : Z) : M Response :=
  mret {| response_data := c; status_code := status |}.

(** [request.data.get(key, default)] *)
Definition data_get (d : gmap string valor) (key : string) (default : valor) : valor :=
  match d !! key with
  | Some v => v
  | None => default
  end.

(** [RegistroView.post]. A missing key and a JSON [null] both give
    [None], which is not truthy. *)
Definition RegistroView_post (settings : Settings) (now : Q) (firebase_up : bool)
    (request : Request) : M Response :=
  match verificar_token request with
  | (Some token_error, _) => mret token_error
  | (None, request) =>
      let error_500 m := responder (CuerpoEstadoError m) HTTP_500_INTERNAL_SERVER_ERROR in
      try_except_as
        (match request_data request with
         | inl m => error_500 m
         | inr d =>
             let image_data := data_get d "image" (Otro "NoneType" false) in
             if negb (truthy image_data) then
               responder (CuerpoEstadoError "No se recibió imagen") HTTP_400_BAD_REQUEST
             else
               match image_data with
               | Texto image_data =>
                   resultado ← reconocer_rostro settings now firebase_up image_data;
                   responder (CuerpoResultado resultado) HTTP_200_OK
               | Otro _ _ => error_500 (re_type_error image_data)
               end
         end)
        (λ e, error_500 (str e))
  end.

(** [guardar_foto_registro(estudiante, foto)] for a photo that may be
    no string: [foto_base64.split] then raises [AttributeError] inside
    the [try] block of the operation, after the directory was made. *)
Definition guardar_foto_registro_valor (timestamp : Z) (estudiante : string)
    (foto : valor) : M respuesta :=
  match foto with
  | Texto foto_base64 => guardar_foto_registro timestamp estudiante foto_base64
  | Otro _ _ =>
      let estudiante := (Py.splitext (Py.basename estudiante)).1 in
      makedirs estudiante;;
      mret (fallo ("Error decodificando imagen: " +:+ attribute_error foto "split"))
  end.

(** [GuardarFotoView.post]; [timestamp] is the argument of the
    enrolment. *)
Definition GuardarFotoView_post (timestamp : Z) (request : Request) : M Response :=
  match verificar_token request with
  | (Some token_error, _) => mret token_error
  | (None, request) =>
      let error_500 m := responder (CuerpoError m) HTTP_500_INTERNAL_SERVER_ERROR in
      try_except_as
        (match request_data request with
         | inl m => error_500 m
         | inr d =>
             match data_get d "estudiante" (Texto "") with
             | Otro t b => error_500 (attribute_error (Otro t b) "strip")
             | Texto estudiante =>
                 let estudiante := str_strip estudiante in
                 let foto := data_get d "foto" (Texto "") in
                 if String.eqb estudiante "" || negb (truthy foto) then
                   responder (CuerpoError "Faltan datos") HTTP_400_BAD_REQUEST
                 else
                   resultado ← guardar_foto_registro_valor timestamp estudiante foto;
                   if ok resultado then
                     responder (CuerpoRespuesta resultado) HTTP_200_OK
                   else
                     responder (CuerpoRespuesta resultado) HTTP_200_OK
             end
         end)
        (λ e, error_500 (str e))
  end.

(** [EntrenarModeloView.post]; [disk] is the argument of the
    incremental training, [disk_ok] the one of the full retrain. *)
Definition EntrenarModeloView_post (disk : bool * bool) (disk_ok : bool)
    (request : Request) : M Response :=
  match verificar_token request with
  | (Some token_error, _) => mret token_error
  | (None, request) =>
      let error_500 m := responder (CuerpoError m) HTTP_500_INTERNAL_SERVER_ERROR in
      try_except_as
        (match request_data request with
         | inl m => error_500 m
         | inr d =>
             match data_get d "estudiante" (Texto "") with
             | Otro t b => error_500 (attribute_error (Otro t b) "strip")
             | Texto estudiante =>
                 let estudiante := str_strip estudiante in
                 let tipo_entrenamiento := data_get d "tipo" (Texto "incremental") in
                 if String.eqb estudiante "" && es_texto tipo_entrenamiento "incremental"
                 then
                   responder
                     (CuerpoError
                        "Se requiere nombre de estudiante para entrenamiento incremental")
                     HTTP_400_BAD_REQUEST
                 else
                   resultado ←
                     (if es_texto tipo_entrenamiento "completo"
                      then entrenar_modelo_completo disk_ok
                      else entrenar_incremental disk estudiante);
                   if ok resultado then
                     responder (CuerpoRespuesta resultado) HTTP_200_OK
                   else
                     responder (CuerpoRespuesta resultado) HTTP_400_BAD_REQUEST
             end
         end)
        (λ e, error_500 (str e))
  end.

(** [ListarEstudiantesView.get] *)
Definition ListarEstudiantesView_get (request : Request) : M Response :=
  match verificar_token request with
  | (Some token_error, _) => mret token_error
  | (None, request) =>
      try_except_as
        (estudiantes ← listar_estudiantes;
         responder (CuerpoEstudiantes estudiantes (Z.of_nat (length estudiantes)))
           HTTP_200_OK)
        (λ e, responder (CuerpoError (str e)) HTTP_500_INTERNAL_SERVER_ERROR)
  end.

(** A view call answers, with one of the status codes [codes]. *)
Definition responds (r : run Response) (codes : list Z) : Prop :=
  ∃ response, result r = Return response ∧ status_code response ∈ codes.

(** A view call left the service as it was and called nothing. *)
Definition untouched (r : run Response) (w : World) : Prop :=
  after r = w ∧ events r = [].
End Views.

(** ** A test double for Firebase and the run time *)

Module FakeWeb.

Inductive error := Malformed | Expired | Revoked | Unreachable.

(** The token "good" belongs to the user "uid-1", "old" has expired,
    "gone" was revoked, the empty token cannot be checked and any
    other is malformed. *)
Definition fake_verify_id_token (id_token : string) : error + string :=
  if String.eqb id_token "good" then inr "uid-1"
  else if String.eqb id_token "old" then inl Expired
  else if String.eqb id_token "gone" then inl Revoked
  else if String.eqb id_token "" then inl Unreachable
  else inl Malformed.

(** The errors of the library: an expired and a revoked token are
    invalid tokens too. *)
Definition fb : FirebaseAuth := {|
  decoded_token := string;
  auth_error := error;
  verify_id_token := fake_verify_id_token;
  isinstance_InvalidIdTokenError e :=
    match e with Unreachable => false | _ => true end;
  isinstance_ExpiredIdTokenError e :=
    match e with Expired => true | _ => false end;
  isinstance_RevokedIdTokenError e :=
    match e with Revoked => true | _ => false end;
  auth_str e :=
    match e with
    | Malformed => "Wrong number of segments in token"
    | Expired => "Token expired"
    | Revoked => "The Firebase ID token has been revoked."
    | Unreachable => "ID token must be a non-empty string."
    end;
|}.

(** Blanks at both ends are removed. *)
Fixpoint lstrip (s : string) : string :=
  match s with
  | String c r => if Ascii.eqb c " " then lstrip r else s
  | EmptyString => EmptyString
  end.

Definition fake_strip (s : string) : string :=
  String.rev (lstrip (String.rev (lstrip s))).

Definition rt : Runtime := {|
  str_strip := fake_strip;
  re_type_error v := "expected string or bytes-like object, got '"
                     +:+ type_name_of v +:+ "'";
|}.

Definition peticion (header : option string) (d : list (string * valor))
    : Request (fb := fb) :=
  {| authorization := header;
     request_data := inr (list_to_map d);
     user_firebase := None |}.

Definition autorizada (d : list (string * valor)) : Request (fb := fb) :=
  peticion (Some "Bearer good") d.
End FakeWeb.

(** * Properties *)

Ltac unfold_M :=
  unfold mbind, M_bind, mret, M_ret, bind, ret, raise, emit, call,
    get_self, set_self, get_data, set_data, set_model_file,
    try_except, try_except_as in *.

(** ** Rules for invariants *)

Section Keeps.
Context {cv : OpenCV}.
Variable I : World → Prop.
Variable E : event → Prop.

Lemma keeps_ret {A : Type} (a : A) : keeps I E (mret a).
Proof. intros w Hw. by split. Qed.

Lemma keeps_raise {A : Type} (e : exn) : keeps I E (raise (A := A) e).
Proof. intros w Hw. by split. Qed.

Lemma keeps_call {A : Type} (mk : string → exn) (x : string + A) :
  keeps I E (call mk x).
Proof. destruct x; [apply keeps_raise | apply keeps_ret]. Qed.

Lemma keeps_emit (e : event) : E e → keeps I E (emit e).
Proof. intros He w Hw. split; [done | by constructor]. Qed.

Lemma keeps_bind {A B : Type} (m : M A) (k : A → M B) :
  keeps I E m → (∀ a, keeps I E (k a)) → keeps I E (m ≫= k).
Proof.
  intros Hm Hk w Hw. destruct (Hm w Hw) as [H1 H2].
  unfold mbind, M_bind, bind.
  destruct (m w) as [w1 evs1 [a|e]]; simpl in *; [|done].
  destruct (Hk a _ H1) as [H3 H4].
  destruct (k a w1) as [w2 evs2 r]; simpl in *.
  split; [done | by apply Forall_app].
Qed.

Lemma keeps_get_self {A : Type} (k : Service → M A) :
  (∀ s, (∃ w, I w ∧ self w = s) → keeps I E (k s)) →
  keeps I E (get_self ≫= k).
Proof.
  intros Hk w Hw. unfold mbind, M_bind, bind, get_self. simpl.
  destruct (Hk (self w) (ex_intro _ w (conj Hw eq_refl)) w Hw) as [H1 H2].
  destruct (k (self w) w) as [w2 evs2 r]; simpl in *. done.
Qed.

Lemma keeps_get_data {A : Type} (k : list (string * node) → M A) :
  (∀ d, (∃ w, I w ∧ data w = d) → keeps I E (k d)) →
  keeps I E (get_data ≫= k).
Proof.
  intros Hk w Hw. unfold mbind, M_bind, bind, get_data. simpl.
  destruct (Hk (data w) (ex_intro _ w (conj Hw eq_refl)) w Hw) as [H1 H2].
  destruct (k (data w) w) as [w2 evs2 r]; simpl in *. done.
Qed.

Lemma keeps_set_self (s : Service) :
  (∀ w, I w → I (with_self w s)) → keeps I E (set_self s).
Proof. intros H w Hw. split; [by apply H | done]. Qed.

Lemma keeps_set_data (d : list (string * node)) :
  (∀ w, I w → I (with_data w d)) → keeps I E (set_data d).
Proof. intros H w Hw. split; [by apply H | done]. Qed.

Lemma keeps_set_model_file (r : recognizer) :
  (∀ w, I w → I (with_model_file w r)) → keeps I E (set_model_file r).
Proof. intros H w Hw. split; [by apply H | done]. Qed.

Lemma keeps_try_except {A : Type} (body handler : M A) :
  keeps I E body → keeps I E handler → keeps I E (try_except body handler).
Proof.
  intros Hb Hh w Hw. destruct (Hb w Hw) as [H1 H2]. unfold try_except.
  destruct (body w) as [w1 evs1 [a|e]]; simpl in *; [done|].
  destruct (Hh _ H1) as [H3 H4].
  destruct (handler w1) as [w2 evs2 r]; simpl in *.
  split; [done | by apply Forall_app].
Qed.

Lemma keeps_try_except_as {A : Type} (body : M A) (handler : exn → M A) :
  keeps I E body → (∀ e, keeps I E (handler e)) →
  keeps I E (try_except_as body handler).
Proof.
  intros Hb Hh w Hw. destruct (Hb w Hw) as [H1 H2]. unfold try_except_as.
  destruct (body w) as [w1 evs1 [a|e]]; simpl in *; [done|].
  destruct (Hh e _ H1) as [H3 H4].
  destruct (handler e w1) as [w2 evs2 r]; simpl in *.
  split; [done | by apply Forall_app].
Qed.
End Keeps.

(** Walks through an operation with the rules above; what is left are
    the goals about the writes to the state and the emitted events. *)
Ltac keeps_walk :=
  repeat first
    [ apply keeps_ret
    | apply keeps_raise
    | apply keeps_call
    | apply keeps_get_self; intros ? ?
    | apply keeps_get_data; intros ? ?
    | apply keeps_try_except
    | apply keeps_try_except_as; [|intros ?]
    | apply keeps_bind; [|intros ?]
    | match goal with
      | |- keeps _ _ (match ?x with _ => _ end) => destruct x eqn:?
      | |- keeps _ _ (let '(_, _) := ?x in _) => destruct x eqn:?
      end ].

(** ** The Python helpers on examples *)

Example basename_path : Py.basename "../etc/ana.jpg" = "ana.jpg".
Proof. reflexivity. Qed.

Example splitext_plain : Py.splitext "ana.jpg" = ("ana", ".jpg").
Proof. reflexivity. Qed.

Example splitext_hidden : Py.splitext ".bashrc" = (".bashrc", "").
Proof. reflexivity. Qed.

Example splitext_two_dots : Py.splitext "ana.tar.gz" = ("ana.tar", ".gz").
Proof. reflexivity. Qed.

Example split_comma_header :
  Py.split_comma "data:image/png;base64,AAAA,BB" = Some ("data:image/png;base64", "AAAA,BB").
Proof. reflexivity. Qed.

Example split_comma_none : Py.split_comma "AAAA" = None.
Proof. reflexivity. Qed.

Example strip_data_url_png : Py.strip_data_url "data:image/png;base64,AAAA" = "AAAA".
Proof. reflexivity. Qed.

Example strip_data_url_bare : Py.strip_data_url "AAAA" = "AAAA".
Proof. reflexivity. Qed.

Example slice_inside : Py.slice 1 3 [10; 20; 30; 40] = [20; 30].
Proof. reflexivity. Qed.

Example slice_overrun : Py.slice 2 9 [10; 20; 30; 40] = [30; 40].
Proof. reflexivity. Qed.

Example index_negative : Py.index ["ana"; "bob"] (-1) = Some "bob".
Proof. reflexivity. Qed.

Example index_out : Py.index ["ana"; "bob"] (-3) = None.
Proof. reflexivity. Qed.

(** ** The operations on the test double *)

(** The round trip of the specification: one photo of "ana" enrolled,
    an incremental training, and the same picture is recognised. *)
Example round_trip :
  image_paths (self Fake.with_ana) = ["ana"] ∧
  data Fake.with_ana = [] ∧
  model_file Fake.with_ana = Some [(97, 0)] ∧
  returned (reconocer_rostro (cv := Fake.cv) Fake.settings 0 true
              "data:image/jpeg;base64,ana" Fake.with_ana)
  = Some (Reconocido "ana" 0 [0; 0; 3; 1]).
Proof. repeat split; reflexivity. Qed.

(** A picture the recognizer has not seen is ["desconocido"], a blank
    picture has no face, and a payload that holds no image raises. *)
Example unknown_face :
  returned (reconocer_rostro (cv := Fake.cv) Fake.settings 0 true "eva" Fake.with_ana)
  = Some (Desconocido 100 [0; 0; 3; 1]).
Proof. reflexivity. Qed.

Example blank_picture :
  returned (reconocer_rostro (cv := Fake.cv) Fake.settings 0 true "   " Fake.with_ana)
  = Some SinRostro.
Proof. reflexivity. Qed.

Example not_an_image :
  result (reconocer_rostro (cv := Fake.cv) Fake.settings 0 true "?" Fake.with_ana)
  = Raise (CvError (cvtColor_of_None (OpenCV := Fake.cv))).
Proof. reflexivity. Qed.

(** An enrolment names the file after the millisecond count it
    computed. *)
Example enrolment_path :
  ruta <$> returned (guardar_foto_registro (cv := Fake.cv) 1500 "../ana.png"
                       "data:image/jpeg;base64,ana" Fake.fresh)
  = Some (Some "Data/ana/rostro_1500.jpg").
Proof. reflexivity. Qed.

(** ** Directory listings *)

Section AssocFacts.
Context {A : Type}.
Implicit Types (k : string) (v : A) (l : list (string * A)).

Lemma assoc_get_snoc k v l :
  assoc_get k (l ++ [(k, v)]) =
  match assoc_get k l with Some x => Some x | None => Some v end.
Proof.
  induction l as [|[k' v'] l IH]; simpl.
  - by rewrite String.eqb_refl.
  - by destruct (String.eqb k' k).
Qed.

Lemma assoc_get_put k v l : assoc_get k (assoc_put k v l) = Some v.
Proof.
  induction l as [|[k' v'] l IH]; simpl.
  - by rewrite String.eqb_refl.
  - destruct (String.eqb k' k) eqn:E; simpl.
    + by rewrite String.eqb_refl.
    + by rewrite E.
Qed.

Lemma assoc_get_None k l : assoc_get k l = None ↔ k ∉ names l.
Proof.
  unfold names. induction l as [|[k' v'] l IH]; simpl.
  - split; [intros _; apply not_elem_of_nil | done].
  - rewrite not_elem_of_cons. destruct (String.eqb_spec k' k) as [->|Hne].
    + split; [done | by intros [? _]].
    + rewrite IH. split; [by split | by intros [_ ?]].
Qed.

Lemma assoc_get_Some_names k v l : assoc_get k l = Some v → k ∈ names l.
Proof.
  intros H. destruct (decide (k ∈ names l)) as [|Hn]; [done|].
  apply assoc_get_None in Hn. congruence.
Qed.

Lemma names_put_present k v l :
  k ∈ names l → names (assoc_put k v l) = names l.
Proof.
  unfold names. induction l as [|[k' v'] l IH]; simpl.
  - by intros ?%elem_of_nil.
  - destruct (String.eqb_spec k' k) as [->|Hne]; [done|].
    intros [?|Hin]%elem_of_cons; [congruence|]. simpl. f_equal. by apply IH.
Qed.

Lemma names_del_sublist k l : names (assoc_del k l) `sublist_of` names l.
Proof.
  unfold names. induction l as [|[k' v'] l IH]; simpl; [done|].
  destruct (String.eqb k' k); simpl.
  - by apply sublist_cons.
  - by apply sublist_skip.
Qed.

Lemma names_snoc k v l : names (l ++ [(k, v)]) = names l ++ [k].
Proof. unfold names. by rewrite fmap_app. Qed.

Lemma NoDup_names_snoc k v l :
  assoc_get k l = None → NoDup (names l) → NoDup (names (l ++ [(k, v)])).
Proof.
  intros Hk Hl. rewrite names_snoc. apply NoDup_app. split; [done|].
  split; [|apply NoDup_singleton].
  intros x Hx ->%list_elem_of_singleton. by apply assoc_get_None in Hk.
Qed.

Lemma names_put_absent k v l :
  k ∉ names l → names (assoc_put k v l) = names l ++ [k].
Proof.
  unfold names. induction l as [|[k' v'] l IH]; simpl; [done|].
  intros [Hne Hin]%not_elem_of_cons.
  destruct (String.eqb_spec k' k) as [->|_]; [done|].
  simpl. f_equal. by apply IH.
Qed.

Lemma NoDup_names_put k v l :
  NoDup (names l) → NoDup (names (assoc_put k v l)).
Proof.
  intros Hl. destruct (decide (k ∈ names l)) as [Hin|Hout].
  - by rewrite names_put_present.
  - rewrite names_put_absent by done. apply NoDup_app. split; [done|].
    split; [|apply NoDup_singleton].
    by intros x Hx ->%list_elem_of_singleton.
Qed.

Lemma NoDup_names_del k l : NoDup (names l) → NoDup (names (assoc_del k l)).
Proof. intros H. eapply sublist_NoDup; [done | apply names_del_sublist]. Qed.

Lemma NoDup_names_del_all (ks : list string) l :
  NoDup (names l) →
  NoDup (names (foldl (λ acc k, assoc_del k acc) l ks)).
Proof.
  revert l. induction ks as [|k ks IH]; intros l Hl; simpl; [done|].
  by apply IH, NoDup_names_del.
Qed.
End AssocFacts.

(** ** Recognition: the decision *)

Section Recognition.
Context {cv : OpenCV}.

Lemma lt_iff (a b : Q) : Py.lt a b = true ↔ (a < b)%Q.
Proof.
  unfold Py.lt. rewrite negb_true_iff. split.
  - intros H. apply Qnot_le_lt. intros Hle.
    apply Qle_bool_iff in Hle. congruence.
  - intros H. destruct (Qle_bool b a) eqn:E; [|done].
    apply Qle_bool_iff in E. exfalso. by apply (Qlt_not_le a b).
Qed.

Lemma lt_mono (c t1 t2 : Q) :
  (t1 <= t2)%Q → Py.lt c t1 = true → Py.lt c t2 = true.
Proof.
  rewrite !lt_iff. intros Hle Hlt. by apply Qlt_le_trans with t1.
Qed.

(** C5. [reconocer_rostro] returns the dictionary with ["estado"]
    equal to ["sin_rostro"] exactly when the image decodes to a frame
    on which the detector returns the empty list. *)
Theorem sin_rostro_iff_no_faces settings now up image_data (w : World) :
  estado_de (reconocer_rostro settings now up image_data w) = Some "sin_rostro" ↔
  ∃ f, returned (decode_image image_data w) = Some (Some f) ∧
       ∃ g, returned (detectar_rostro (Some f) w) = Some (g, []).
Proof.
  unfold estado_de, returned, reconocer_rostro, decode_image, detectar_rostro.
  unfold_M. simpl.
  destruct (b64decode _) as [?|bytes]; simpl.
  { split; [done|]. by intros (f & Hf & _). }
  destruct (imdecode bytes) as [?|[f|]]; simpl.
  { split; [done|]. by intros (f & Hf & _). }
  2:{ split; [done|]. by intros (f & Hf & _). }
  destruct (detectMultiScale _ _ _) as [|[[[x y] bw] bh] ?] eqn:Hfaces; simpl.
  { split; [|done]. intros _. exists f. split; [done|]. eexists. by rewrite Hfaces. }
  split.
  - intros H. exfalso.
    destruct (resize _ _ _) as [?|rostro]; simpl in *; [done|].
    destruct (predict _ _) as [?|[label confianza]]; simpl in *; [done|].
    destruct (_ && _); simpl in *; [|done].
    destruct (Py.index _ _); simpl in *; [|done].
    destruct (registro_unico_con_tiempo _ _ _ _) as [w1 evs1 [[]|e]];
      simpl in *; done.
  - intros (f' & Hf & g & Hg). simpl in *. simplify_eq. congruence.
Qed.

(** C6. For one image in one state, hence one predicted label and
    distance: a result that is ["desconocido"] under a threshold is
    ["desconocido"] under every lower one, and a result that is
    ["reconocido"] under a threshold is ["reconocido"] under every
    higher one. *)
Theorem threshold_monotone settings now up image_data (w : World) (thr1 thr2 : Q) :
  (thr1 <= thr2)%Q →
  let lower := reconocer_rostro (with_threshold settings thr1) now up image_data w in
  let higher := reconocer_rostro (with_threshold settings thr2) now up image_data w in
  (estado_de higher = Some "desconocido" → estado_de lower = Some "desconocido") ∧
  (estado_de lower = Some "reconocido" → estado_de higher = Some "reconocido").
Proof.
  intros Hle. simpl.
  unfold estado_de, returned, reconocer_rostro, decode_image, detectar_rostro.
  unfold_M. simpl.
  destruct (b64decode _) as [?|bytes]; simpl; [by split|].
  destruct (imdecode bytes) as [?|[f|]]; simpl; [by split| |by split].
  destruct (detectMultiScale _ _ _) as [|[[[x y] bw] bh] ?]; simpl; [by split|].
  destruct (resize _ _ _) as [?|rostro]; simpl; [by split|].
  destruct (predict _ _) as [?|[label confianza]]; simpl; [by split|].
  destruct (label <? _) eqn:Hlabel; rewrite ?andb_true_r, ?andb_false_r; simpl;
    [|by split].
  destruct (Py.lt confianza thr1) eqn:H1.
  - rewrite (lt_mono _ _ _ Hle H1). split; [|done].
    destruct (Py.index _ _); simpl; [|done].
    destruct (registro_unico_con_tiempo _ _ _ _) as [w1 evs1 [[]|e]];
      simpl; done.
  - split; [done|]. intros H. simpl in H. discriminate.
Qed.
End Recognition.

(** The threshold lowered from 70 to 50, and raised from 50 to 70, on a
    sighting of "ana" by the trained test double. *)
Lemma threshold_monotone_witness :
  (50 <= 70)%Q ∧
  let lower := reconocer_rostro (cv := Fake.cv) (with_threshold Fake.settings 50)
                 0 true "ana" Fake.with_ana in
  let higher := reconocer_rostro (cv := Fake.cv) (with_threshold Fake.settings 70)
                  0 true "ana" Fake.with_ana in
  (estado_de higher = Some "desconocido" → estado_de lower = Some "desconocido") ∧
  (estado_de lower = Some "reconocido" → estado_de higher = Some "reconocido").
Proof.
  split.
  - unfold Qle. simpl. lia.
  - apply (threshold_monotone (cv := Fake.cv)). unfold Qle. simpl. lia.
Defined.

(** ** Attendance is registered once per session *)

Section Dedup.
Context {cv : OpenCV}.

Ltac session_side :=
  match goal with
  | |- keeps _ _ (emit _) => by apply keeps_emit
  | |- keeps _ _ (set_self _) =>
      apply keeps_set_self; intros ? [? ?]; split; simpl;
      repeat match goal with H : ∃ _, _ |- _ => destruct H as (? & [? ?] & <-) end;
      congruence
  | |- keeps _ _ (set_data _) => by apply keeps_set_data
  | |- keeps _ _ (set_model_file _) => by apply keeps_set_model_file
  end.

(** Enrolment and training neither touch the session bookkeeping nor
    call the attendance service. *)
Lemma guardar_foto_registro_session R T now estudiante foto :
  keeps (same_session R T) no_aviso (guardar_foto_registro now estudiante foto).
Proof.
  unfold guardar_foto_registro, makedirs, detectar_rostro, cv_imwrite.
  keeps_walk; session_side.
Qed.

Lemma entrenar_incremental_session R T disk estudiante :
  keeps (same_session R T) no_aviso (entrenar_incremental disk estudiante).
Proof.
  unfold entrenar_incremental, recognizer_update, recognizer_train, write_model.
  keeps_walk; session_side.
Qed.

Lemma entrenar_modelo_completo_session R T disk_ok :
  keeps (same_session R T) no_aviso (entrenar_modelo_completo disk_ok).
Proof.
  unfold entrenar_modelo_completo, recognizer_train, write_model.
  keeps_walk; session_side.
Qed.

Lemma listar_estudiantes_session R T :
  keeps (same_session R T) no_aviso listar_estudiantes.
Proof. unfold listar_estudiantes. keeps_walk. Qed.

Lemma avisos_app (n : string) (e1 e2 : list event) :
  avisos n (e1 ++ e2) = (avisos n e1 + avisos n e2)%nat.
Proof. unfold avisos. by rewrite List.filter_app, length_app. Qed.

Lemma avisos_no_aviso (n : string) (evs : list event) :
  Forall no_aviso evs → avisos n evs = 0%nat.
Proof.
  induction 1 as [|e evs He _ IH]; [done|].
  unfold avisos in *. simpl. by destruct e.
Qed.

Lemma avisos_same (n : string) : avisos n [RegistrarAsistencia n] = 1%nat.
Proof. unfold avisos. simpl. by rewrite String.eqb_refl. Qed.

Lemma avisos_other (n m : string) :
  n ≠ m → avisos m [RegistrarAsistencia n] = 0%nat.
Proof.
  intros H. unfold avisos. simpl.
  by destruct (String.eqb_spec n m).
Qed.

(** *** The three cases of lines 115-122 *)

Lemma registro_first now up nombre (w : World) :
  tiempos_reconocimiento (self w) !! nombre = None →
  registro_unico_con_tiempo now up nombre w =
  Run (with_self w (con_sesion (self w) (estudiantes_reconocidos (self w))
                      (<[nombre := now]> (tiempos_reconocimiento (self w)))))
      [] (Return tt).
Proof.
  intros H. unfold registro_unico_con_tiempo. unfold_M. simpl. by rewrite H.
Qed.

Lemma registro_fires now up nombre t0 (w : World) :
  tiempos_reconocimiento (self w) !! nombre = Some t0 →
  Py.ge (now - t0)%Q (duracion_reconocimiento (self w)) = true →
  nombre ∉ estudiantes_reconocidos (self w) →
  registro_unico_con_tiempo now up nombre w =
  Run (with_self w (con_sesion (self w)
                      ({[nombre]} ∪ estudiantes_reconocidos (self w))
                      (tiempos_reconocimiento (self w))))
      [RegistrarAsistencia nombre]
      (if up then Return tt else Raise (FirebaseError "attendance store unavailable")).
Proof.
  intros H Hge Hnot. unfold registro_unico_con_tiempo, registrar_asistencia.
  unfold_M. simpl. rewrite H, Hge.
  destruct (decide _) as [?|_]; [done|]. simpl. by destruct up.
Qed.

Lemma registro_waits now up nombre t0 (w : World) :
  tiempos_reconocimiento (self w) !! nombre = Some t0 →
  Py.ge (now - t0)%Q (duracion_reconocimiento (self w)) = false ∨
  nombre ∈ estudiantes_reconocidos (self w) →
  registro_unico_con_tiempo now up nombre w = Run w [] (Return tt).
Proof.
  intros H Hor. unfold registro_unico_con_tiempo. unfold_M. simpl. rewrite H.
  destruct (Py.ge _ _); [|done].
  destruct (decide _) as [?|Hnot]; [done|]. destruct Hor; done.
Qed.

Lemma once_step_silent n (w w' : World) evs :
  Forall no_aviso evs →
  estudiantes_reconocidos (self w') = estudiantes_reconocidos (self w) →
  once_step n w w' evs.
Proof.
  intros Hevs Heq. unfold once_step. rewrite (avisos_no_aviso _ _ Hevs), Heq.
  repeat split; auto with lia.
Qed.

Lemma registro_once now up nombre n (w : World) :
  let r := registro_unico_con_tiempo now up nombre w in
  once_step n w (after r) (events r).
Proof.
  simpl.
  destruct (tiempos_reconocimiento (self w) !! nombre) as [t0|] eqn:Ht.
  - destruct (Py.ge (now - t0)%Q (duracion_reconocimiento (self w))) eqn:Hge.
    + destruct (decide (nombre ∈ estudiantes_reconocidos (self w))) as [Hin|Hnot].
      * rewrite (registro_waits _ _ _ _ _ Ht) by auto. by apply once_step_silent.
      * rewrite (registro_fires _ _ _ _ _ Ht Hge Hnot).
        unfold once_step. cbn [after events].
        destruct (decide (nombre = n)) as [->|Hne].
        -- rewrite avisos_same. simpl. repeat split; [done|set_solver..].
        -- rewrite (avisos_other _ _ Hne). simpl.
           repeat split; [set_solver|lia|lia].
    + rewrite (registro_waits _ _ _ _ _ Ht) by auto. by apply once_step_silent.
  - rewrite (registro_first _ _ _ _ Ht). by apply once_step_silent.
Qed.

(** A call that recognises [nombre] is one prediction followed by the
    dedup logic for [nombre]. *)
Lemma reconocer_rostro_candidate settings now up image_data (w : World) nombre c b :
  let r := reconocer_rostro settings now up image_data w in
  let d := registro_unico_con_tiempo now up nombre w in
  returned r = Some (Reconocido nombre c b) →
  after r = after d ∧ ∃ p, events r = Predict p :: events d.
Proof.
  simpl. unfold returned, reconocer_rostro, decode_image, detectar_rostro.
  unfold_M. simpl.
  destruct (b64decode _) as [?|bytes]; simpl; [done|].
  destruct (imdecode bytes) as [?|[f|]]; simpl; [done| |done].
  destruct (detectMultiScale _ _ _) as [|[[[x y] bw] bh] ?]; simpl; [done|].
  destruct (resize _ _ _) as [?|rostro]; simpl; [done|].
  destruct (predict _ _) as [?|[label confianza]]; simpl; [done|].
  destruct (_ && _); simpl; [|done].
  destruct (Py.index _ _) as [nombre'|]; simpl; [|done].
  destruct (registro_unico_con_tiempo now up nombre' w) as [w1 evs1 [[]|e]] eqn:Hd;
    simpl; [|done].
  intros H. simplify_eq. rewrite Hd. simpl. rewrite app_nil_r. eauto.
Qed.

Lemma reconocer_rostro_once settings now up image_data n (w : World) :
  let r := reconocer_rostro settings now up image_data w in
  once_step n w (after r) (events r).
Proof.
  simpl. unfold reconocer_rostro, decode_image, detectar_rostro.
  unfold_M. simpl.
  destruct (b64decode _) as [?|bytes]; simpl; [by apply once_step_silent|].
  destruct (imdecode bytes) as [?|[f|]]; simpl; try by apply once_step_silent.
  destruct (detectMultiScale _ _ _) as [|[[[x y] bw] bh] ?]; simpl;
    [by apply once_step_silent|].
  destruct (resize _ _ _) as [?|rostro]; simpl; [by apply once_step_silent|].
  destruct (predict _ _) as [?|[label confianza]]; simpl;
    [by apply once_step_silent; repeat constructor|].
  destruct (_ && _); simpl; [|by apply once_step_silent; repeat constructor].
  destruct (Py.index _ _) as [nombre|]; simpl;
    [|by apply once_step_silent; repeat constructor].
  pose proof (registro_once now up nombre n w) as Hd. simpl in Hd.
  destruct (registro_unico_con_tiempo now up nombre w) as [w1 evs1 [[]|e]];
    simpl in *; rewrite ?app_nil_r; exact Hd.
Qed.

Lemma atender_once settings (c : llamada) n (w : World) :
  es_reset c = false →
  once_step n w (atender settings c w).1 (atender settings c w).2.
Proof.
  intros Hc. destruct c as [now up img|now e f|disk e|disk_ok| |]; simpl;
    [apply reconocer_rostro_once| | | | |done].
  - destruct (guardar_foto_registro_session _ _ now e f w (conj eq_refl eq_refl))
      as [[H1 _] H2].
    by apply once_step_silent.
  - destruct (entrenar_incremental_session _ _ disk e w (conj eq_refl eq_refl))
      as [[H1 _] H2].
    by apply once_step_silent.
  - destruct (entrenar_modelo_completo_session _ _ disk_ok w (conj eq_refl eq_refl))
      as [[H1 _] H2].
    by apply once_step_silent.
  - by apply once_step_silent.
Qed.

Lemma atender_todas_once settings (cs : list llamada) n (w : World) :
  one_session cs →
  once_step n w (atender_todas settings cs w).1 (atender_todas settings cs w).2.
Proof.
  intros Hcs. revert w. induction Hcs as [|c cs Hc _ IH]; intros w; simpl.
  - by apply once_step_silent.
  - pose proof (atender_once settings c n w Hc) as H1.
    destruct (atender settings c w) as [w1 evs1]. simpl in H1.
    specialize (IH w1).
    destruct (atender_todas settings cs w1) as [w2 evs2]. simpl in *.
    destruct H1 as (Ha & Hb & Hc'), IH as (Ia & Ib & Ic).
    unfold once_step. rewrite avisos_app.
    split; [|split].
    + intros Hin. destruct (Ha Hin) as [-> Hin1].
      destruct (Ia Hin1) as [-> Hin2]. done.
    + destruct (decide (avisos n evs1 = 1%nat)) as [H1|H1].
      * destruct (Ia (Hc' H1)) as [-> _]. lia.
      * lia.
    + intros Hsum.
      destruct (decide (avisos n evs1 = 1%nat)) as [H1|H1].
      * by destruct (Ia (Hc' H1)) as [_ ?].
      * apply Ic. lia.
Qed.
End Dedup.

Section AtMostOnce.
Context {cv : OpenCV}.

(** C1. In a run of calls without a reset the attendance service is
    called at most once for each identity. With a duration of 2
    seconds, "ana", not seen so far in the session and recognised by
    the calls at t = 0, t = 1 and t = 2.5, is registered by the third
    call, the first one at or after the first sighting plus the
    duration, and by no other: the first two calls and every later
    call of the session make no call for her. *)
Theorem notifier_at_most_once settings (w : World) :
  (∀ (cs : list llamada) (nombre : string),
      one_session cs →
      (avisos nombre (atender_todas settings cs w).2 ≤ 1)%nat) ∧
  (∀ up0 up1 up2 img0 img1 img2 c0 b0 c1 b1 c2 b2,
     let first := reconocer_rostro settings 0 up0 img0 w in
     let second := reconocer_rostro settings 1 up1 img1 (after first) in
     let third := reconocer_rostro settings (5 # 2) up2 img2 (after second) in
     duracion_reconocimiento (self w) = 2%Q →
     tiempos_reconocimiento (self w) !! "ana" = None →
     "ana" ∉ estudiantes_reconocidos (self w) →
     returned first = Some (Reconocido "ana" c0 b0) →
     returned second = Some (Reconocido "ana" c1 b1) →
     returned third = Some (Reconocido "ana" c2 b2) →
     avisos "ana" (events first) = 0%nat ∧
     avisos "ana" (events second) = 0%nat ∧
     avisos "ana" (events third) = 1%nat ∧
     ∀ cs, one_session cs →
           avisos "ana" (atender_todas settings cs (after third)).2 = 0%nat).
Proof.
  split.
  - intros cs nombre Hcs.
    by destruct (atender_todas_once settings cs nombre w Hcs) as (_ & ? & _).
  - intros up0 up1 up2 img0 img1 img2 c0 b0 c1 b1 c2 b2. cbv zeta.
    intros Hdur Hnew Hnot H0 H1 H2.
    apply reconocer_rostro_candidate in H0 as [Ha0 [p0 He0]].
    rewrite registro_first in Ha0, He0 by done. cbn [after events] in Ha0, He0.
    rewrite He0, Ha0. rewrite Ha0 in H1, H2.
    apply reconocer_rostro_candidate in H1 as [Ha1 [p1 He1]].
    match type of Ha1 with
    | context [registro_unico_con_tiempo _ _ _ ?W] =>
        assert (Hw : registro_unico_con_tiempo 1 up1 "ana" W = _)
          by (apply (registro_waits 1 up1 "ana" 0%Q W);
              [ by apply lookup_insert_eq
              | left; simpl; by rewrite Hdur ])
    end.
    rewrite Hw in Ha1, He1. cbn [after events] in Ha1, He1.
    rewrite He1, Ha1. rewrite Ha1 in H2.
    apply reconocer_rostro_candidate in H2 as [Ha2 [p2 He2]].
    match type of Ha2 with
    | context [registro_unico_con_tiempo _ _ _ ?W] =>
        assert (Hf : registro_unico_con_tiempo (5 # 2) up2 "ana" W = _)
          by (apply (registro_fires (5 # 2) up2 "ana" 0%Q W);
              [ by apply lookup_insert_eq
              | simpl; by rewrite Hdur
              | done ])
    end.
    rewrite Hf in Ha2, He2. cbn [after events] in Ha2, He2.
    rewrite He2. do 3 (split; [done|]).
    intros cs Hcs.
    refine (proj1 (proj1 (atender_todas_once settings cs "ana" _ Hcs) _)).
    rewrite Ha2. simpl. set_solver.
Qed.
End AtMostOnce.

(** The three sightings of "ana" by the trained test double. *)
Lemma notifier_at_most_once_witness :
  let first := reconocer_rostro (cv := Fake.cv) Fake.settings 0 true "ana"
                 Fake.with_ana in
  let second := reconocer_rostro (cv := Fake.cv) Fake.settings 1 true "ana"
                  (after first) in
  let third := reconocer_rostro (cv := Fake.cv) Fake.settings (5 # 2) true "ana"
                 (after second) in
  (one_session Fake.three_sightings ∧
   (avisos "ana"
      (atender_todas (cv := Fake.cv) Fake.settings Fake.three_sightings
         Fake.with_ana).2 ≤ 1)%nat) ∧
  (duracion_reconocimiento (self Fake.with_ana) = 2%Q ∧
   tiempos_reconocimiento (self Fake.with_ana) !! "ana" = None ∧
   ("ana" ∉ estudiantes_reconocidos (self Fake.with_ana)) ∧
   returned first = Some (Reconocido "ana" 0 [0; 0; 3; 1]) ∧
   returned second = Some (Reconocido "ana" 0 [0; 0; 3; 1]) ∧
   returned third = Some (Reconocido "ana" 0 [0; 0; 3; 1]) ∧
   avisos "ana" (events first) = 0%nat ∧
   avisos "ana" (events second) = 0%nat ∧
   avisos "ana" (events third) = 1%nat).
Proof.
  cbv zeta.
  assert (Hcs : one_session Fake.three_sightings) by (repeat constructor).
  assert (Hnot : "ana" ∉ estudiantes_reconocidos (self Fake.with_ana)).
  { assert (estudiantes_reconocidos (self Fake.with_ana) = ∅) as -> by reflexivity.
    apply not_elem_of_empty. }
  destruct (notifier_at_most_once (cv := Fake.cv) Fake.settings Fake.with_ana)
    as [Honce Hthree].
  split; [split; [exact Hcs | exact (Honce _ "ana" Hcs)]|].
  destruct (Hthree true true true "ana" "ana" "ana"
              0%Q [0; 0; 3; 1] 0%Q [0; 0; 3; 1] 0%Q [0; 0; 3; 1]
              eq_refl eq_refl Hnot eq_refl eq_refl eq_refl)
    as (H0 & H1 & H2 & _).
  do 2 (split; [reflexivity|]). split; [exact Hnot|].
  do 3 (split; [reflexivity|]). by repeat split.
Defined.

(** ** A reset starts a new session *)

Section Reset.
Context {cv : OpenCV}.

Lemma ge_iff (a b : Q) : Py.ge a b = true ↔ (b <= a)%Q.
Proof. unfold Py.ge. apply Qle_bool_iff. Qed.

(** C9. [reset_reconocimientos] empties the first-seen times and the
    registered set and leaves the recognizer, the identity list, the
    label map, the next label, the model file and the holding
    directories as they were. After it, a student recognised at [t1]
    and again at [t2], a full duration later, is registered by the
    second call, once, and by no later call of the session, whatever
    the session bookkeeping said about the student before the reset. *)
Theorem reset_reconocimientos_new_session settings (w : World) :
  let w0 := after (reset_reconocimientos w) in
  (estudiantes_reconocidos (self w0) = ∅ ∧
   tiempos_reconocimiento (self w0) = ∅) ∧
  (face_recognizer (self w0) = face_recognizer (self w) ∧
   image_paths (self w0) = image_paths (self w) ∧
   label_dict (self w0) = label_dict (self w) ∧
   next_label (self w0) = next_label (self w) ∧
   model_file w0 = model_file w ∧
   data w0 = data w) ∧
  (events (reset_reconocimientos w) = [] ∧
   result (reset_reconocimientos w) = Return tt) ∧
  ∀ nombre t1 t2 up1 up2 img1 img2 c1 b1 c2 b2,
    let first := reconocer_rostro settings t1 up1 img1 w0 in
    let second := reconocer_rostro settings t2 up2 img2 (after first) in
    returned first = Some (Reconocido nombre c1 b1) →
    returned second = Some (Reconocido nombre c2 b2) →
    (duracion_reconocimiento (self w) <= t2 - t1)%Q →
    avisos nombre (events first) = 0%nat ∧
    avisos nombre (events second) = 1%nat ∧
    ∀ cs, one_session cs →
          avisos nombre (atender_todas settings cs (after second)).2 = 0%nat.
Proof.
  cbv zeta. split; [done|]. split; [done|]. split; [done|].
  intros nombre t1 t2 up1 up2 img1 img2 c1 b1 c2 b2 H1 H2 Hdur.
  apply reconocer_rostro_candidate in H1 as [Ha1 [p1 He1]].
  rewrite registro_first in Ha1, He1 by done. cbn [after events] in Ha1, He1.
  apply reconocer_rostro_candidate in H2 as [Ha2 [p2 He2]].
  rewrite Ha1 in Ha2, He2.
  match type of Ha2 with
  | context [registro_unico_con_tiempo _ _ _ ?W] =>
      assert (Hf : registro_unico_con_tiempo t2 up2 nombre W = _)
        by (apply (registro_fires t2 up2 nombre t1 W);
            [ by apply lookup_insert_eq | by apply ge_iff
            | by apply not_elem_of_empty ])
  end.
  rewrite Hf in Ha2, He2.
  cbn [after events] in Ha2, He2.
  rewrite He1, Ha1, He2. split; [done|]. split.
  - unfold avisos. simpl. by rewrite String.eqb_refl.
  - intros cs Hcs.
    refine (proj1 (proj1 (atender_todas_once settings cs nombre _ Hcs) _)).
    rewrite Ha2. simpl. set_solver.
Qed.
End Reset.

(** "ana", registered in the first period, is seen at t = 10 and at
    t = 12 after the reset. *)
Lemma reset_reconocimientos_new_session_witness :
  let first := reconocer_rostro (cv := Fake.cv) Fake.settings 10 true "ana"
                 Fake.next_period in
  let second := reconocer_rostro (cv := Fake.cv) Fake.settings 12 true "ana"
                  (after first) in
  "ana" ∈ estudiantes_reconocidos (self Fake.with_ana_registered) ∧
  returned first = Some (Reconocido "ana" 0 [0; 0; 3; 1]) ∧
  returned second = Some (Reconocido "ana" 0 [0; 0; 3; 1]) ∧
  (duracion_reconocimiento (self Fake.with_ana_registered) <= 12 - 10)%Q ∧
  avisos "ana" (events first) = 0%nat ∧
  avisos "ana" (events second) = 1%nat.
Proof.
  cbv zeta.
  assert (Hin : "ana" ∈ estudiantes_reconocidos (self Fake.with_ana_registered)).
  { assert (estudiantes_reconocidos (self Fake.with_ana_registered)
            = {["ana"]} ∪ ∅) as -> by reflexivity.
    set_solver. }
  assert (Hdur : (duracion_reconocimiento (self Fake.with_ana_registered)
                  <= 12 - 10)%Q).
  { assert (duracion_reconocimiento (self Fake.with_ana_registered) = 2%Q) as ->
      by reflexivity.
    unfold Qle. simpl. lia. }
  pose proof (proj2 (proj2 (proj2
    (reset_reconocimientos_new_session (cv := Fake.cv) Fake.settings
       Fake.with_ana_registered)))
    "ana" 10%Q 12%Q true true "ana" "ana" 0%Q [0; 0; 3; 1] 0%Q [0; 0; 3; 1]
    eq_refl eq_refl Hdur) as (H1 & H2 & _).
  repeat split; try assumption; reflexivity.
Defined.

(** ** One normalization for enrolment and recognition *)

Section Normalization.
Context {cv : OpenCV}.

Lemma slice_non_empty {A : Type} (i n : Z) (l : list A) :
  0 ≤ i < Z.of_nat (length l) → 0 < n → Py.slice i (i + n) l ≠ [].
Proof.
  intros Hi Hn. unfold Py.slice, Py.clamp.
  destruct (Z.ltb_spec i 0); [lia|].
  destruct (Z.ltb_spec (i + n) 0); [lia|].
  intros Hnil. apply (f_equal length) in Hnil.
  rewrite length_take, length_drop in Hnil. simpl in Hnil. lia.
Qed.

Lemma slice_Forall {A : Type} (P : A → Prop) (i j : Z) (l : list A) :
  Forall P l → Forall P (Py.slice i j l).
Proof. intros H. unfold Py.slice. by apply Forall_take, Forall_drop. Qed.

(** A box that starts inside the image and has a positive width and
    height cuts out a non-empty array, whatever the resolution. *)
Lemma crop_non_empty (img : gray) (rows cols : nat) (x y w h : Z) :
  has_shape img rows cols →
  0 ≤ x < Z.of_nat cols → 0 ≤ y < Z.of_nat rows → 0 < w → 0 < h →
  non_empty (crop img x y w h).
Proof.
  intros [Hrows Hcols] Hx Hy Hw Hh. unfold crop. split.
  - intros H. apply fmap_nil_inv in H. revert H.
    apply slice_non_empty; [lia | done].
  - apply Forall_fmap. apply slice_Forall.
    eapply Forall_impl; [exact Hcols|]. intros r Hr. simpl in *.
    apply slice_non_empty; [lia | done].
Qed.

Lemma registro_events now up nombre (w : World) :
  events (registro_unico_con_tiempo now up nombre w) = [] ∨
  events (registro_unico_con_tiempo now up nombre w) = [RegistrarAsistencia nombre].
Proof.
  destruct (tiempos_reconocimiento (self w) !! nombre) as [t0|] eqn:Ht.
  - destruct (Py.ge (now - t0)%Q (duracion_reconocimiento (self w))) eqn:Hge.
    + destruct (decide (nombre ∈ estudiantes_reconocidos (self w))) as [Hin|Hnot].
      * rewrite (registro_waits _ _ _ _ _ Ht) by auto. by left.
      * rewrite (registro_fires _ _ _ _ _ Ht Hge Hnot). by right.
    + rewrite (registro_waits _ _ _ _ _ Ht) by auto. by left.
  - rewrite (registro_first _ _ _ _ Ht). by left.
Qed.

(** The patch [reconocer_rostro] hands to [predict] is the
    specification's [normalize] of the first detected box. *)
Lemma reconocer_rostro_patch settings now up image_data (w : World) f b rest :
  returned (decode_image image_data w) = Some (Some f) →
  detectMultiScale (cvtColor f) (13 # 10) 5 = b :: rest →
  patches_predicted (events (reconocer_rostro settings now up image_data w)) =
  match normalize f b with inr p => [p] | inl _ => [] end.
Proof.
  unfold returned, reconocer_rostro, decode_image, detectar_rostro, normalize.
  unfold_M. simpl.
  destruct (b64decode _) as [?|bytes]; simpl; [done|].
  destruct (imdecode bytes) as [?|[f'|]]; simpl; [done| |done].
  intros [= ->] ->. destruct b as [[[x y] bw] bh]. simpl.
  destruct (resize _ _ _) as [?|rostro]; simpl; [done|].
  destruct (predict _ _) as [?|[label confianza]]; simpl; [done|].
  destruct (_ && _); simpl; [|done].
  destruct (Py.index _ _) as [nombre|]; simpl; [|done].
  destruct (registro_events now up nombre w) as [He|He];
    destruct (registro_unico_con_tiempo now up nombre w) as [w1 evs1 [[]|e]];
    simpl in *; subst; done.
Qed.

Lemma makedirs_events estudiante (w : World) : events (makedirs estudiante w) = [].
Proof.
  unfold makedirs. destruct (Py.find NUL estudiante); [done|].
  destruct (lugar_de estudiante); [done..|].
  unfold_M. simpl. destruct (_ <? _)%nat; simpl; [done|].
  by destruct (assoc_get name (data w)) as [[|files]|].
Qed.

(** The crop of a box that starts inside the image and has a positive
    size is an array with at least one row and one column. *)
Lemma crop_has_shape (img : gray) (rows cols : nat) (x y w h : Z) :
  has_shape img rows cols →
  0 ≤ x < Z.of_nat cols → 0 ≤ y < Z.of_nat rows → 0 < w → 0 < h →
  ∃ rows' cols', has_shape (crop img x y w h) rows' cols' ∧
                 (0 < rows')%nat ∧ (0 < cols')%nat.
Proof.
  intros Hshape Hx Hy Hw Hh.
  destruct (crop_non_empty _ _ _ _ _ _ _ Hshape Hx Hy Hw Hh) as [Hne _].
  destruct Hshape as [Hrows Hcols].
  exists (length (crop img x y w h)),
         (Z.to_nat (Z.min (x + w) (Z.of_nat cols) - x)).
  split; [split; [done|]|split; [|lia]].
  - unfold crop. apply Forall_fmap. apply slice_Forall.
    eapply Forall_impl; [exact Hcols|]. intros r Hr. simpl in *.
    unfold Py.slice, Py.clamp.
    destruct (Z.ltb_spec x 0); [lia|]. destruct (Z.ltb_spec (x + w) 0); [lia|].
    rewrite length_take, length_drop. lia.
  - destruct (crop img x y w h); [done|simpl; lia].
Qed.

(** The patch [guardar_foto_registro] writes is the same [normalize]. *)
Lemma guardar_foto_registro_patch timestamp estudiante foto (w : World)
    header encoded bytes f b rest :
  Py.split_comma foto = Some (header, encoded) →
  b64decode encoded = inr bytes →
  imdecode bytes = inr (Some f) →
  returned (makedirs (Py.splitext (Py.basename estudiante)).1 w) = Some tt →
  detectMultiScale (cvtColor f) (13 # 10) 5 = b :: rest →
  patches_written (events (guardar_foto_registro timestamp estudiante foto w)) =
  match normalize f b with inr p => [p] | inl _ => [] end.
Proof.
  intros Hsplit Hb64 Himg Hdir Hfaces.
  unfold guardar_foto_registro, detectar_rostro, cv_imwrite, normalize.
  pose proof (makedirs_events (Py.splitext (Py.basename estudiante)).1 w) as Hevs.
  revert Hdir. unfold returned. unfold_M.
  destruct (makedirs _ w) as [w1 evs1 [[]|e]]; simpl in *; [intros _|done].
  subst evs1. rewrite Hsplit. simpl. rewrite Hb64. simpl. rewrite Himg. simpl.
  destruct b as [[[x y] bw] bh]. rewrite Hfaces. simpl.
  destruct (resize _ _ _) as [?|rostro]; simpl; [done|].
  destruct (lugar_de _) as [| |name]; simpl; [|done|].
  - by destruct (assoc_get _ (data w1)) as [[|files]|].
  - by destruct (assoc_get name (data w1)) as [[|files]|].
Qed.

(** C4. For one pixel buffer, decoded from the recognition payload and
    from the enrolment payload, and the first box the detector finds in
    it, the patch given to the classifier by [reconocer_rostro] and the
    patch written by [guardar_foto_registro], once [os.makedirs] has
    not raised, are the same, both the specification's [normalize] of
    the buffer and the box; when [cv2.resize] gives a 150x150 array
    for every array with a row and a column, and the box starts inside
    the image with a positive size, that patch exists and has 150 rows
    of 150 pixels whatever the resolution of the image. *)
Theorem normalization_paths_agree settings now up image_data timestamp estudiante foto
    (w w' : World) header encoded bytes (f : frame) (x y bw bh : Z) rest :
  returned (decode_image image_data w) = Some (Some f) →
  Py.split_comma foto = Some (header, encoded) →
  b64decode encoded = inr bytes →
  imdecode bytes = inr (Some f) →
  returned (makedirs (Py.splitext (Py.basename estudiante)).1 w') = Some tt →
  detectMultiScale (cvtColor f) (13 # 10) 5 = (x, y, bw, bh) :: rest →
  let recognition := reconocer_rostro settings now up image_data w in
  let enrolment := guardar_foto_registro timestamp estudiante foto w' in
  patches_predicted (events recognition) = patches_written (events enrolment) ∧
  patches_predicted (events recognition) =
    match normalize f (x, y, bw, bh) with inr p => [p] | inl _ => [] end ∧
  (resize_contract cv →
   ∀ rows cols, has_shape (cvtColor f) rows cols →
     0 ≤ x < Z.of_nat cols → 0 ≤ y < Z.of_nat rows → 0 < bw → 0 < bh →
     ∃ p, normalize f (x, y, bw, bh) = inr p ∧
          patches_predicted (events recognition) = [p] ∧
          patches_written (events enrolment) = [p] ∧
          has_shape p 150 150).
Proof.
  intros Hdec Hsplit Hb64 Himg Hdir Hfaces. cbv zeta.
  rewrite (reconocer_rostro_patch _ _ _ _ _ _ _ _ Hdec Hfaces).
  rewrite (guardar_foto_registro_patch _ _ _ _ _ _ _ _ _ _
             Hsplit Hb64 Himg Hdir Hfaces).
  split; [done|]. split; [done|].
  intros Hresize rows cols Hshape Hx Hy Hw Hh.
  destruct (crop_has_shape _ _ _ _ _ _ _ Hshape Hx Hy Hw Hh)
    as (rows' & cols' & Hcrop & Hrows & Hcols).
  destruct (Hresize (crop (cvtColor f) x y bw bh) rows' cols' INTER_CUBIC
              Hcrop Hrows Hcols) as (p & Hp & Hdims).
  exists p. unfold normalize. rewrite Hp. auto.
Qed.
End Normalization.

(** The nearest-neighbour [resize] of the test double gives the size
    it is asked for. *)
Lemma fake_resize_shape (src : gray) (width height rows cols : nat)
    (i : interpolation) :
  has_shape src rows cols → (0 < rows)%nat → (0 < cols)%nat →
  ∃ dst, Fake.fake_resize src (Z.of_nat width, Z.of_nat height) i = inr dst ∧
         has_shape dst height width.
Proof.
  intros [Hrows Hcols] Hr Hc. unfold Fake.fake_resize.
  destruct src as [|[|p row] rest]; simpl in *; [lia| |].
  - inversion Hcols as [|? ? Hnil _]. simpl in Hnil. lia.
  - eexists. split; [reflexivity|]. rewrite !Nat2Z.id. split.
    + by rewrite length_fmap, length_seq.
    + apply Forall_fmap, Forall_forall. intros r _. simpl.
      by rewrite length_fmap, length_seq.
Qed.

Lemma fake_resize_contract : resize_contract Scenes.cv_recorte.
Proof.
  intros src rows cols i Hshape Hr Hc.
  exact (fake_resize_shape src 150 150 rows cols i Hshape Hr Hc).
Qed.

(** The 1x3 picture "ana", in which the detector of this test double
    finds the box of its last two pixels, sent for recognition and for
    enrolment: the crop is a proper part of the picture. *)
Lemma normalization_paths_agree_witness :
  let recognition := reconocer_rostro (cv := Scenes.cv_recorte) Fake.settings 0 true
                       "data:image/jpeg;base64,ana" Scenes.fresh_recorte in
  let enrolment := guardar_foto_registro (cv := Scenes.cv_recorte) 4000
                     "ana" "data:image/jpeg;base64,ana" Scenes.fresh_recorte in
  detectMultiScale (OpenCV := Scenes.cv_recorte) [[97; 110; 97]] (13 # 10) 5
    = [(1, 0, 2, 1)] ∧
  crop [[97; 110; 97]] 1 0 2 1 = [[110; 97]] ∧
  patches_predicted (events recognition) = patches_written (events enrolment) ∧
  ∃ p, patches_written (events enrolment) = [p] ∧ has_shape p 150 150.
Proof.
  cbv zeta. split; [reflexivity|]. split; [reflexivity|].
  destruct (normalization_paths_agree (cv := Scenes.cv_recorte) Fake.settings 0 true
              "data:image/jpeg;base64,ana" 4000
              "ana" "data:image/jpeg;base64,ana"
              Scenes.fresh_recorte Scenes.fresh_recorte
              "data:image/jpeg;base64" "ana" "ana" [[97; 110; 97]] 1 0 2 1 [])
    as (Hsame & _ & Hshape); try reflexivity.
  split; [exact Hsame|].
  destruct (Hshape fake_resize_contract 1%nat 3%nat) as (p & _ & _ & Hw & Hp);
    try lia.
  - split; [reflexivity | by repeat constructor].
  - exists p. by split.
Defined.

(** ** Enrolment creates the holding directory first *)

Section Enrolment.
Context {cv : OpenCV}.

(** [os.makedirs] returns exactly when it can take the name. *)
Lemma makedirs_returns nombre (w : World) :
  se_puede_crear w nombre ↔ returned (makedirs nombre w) = Some tt.
Proof.
  unfold se_puede_crear, returned, makedirs.
  destruct (Py.find NUL nombre); simpl; [by split; [intros [? _]|]|].
  destruct (lugar_de nombre) as [| |name]; simpl; [by split..|].
  unfold_M. simpl.
  destruct (Nat.ltb_spec NAME_MAX (String.length name)) as [Hlong|Hshort]; simpl.
  { split; [|done]. intros [_ H]. destruct (H name eq_refl) as [? _]. lia. }
  destruct (assoc_get name (data w)) as [[|files]|] eqn:Hget; simpl.
  - split; [|done]. intros [_ H]. by destruct (H name eq_refl) as [_ ?].
  - split; [done|]. intros _. split; [done|]. intros ? [= <-]. by rewrite Hget.
  - split; [done|]. intros _. split; [done|]. intros ? [= <-]. by rewrite Hget.
Qed.

(** What [os.makedirs] leaves: the directory, made at the end of the
    listing when the name is that of an entry and was free. *)
Lemma makedirs_after nombre (w : World) :
  returned (makedirs nombre w) = Some tt →
  es_carpeta (after (makedirs nombre w)) nombre ∧
  self (after (makedirs nombre w)) = self w ∧
  data (after (makedirs nombre w)) =
    match lugar_de nombre with
    | Entrada name =>
        match assoc_get name (data w) with
        | None => data w ++ [(name, Directory [])]
        | Some _ => data w
        end
    | _ => data w
    end.
Proof.
  unfold es_carpeta, returned, makedirs.
  destruct (Py.find NUL nombre); simpl; [done|].
  destruct (lugar_de nombre) as [| |name]; simpl; [done..|].
  unfold_M. simpl. destruct (_ <? _)%nat; simpl; [done|].
  destruct (assoc_get name (data w)) as [[|files]|] eqn:Hget; simpl; [done| |].
  - intros _. split; [by exists files|done].
  - intros _. split; [|done]. exists []. by rewrite assoc_get_snoc, Hget.
Qed.

(** The photo is written into the directory, which stays one. *)
Lemma cv_imwrite_carpeta nombre filename ruta rostro (w : World) :
  es_carpeta w nombre →
  es_carpeta (after (cv_imwrite nombre filename ruta rostro w)) nombre.
Proof.
  unfold es_carpeta, cv_imwrite. unfold_M. simpl.
  destruct (lugar_de nombre) as [| |name]; simpl.
  - by destruct (assoc_get filename (data w)) as [[|files]|].
  - done.
  - intros [files Hget]. rewrite Hget. simpl. rewrite assoc_get_put. eauto.
Qed.

(** [guardar_foto_registro] after the sanitization of the name. *)
Lemma guardar_foto_registro_returns timestamp estudiante foto (w : World) resp :
  let nombre := (Py.splitext (Py.basename estudiante)).1 in
  let r := guardar_foto_registro timestamp estudiante foto w in
  returned r = Some resp →
  es_carpeta (after r) nombre.
Proof.
  cbv zeta. unfold guardar_foto_registro, detectar_rostro.
  generalize ((Py.splitext (Py.basename estudiante)).1). intros nombre.
  pose proof (makedirs_after nombre w) as Hmk.
  pose proof (cv_imwrite_carpeta nombre) as Hwrite.
  revert Hmk. unfold returned at 1 2. unfold_M.
  destruct (makedirs nombre w) as [w1 evs1 [[]|e]]; simpl; [|done].
  intros [Hdir _]; [done|].
  destruct (Py.split_comma foto) as [[header encoded]|]; simpl; [|done].
  destruct (b64decode encoded) as [?|bytes]; simpl; [done|].
  destruct (imdecode bytes) as [?|[f|]]; simpl; [done| |done].
  destruct (detectMultiScale _ _ _) as [|[[[x y] bw] bh] ?]; simpl; [done|].
  destruct (resize _ _ _) as [?|rostro]; simpl; [done|].
  intros _.
  match goal with
  | |- context [cv_imwrite nombre ?f ?r rostro w1] =>
      specialize (Hwrite f r rostro w1 Hdir);
      destruct (cv_imwrite nombre f r rostro w1) as [w2 evs2 [[]|e]]
  end; done.
Qed.

(** A payload without a comma: the call stops after [os.makedirs]. *)
Lemma guardar_foto_registro_no_comma timestamp estudiante foto (w : World) :
  let nombre := (Py.splitext (Py.basename estudiante)).1 in
  let r := guardar_foto_registro timestamp estudiante foto w in
  Py.split_comma foto = None →
  returned (makedirs nombre w) = Some tt →
  returned r = Some (fallo ("Error decodificando imagen: " +:+ unpack_error)) ∧
  after r = after (makedirs nombre w).
Proof.
  cbv zeta. unfold returned, guardar_foto_registro.
  generalize ((Py.splitext (Py.basename estudiante)).1). intros nombre.
  intros Hsplit. unfold_M.
  destruct (makedirs nombre w) as [w1 evs1 [[]|e]]; simpl; [|done].
  by rewrite Hsplit.
Qed.

(** C10. Whenever [guardar_foto_registro] returns, with [ok] true or
    false, the path of the sanitized name is a directory: the holding
    directory of that name, or [DATA_PATH] itself or its parent for
    the names that lead there. There is a malformed payload, one
    without a comma, for which the call returns [ok = False] for
    every student whose name [os.makedirs] takes, with the directory
    in place; and for a student whose name is that of an entry and
    who had no holding directory, the directory is new, empty and the
    last entry of the listing. *)
Theorem guardar_foto_registro_directory_first :
  (∀ timestamp estudiante foto (w : World) resp,
     let r := guardar_foto_registro timestamp estudiante foto w in
     returned r = Some resp →
     es_carpeta (after r) (Py.splitext (Py.basename estudiante)).1) ∧
  (∃ foto, ∀ timestamp estudiante (w : World),
     let nombre := (Py.splitext (Py.basename estudiante)).1 in
     let r := guardar_foto_registro timestamp estudiante foto w in
     se_puede_crear w nombre →
     ok <$> returned r = Some false ∧
     es_carpeta (after r) nombre ∧
     (lugar_de nombre = Entrada nombre → assoc_get nombre (data w) = None →
      data (after r) = data w ++ [(nombre, Directory [])])).
Proof.
  split.
  - intros timestamp estudiante foto w resp. apply guardar_foto_registro_returns.
  - exists "bm90IGFuIGltYWdl". intros timestamp estudiante w nombre r Hok.
    apply makedirs_returns in Hok.
    destruct (guardar_foto_registro_no_comma timestamp estudiante "bm90IGFuIGltYWdl" w
                eq_refl Hok) as [Hr Hw].
    destruct (makedirs_after nombre w Hok) as (Hdir & _ & Hdata).
    subst r nombre. rewrite Hr, Hw. split; [done|]. split; [done|].
    intros Hlugar Hget. rewrite Hdata, Hlugar. by rewrite Hget.
Qed.
End Enrolment.

(** The request for "bob" with a payload that is not a data URL: the
    call answers [ok = False], and "bob" has a directory. The same
    request for the name "x/", which leads to [DATA_PATH] itself,
    makes nothing new. *)
Lemma guardar_foto_registro_directory_first_witness :
  let r := guardar_foto_registro (cv := Fake.cv) 2000 "bob" "bm90IGFuIGltYWdl"
             Fake.with_ana in
  let r' := guardar_foto_registro (cv := Fake.cv) 2000 "x/" "bm90IGFuIGltYWdl"
              Fake.with_ana in
  assoc_get "bob" (data Fake.with_ana) = None ∧
  returned r = Some (fallo ("Error decodificando imagen: " +:+ unpack_error)) ∧
  (∃ files, assoc_get "bob" (data (after r)) = Some (Directory files)) ∧
  returned r' = Some (fallo ("Error decodificando imagen: " +:+ unpack_error)) ∧
  data (after r') = data Fake.with_ana ∧
  es_carpeta (after r') "".
Proof.
  cbv zeta. split; [reflexivity|]. split; [reflexivity|]. split.
  - exact (proj1 (guardar_foto_registro_directory_first (cv := Fake.cv))
             2000 "bob" "bm90IGFuIGltYWdl" Fake.with_ana _ eq_refl).
  - split; [reflexivity|]. split; [reflexivity|].
    exact (proj1 (guardar_foto_registro_directory_first (cv := Fake.cv))
             2000 "x/" "bm90IGFuIGltYWdl" Fake.with_ana _ eq_refl).
Defined.

(** ** Training: what a failed call leaves behind *)

Section TrainingFailures.
Context {cv : OpenCV}.

Local Arguments leer_personas : simpl never.

(** A full retrain that returns a failure has changed nothing and has
    called nothing. *)
Lemma entrenar_modelo_completo_failure disk_ok (w : World) resp :
  let r := entrenar_modelo_completo disk_ok w in
  returned r = Some resp → ok resp = false →
  after r = w ∧ events r = [].
Proof.
  cbv zeta.
  unfold returned, entrenar_modelo_completo, recognizer_train, write_model.
  unfold_M. simpl.
  destruct (people (data w)) as [|p ps]; simpl; [by intros _ _|].
  destruct (leer_personas _ _ _) as [[|face faces] labels]; simpl;
    [by intros _ _|].
  destruct (train _ _ _) as [?|trained]; simpl; [done|].
  destruct disk_ok; simpl; [|done].
  intros H Hok. injection H as <-. discriminate Hok.
Qed.

(** An incremental training for a student without a directory changes
    nothing. *)
Lemma entrenar_incremental_no_folder disk estudiante (w : World) :
  assoc_get estudiante (data w) = None →
  entrenar_incremental disk estudiante w =
  Run w [] (Return (fallo "No existe la carpeta del estudiante")).
Proof.
  intros H. unfold entrenar_incremental. unfold_M. simpl. by rewrite H.
Qed.

(** An incremental training for a new student whose directory holds no
    readable image returns a failure after it has given the student a
    label and a place in the identity list. *)
Lemma entrenar_incremental_no_images disk estudiante files (w : World) :
  assoc_get estudiante (data w) = Some (Directory files) →
  readable files = [] →
  label_dict (self w) !! estudiante = None →
  entrenar_incremental disk estudiante w =
  Run (with_self w (con_registro (self w)
                      (image_paths (self w) ++ [estudiante])
                      (<[estudiante := next_label (self w)]> (label_dict (self w)))
                      (next_label (self w) + 1)))
      [] (Return (fallo "No hay imágenes para entrenar")).
Proof.
  intros Hget Hread Hnew. unfold entrenar_incremental. unfold_M. simpl.
  rewrite Hget. simpl. rewrite Hnew. simpl. by rewrite Hread.
Qed.

(** A student with a label and readable photos, a recognizer that
    accepts the [update], and a model file that cannot be written: the
    [except] block runs, and [train] is called with the photos of this
    student alone. *)
Lemma entrenar_incremental_write_failure disk2 estudiante files (w : World)
    label updated :
  let loaded := readable files in
  assoc_get estudiante (data w) = Some (Directory files) →
  loaded ≠ [] →
  label_dict (self w) !! estudiante = Some label →
  update (face_recognizer (self w)) loaded.*2 ((λ _, label) <$> loaded)
    = inr updated →
  ∃ evs,
    events (entrenar_incremental (false, disk2) estudiante w) =
    [Update loaded.*2 ((λ _, label) <$> loaded); WriteModel;
     Train loaded.*2 ((λ _, label) <$> loaded)] ++ evs.
Proof.
  cbv zeta. intros Hget Hloaded Hlabel Hupdate.
  unfold entrenar_incremental, recognizer_update, recognizer_train, write_model.
  unfold_M. simpl. rewrite Hget. simpl. rewrite Hlabel. simpl.
  destruct (readable files) as [|[name img] rest] eqn:Hread; [done|].
  simpl in *. rewrite Hupdate. simpl.
  destruct (train _ _ _) as [?|trained]; simpl; [by eexists|].
  destruct disk2; simpl; [|by eexists].
  destruct (List.filter _ files); simpl; by eexists.
Qed.
End TrainingFailures.

(** C2, on the code. "bob" has an empty holding directory, as a failed
    enrolment leaves it. [entrenar_incremental("bob")] returns the
    failure "No hay imágenes para entrenar", and yet the identity list
    has grown from ["ana"] to ["ana", "bob"], [next_label] from 1 to 2,
    and the label map has a label for "bob". *)
Theorem entrenar_incremental_failure_changes_registry :
  let w := Fake.with_bob_folder in
  let r := entrenar_incremental (cv := Fake.cv) (true, true) "bob" w in
  data w = [("bob", Directory [])] ∧
  returned r = Some (fallo "No hay imágenes para entrenar") ∧
  (image_paths (self w) = ["ana"] ∧
   image_paths (self (after r)) = ["ana"; "bob"]) ∧
  (next_label (self w) = 1 ∧ next_label (self (after r)) = 2) ∧
  (label_dict (self w) !! "bob" = None ∧
   label_dict (self (after r)) !! "bob" = Some 1).
Proof. cbv zeta. repeat split; reflexivity. Qed.

(** C7, on the code. The recognizer knows "ana", "bob" has one photo
    waiting, and the model file cannot be written at the first attempt.
    [update] succeeds, [write] raises, and the bare [except] calls
    [train] with the photos of "bob" alone: the call returns
    [ok = True] with a recognizer, in memory and on disk, that has
    forgotten "ana". *)
Theorem entrenar_incremental_write_failure_retrains :
  let w := Fake.with_bob_photo in
  let r := entrenar_incremental (cv := Fake.cv) (false, true) "bob" w in
  let r' := entrenar_incremental (cv := Fake.cv) (true, true) "bob" w in
  face_recognizer (self w) = [(97, 0)] ∧
  (event_name <$> events r = ["update"; "write"; "train"; "write"] ∧
   ok <$> returned r = Some true ∧
   face_recognizer (self (after r)) = [(98, 1)] ∧
   model_file (after r) = Some [(98, 1)]) ∧
  (event_name <$> events r' = ["update"; "write"] ∧
   ok <$> returned r' = Some true ∧
   face_recognizer (self (after r')) = [(97, 0); (98, 1)] ∧
   model_file (after r') = Some [(97, 0); (98, 1)]).
Proof. cbv zeta. repeat split; reflexivity. Qed.

(** C8, as stated, fails. Of two holding directories, "ana" with a
    photo and "bob" with none, the full retrain registers both. *)
Lemma entrenar_modelo_completo_registers_empty_folder :
  ¬ registers_only_non_empty (cv := Fake.cv) true Fake.two_folders.
Proof.
  intros H. apply (H "bob"); [|reflexivity].
  assert (image_paths
            (self (after (entrenar_modelo_completo (cv := Fake.cv) true
                            Fake.two_folders))) = ["ana"; "bob"]) as ->
    by reflexivity.
  set_solver.
Qed.

(** ** The identity registry *)

Section Registry.
Context {cv : OpenCV}.

Lemma enumerate_snoc {A : Type} (l : list A) (x : A) :
  enumerate (l ++ [x]) = enumerate l ++ [(Z.of_nat (length l), x)].
Proof.
  unfold enumerate. rewrite imap_app. simpl. by rewrite Nat.add_0_r.
Qed.

Lemma dict_of_enumerate_snoc (l : list string) (x : string) :
  dict_of_enumerate (l ++ [x]) =
  <[x := Z.of_nat (length l)]> (dict_of_enumerate l).
Proof. unfold dict_of_enumerate. by rewrite enumerate_snoc, foldl_app. Qed.

Lemma registry_ok_nil : registry_ok [] ∅ 0.
Proof.
  split; [apply NoDup_nil_2|]. split; [done|].
  intros nombre l. rewrite lookup_empty. split; [done|]. by intros [_ ?].
Qed.

Lemma registry_ok_fresh paths dict next x :
  registry_ok paths dict next → dict !! x = None → x ∉ paths.
Proof.
  intros (_ & _ & Hdict) Hx [i Hi]%list_elem_of_lookup.
  assert (dict !! x = Some (Z.of_nat i)) as Hsome.
  { apply Hdict. split; [lia|]. by rewrite Nat2Z.id. }
  congruence.
Qed.

(** Lines 196-199 of [entrenar_incremental]: a new student gets
    [next_label] and the last place of the list. *)
Lemma registry_ok_snoc paths dict next x :
  registry_ok paths dict next → dict !! x = None →
  registry_ok (paths ++ [x]) (<[x := next]> dict) (next + 1).
Proof.
  intros Hok Hx. pose proof (registry_ok_fresh _ _ _ _ Hok Hx) as Hfresh.
  destruct Hok as (Hnodup & -> & Hdict).
  split; [|split].
  - apply NoDup_app. split; [done|]. split; [|apply NoDup_singleton].
    by intros y Hy ->%list_elem_of_singleton.
  - rewrite length_app. simpl. lia.
  - intros nombre l. rewrite lookup_app_Some.
    destruct (decide (x = nombre)) as [->|Hne].
    + rewrite lookup_insert_eq. split.
      * intros [= <-]. split; [lia|]. right. rewrite Nat2Z.id.
        split; [lia|]. by rewrite Nat.sub_diag.
      * intros [Hl [Hin|[Hge Hlast]]].
        -- exfalso. apply Hfresh. by eapply list_elem_of_lookup_2.
        -- apply lookup_lt_Some in Hlast. simpl in Hlast. f_equal. lia.
    + rewrite lookup_insert_ne by done. rewrite Hdict. split.
      * intros [Hl Hin]. auto.
      * intros [Hl [Hin|[Hge Hlast]]]; [done|].
        apply list_lookup_singleton_Some in Hlast as [_ ?]. congruence.
Qed.

(** [{name: idx for idx, name in enumerate(l)}] for distinct names. *)
Lemma registry_ok_enumerate (l : list string) :
  NoDup l → registry_ok l (dict_of_enumerate l) (Z.of_nat (length l)).
Proof.
  induction l as [|x l IH] using rev_ind; intros Hnodup.
  - apply registry_ok_nil.
  - apply NoDup_app in Hnodup as (Hl & Hx & _).
    rewrite dict_of_enumerate_snoc, length_app. simpl.
    replace (Z.of_nat (length l + 1)) with (Z.of_nat (length l) + 1) by lia.
    apply registry_ok_snoc; [by apply IH|].
    destruct (dict_of_enumerate l !! x) as [i|] eqn:Hi; [|done].
    apply (IH Hl) in Hi as [_ Hi]. exfalso.
    apply (Hx x); [by eapply list_elem_of_lookup_2 | set_solver].
Qed.

Lemma NoDup_people (d : list (string * node)) :
  NoDup (names d) → NoDup (people d).
Proof.
  intros H. unfold people, names in *.
  eapply sublist_NoDup; [exact H|].
  apply fmap_sublist. clear H. induction d as [|[k n] d IH]; simpl; [done|].
  destruct (es_directorio n); [by apply sublist_skip | by apply sublist_cons].
Qed.

(** What the invariant says about labels. *)
Lemma registry_ok_labels paths dict next :
  registry_ok paths dict next →
  (∀ l, (∃ nombre, dict !! nombre = Some l) ↔ 0 ≤ l < next) ∧
  (∀ n1 n2 l, dict !! n1 = Some l → dict !! n2 = Some l → n1 = n2) ∧
  (∀ i nombre, paths !! i = Some nombre ↔ dict !! nombre = Some (Z.of_nat i)).
Proof.
  intros (Hnodup & -> & Hdict). split; [|split].
  - intros l. split.
    + intros [nombre [Hl Hin]%Hdict]. apply lookup_lt_Some in Hin. lia.
    + intros Hl. destruct (lookup_lt_is_Some_2 paths (Z.to_nat l)) as [nombre Hn];
        [lia|].
      exists nombre. apply Hdict. split; [lia | done].
  - intros n1 n2 l [_ H1]%Hdict [_ H2]%Hdict. congruence.
  - intros i nombre. rewrite Hdict, Nat2Z.id. split; [|by intros [_ ?]].
    intros H. split; [lia | done].
Qed.
End Registry.

(** ** Every operation keeps the registry invariant *)

Section RegistryInvariant.
Context {cv : OpenCV}.

Ltac registry_side :=
  match goal with
  | |- keeps _ _ (emit _) => by apply keeps_emit
  | |- keeps _ _ (set_model_file _) =>
      apply keeps_set_model_file; by intros ? [? ?]
  | |- keeps _ _ (set_data (_ ++ [_])) =>
      apply keeps_set_data; intros ? [? ?]; split; [done|];
      repeat match goal with H : ∃ _, _ |- _ => destruct H as (? & [? ?] & <-) end;
      by apply NoDup_names_snoc
  | |- keeps _ _ (set_data (assoc_put _ _ _)) =>
      apply keeps_set_data; intros ? [? ?]; split; [done|];
      repeat match goal with H : ∃ _, _ |- _ => destruct H as (? & [? ?] & <-) end;
      by apply NoDup_names_put
  | |- keeps _ _ (set_data (assoc_del _ _)) =>
      apply keeps_set_data; intros ? [? ?]; split; [done|];
      repeat match goal with H : ∃ _, _ |- _ => destruct H as (? & [? ?] & <-) end;
      by apply NoDup_names_del
  | |- keeps _ _ (set_data (foldl _ _ _)) =>
      apply keeps_set_data; intros ? [? ?]; split; [done|];
      repeat match goal with H : ∃ _, _ |- _ => destruct H as (? & [? ?] & <-) end;
      by apply NoDup_names_del_all
  | |- keeps _ _ (set_self (con_recognizer _ _)) =>
      apply keeps_set_self; intros ? [? ?]; split; [|done];
      repeat match goal with H : ∃ _, _ |- _ => destruct H as (? & [? ?] & <-) end;
      done
  | |- keeps _ _ (set_self (con_sesion _ _ _)) =>
      apply keeps_set_self; intros ? [? ?]; split; [|done];
      repeat match goal with H : ∃ _, _ |- _ => destruct H as (? & [? ?] & <-) end;
      done
  | |- keeps _ _ (set_self (con_registro _ (_ ++ [_]) _ _)) =>
      apply keeps_set_self; intros ? [? ?]; split; [|done];
      repeat match goal with H : ∃ _, _ |- _ => destruct H as (? & [? ?] & <-) end;
      by apply registry_ok_snoc
  | H : people _ = _ |- keeps _ _ (set_self (con_registro _ _ _ _)) =>
      rewrite <- H;
      apply keeps_set_self; intros ? [? ?]; split; [|done];
      repeat match goal with H : ∃ _, _ |- _ => destruct H as (? & [? ?] & <-) end;
      by apply registry_ok_enumerate, NoDup_people
  end.

Lemma reconocer_rostro_registry settings now up image_data :
  keeps registry_and_data any_event (reconocer_rostro settings now up image_data).
Proof.
  unfold reconocer_rostro, decode_image, detectar_rostro,
    registro_unico_con_tiempo, registrar_asistencia.
  keeps_walk; registry_side.
Qed.

Lemma guardar_foto_registro_registry now estudiante foto :
  keeps registry_and_data any_event (guardar_foto_registro now estudiante foto).
Proof.
  unfold guardar_foto_registro, makedirs, detectar_rostro, cv_imwrite.
  keeps_walk; registry_side.
Qed.

Lemma entrenar_incremental_registry disk estudiante :
  keeps registry_and_data any_event (entrenar_incremental disk estudiante).
Proof.
  unfold entrenar_incremental, recognizer_update, recognizer_train, write_model.
  keeps_walk; registry_side.
Qed.

Lemma entrenar_modelo_completo_registry disk_ok :
  keeps registry_and_data any_event (entrenar_modelo_completo disk_ok).
Proof.
  unfold entrenar_modelo_completo, recognizer_train, write_model.
  keeps_walk; registry_side.
Qed.

Lemma atender_registry settings (c : llamada) (w : World) :
  registry_and_data w → registry_and_data (atender settings c w).1.
Proof.
  intros Hw. destruct c as [now up img|now e f|disk e|disk_ok| |]; simpl.
  - by apply reconocer_rostro_registry.
  - by apply guardar_foto_registro_registry.
  - by apply entrenar_incremental_registry.
  - by apply entrenar_modelo_completo_registry.
  - done.
  - done.
Qed.

Lemma atender_todas_registry settings (cs : list llamada) (w : World) :
  registry_and_data w → registry_and_data (atender_todas settings cs w).1.
Proof.
  revert w. induction cs as [|c cs IH]; intros w Hw; simpl; [done|].
  pose proof (atender_registry settings c w Hw) as H1.
  destruct (atender settings c w) as [w1 evs1]. simpl in H1.
  specialize (IH w1 H1).
  by destruct (atender_todas settings cs w1) as [w2 evs2].
Qed.

(** The service starts with a registry that satisfies the invariant,
    with or without a saved model. *)
Lemma initialize_registry settings (disk : list (string * node)) saved :
  NoDup (names disk) → registry_and_data (_initialize settings disk saved).
Proof.
  intros Hdisk. split; [|done]. unfold registry_inv. simpl.
  destruct saved; [by apply registry_ok_enumerate | apply registry_ok_nil].
Qed.

(** C3. From a state in which the registry invariant holds, as it does
    when the service starts, every sequence of calls to the service, so
    every sequence of incremental and full trainings, mixed with
    enrolments and recognitions, ends in a state in which it holds: the
    identities are distinct, [next_label] is their number, the labels
    are the integers from 0 up to that number, no two identities share
    a label, and the label of an identity is its position in the
    list. *)
Theorem registry_invariant settings (cs : list llamada) (w : World) :
  registry_inv (self w) → data_ok w →
  let s := self (atender_todas settings cs w).1 in
  registry_inv s ∧
  next_label s = Z.of_nat (length (image_paths s)) ∧
  (∀ l, (∃ nombre, label_dict s !! nombre = Some l) ↔
        0 ≤ l < Z.of_nat (length (image_paths s))) ∧
  (∀ n1 n2 l, label_dict s !! n1 = Some l → label_dict s !! n2 = Some l →
              n1 = n2) ∧
  (∀ i nombre, image_paths s !! i = Some nombre ↔
               label_dict s !! nombre = Some (Z.of_nat i)).
Proof.
  intros Hreg Hdata. cbv zeta.
  destruct (atender_todas_registry settings cs w (conj Hreg Hdata)) as [Hs _].
  split; [done|].
  pose proof (registry_ok_labels _ _ _ Hs) as Hlabels.
  destruct Hs as (_ & Hnext & _). split; [done|].
  by rewrite <- Hnext.
Qed.
End RegistryInvariant.

(** An enrolment and an incremental training of "ana", an enrolment of
    "bob", a full retrain, and an incremental training of "bob" whose
    directory is gone by then. *)
Lemma registry_invariant_witness :
  let cs := [GuardarFotoRegistro 1000 "ana" "data:image/jpeg;base64,ana";
             EntrenarIncremental (true, true) "ana";
             GuardarFotoRegistro 2000 "bob" "data:image/jpeg;base64,bob";
             EntrenarModeloCompleto true;
             EntrenarIncremental (true, true) "bob"] in
  let s := self (atender_todas (cv := Fake.cv) Fake.settings cs Fake.fresh).1 in
  registry_inv (self Fake.fresh) ∧ data_ok Fake.fresh ∧
  image_paths s = ["bob"] ∧ registry_inv s.
Proof.
  cbv zeta.
  assert (H1 : registry_inv (self Fake.fresh)) by apply registry_ok_nil.
  assert (H2 : data_ok Fake.fresh) by apply NoDup_nil_2.
  split; [exact H1|]. split; [exact H2|]. split; [reflexivity|].
  exact (proj1 (registry_invariant (cv := Fake.cv) Fake.settings _ Fake.fresh H1 H2)).
Defined.


(** ** The full retrain rebuilds the registry from the directories *)

Section FullRetrain.
Context {cv : OpenCV}.

Local Arguments leer_personas : simpl never.
Local Arguments people : simpl never.

Lemma elem_of_people (d : list (string * node)) (nombre : string) :
  nombre ∈ people d ↔ ∃ files, (nombre, Directory files) ∈ d.
Proof.
  unfold people, names. rewrite list_elem_of_fmap. split.
  - intros ([k n] & -> & Hin). apply list_elem_of_In, filter_In in Hin as [Hin Hdir].
    destruct n as [|files]; [done|]. exists files. by apply list_elem_of_In.
  - intros [files Hin]. exists (nombre, Directory files). split; [done|].
    apply list_elem_of_In, filter_In. split; [by apply list_elem_of_In | done].
Qed.

(** C8, amended. The full retrain enumerates every directory of the
    data path, with or without images in it. It returns a failure, and
    changes nothing, when there is no directory or when no directory
    holds a readable image. Otherwise, when [train] accepts the batch,
    the identity list is the list of all enumerated directories in
    enumeration order, [next_label] is their number and the label of
    each is its position, for a directory without readable images as
    for the others; and the call returns [ok = True] when the model
    file can be written. *)
Theorem entrenar_modelo_completo_rebuilds disk_ok (w : World) :
  data_ok w →
  let r := entrenar_modelo_completo disk_ok w in
  let people_list := people (data w) in
  let batch := leer_personas (data w) people_list 0 in
  (∀ nombre, nombre ∈ people_list ↔ ∃ files, (nombre, Directory files) ∈ data w) ∧
  (people_list = [] →
     returned r = Some (fallo "No hay personas para entrenar") ∧ after r = w) ∧
  (people_list ≠ [] → batch.1 = [] →
     returned r = Some (fallo "No se encontraron imágenes") ∧ after r = w) ∧
  (people_list ≠ [] → batch.1 ≠ [] →
   ∀ trained, train LBPHFaceRecognizer_create batch.1 batch.2 = inr trained →
     image_paths (self (after r)) = people_list ∧
     next_label (self (after r)) = Z.of_nat (length people_list) ∧
     (∀ i nombre, people_list !! i = Some nombre ↔
                  label_dict (self (after r)) !! nombre = Some (Z.of_nat i)) ∧
     (disk_ok = true → ok <$> returned r = Some true)).
Proof.
  intros Hdata. cbv zeta. split; [apply elem_of_people|].
  pose proof (registry_ok_labels _ _ _
                (registry_ok_enumerate _ (NoDup_people _ Hdata))) as (_ & _ & Hdict).
  unfold returned, entrenar_modelo_completo, recognizer_train, write_model.
  unfold_M. simpl.
  destruct (people (data w)) as [|p ps] eqn:Hp; simpl.
  { split; [by intros _|]. split; by intros []. }
  split; [by intros [=]|].
  destruct (leer_personas (data w) (p :: ps) 0) as [[|face faces] labels];
    simpl.
  { split; [by intros _ _|]. by intros _ []. }
  split; [by intros _ [=]|].
  intros _ _ trained ->. simpl.
  destruct disk_ok; simpl; (split; [done|]); (split; [done|]);
    (split; [exact Hdict|]); by intros.
Qed.
End FullRetrain.

(** The directories "ana", with a photo, and "bob", without. *)
Lemma entrenar_modelo_completo_rebuilds_witness :
  let r := entrenar_modelo_completo (cv := Fake.cv) true Fake.two_folders in
  data_ok Fake.two_folders ∧
  readable (cv := Fake.cv) (listdir (data Fake.two_folders) "bob") = [] ∧
  image_paths (self (after r)) = ["ana"; "bob"] ∧
  label_dict (self (after r)) !! "bob" = Some 1.
Proof.
  cbv zeta.
  assert (Hdata : data_ok Fake.two_folders).
  { unfold data_ok. simpl. apply NoDup_cons. split; [|apply NoDup_singleton].
    by intros ?%list_elem_of_singleton. }
  destruct (entrenar_modelo_completo_rebuilds (cv := Fake.cv) true
              Fake.two_folders Hdata) as (_ & _ & _ & H).
  destruct (H ltac:(discriminate) ltac:(discriminate) [(97, 0)] eq_refl)
    as (Hpaths & _ & Hdict & _).
  split; [exact Hdata|]. split; [reflexivity|]. split; [exact Hpaths|].
  apply (Hdict 1%nat "bob"). reflexivity.
Defined.

(** * Further properties of the service *)

(** ** Strings: names and payloads *)

Section StringFacts.

Lemma rfind_from_last_index c s i last :
  Py.rfind_from c s i last =
  match last_index c s with Some k => i + Z.of_nat k | None => last end.
Proof.
  revert i last. induction s as [|d r IH]; intros i last; simpl; [done|].
  rewrite IH. destruct (last_index c r) as [k|]; [lia|].
  destruct (Ascii.eqb d c); [lia | done].
Qed.

Lemma last_index_None c s : last_index c s = None → Py.find c s = None.
Proof.
  induction s as [|d r IH]; simpl; [done|].
  destruct (last_index c r) as [k|]; [done|].
  destruct (Ascii.eqb d c); [done|]. intros _. by rewrite IH.
Qed.

Lemma substring_from_S n c r :
  String.substring (S n) (String.length (String c r) - S n) (String c r) =
  String.substring n (String.length r - n) r.
Proof. done. Qed.

Lemma substring_all s : String.substring 0 (String.length s) s = s.
Proof. induction s as [|c r IH]; simpl; [done|]. by rewrite IH. Qed.

(** Nothing follows the last occurrence. *)
Lemma find_after_last c s k :
  last_index c s = Some k →
  Py.find c (String.substring (S k) (String.length s - S k) s) = None.
Proof.
  revert k. induction s as [|d r IH]; intros k; simpl; [done|].
  destruct (last_index c r) as [j|] eqn:Hr.
  - intros [= <-]. by apply IH.
  - destruct (Ascii.eqb d c); [|done]. intros [= <-].
    rewrite Nat.sub_0_r, substring_all. by apply last_index_None.
Qed.

Lemma find_prefix_None c s n :
  Py.find c s = None → Py.find c (String.substring 0 n s) = None.
Proof.
  revert n. induction s as [|d r IH]; intros n; simpl.
  - by destruct n.
  - destruct (Ascii.eqb d c) eqn:E; [done|].
    destruct (Py.find c r) eqn:Hr; [done|]. intros _.
    destruct n; simpl; [done|]. rewrite E. by rewrite IH.
Qed.

Lemma basename_no_separator p : Py.find "/" (Py.basename p) = None.
Proof.
  unfold Py.basename, Py.rfind, Py.from. rewrite rfind_from_last_index.
  destruct (last_index "/" p) as [k|] eqn:Hk.
  - replace (Z.to_nat (0 + Z.of_nat k + 1)) with (S k) by lia.
    by apply find_after_last.
  - simpl. rewrite Nat.sub_0_r, substring_all. by apply last_index_None.
Qed.

Lemma splitext_root_no_separator p :
  Py.find "/" p = None → Py.find "/" (Py.splitext p).1 = None.
Proof.
  intros Hp. unfold Py.splitext.
  destruct (_ <? _); [|done].
  destruct (Py.all_dots _); [done|]. simpl. unfold Py.upto.
  by apply find_prefix_None.
Qed.

(** X1. The name [guardar_foto_registro] uses for the holding directory
    (line 149) never holds a path separator, whatever the request
    sends as student name. *)
Theorem sanitized_name_no_separator (estudiante : string) :
  Py.find "/" (Py.splitext (Py.basename estudiante)).1 = None.
Proof. apply splitext_root_no_separator, basename_no_separator. Qed.

Lemma all_dots_last_separator s :
  Py.all_dots s = true → last_index "/" s = None.
Proof.
  induction s as [|c r IH]; simpl; [done|].
  intros [Hc Hr]%andb_true_iff. rewrite (IH Hr).
  apply Ascii.eqb_eq in Hc as ->. done.
Qed.

Lemma all_dots_substring s n m :
  Py.all_dots s = true → Py.all_dots (String.substring n m s) = true.
Proof.
  revert n m. induction s as [|c r IH]; intros n m; simpl.
  - by destruct n, m.
  - intros [Hc Hr]%andb_true_iff. destruct n; simpl.
    + destruct m; simpl; [done|]. rewrite Hc. by apply IH.
    + by apply IH.
Qed.

(** X2. A name made of dots only, as ["."] and [".."] are, passes the
    sanitization of line 149 unchanged. *)
Theorem sanitized_dots_unchanged (estudiante : string) :
  Py.all_dots estudiante = true →
  (Py.splitext (Py.basename estudiante)).1 = estudiante.
Proof.
  intros Hdots.
  assert (Hbase : Py.basename estudiante = estudiante).
  { unfold Py.basename, Py.rfind, Py.from. rewrite rfind_from_last_index.
    rewrite (all_dots_last_separator _ Hdots). simpl.
    by rewrite Nat.sub_0_r, substring_all. }
  rewrite Hbase. unfold Py.splitext.
  destruct (_ <? _); [|done].
  by rewrite all_dots_substring.
Qed.

End StringFacts.

(** The parent directory. *)
Lemma sanitized_dots_unchanged_witness :
  Py.all_dots ".." = true ∧ (Py.splitext (Py.basename "..")).1 = "..".
Proof.
  split; [reflexivity|]. by apply (sanitized_dots_unchanged "..").
Defined.

Section PayloadFacts.

Lemma append_nil_l (b : string) : "" +:+ b = b.
Proof. done. Qed.

Lemma append_cons (x : ascii) (a b : string) :
  String x a +:+ b = String x (a +:+ b).
Proof. done. Qed.

Ltac simpl_append := rewrite ?append_nil_l, ?append_cons; simpl.

Local Arguments String.prefix : simpl never.

Lemma append_assoc (a b c : string) : (a +:+ b) +:+ c = a +:+ (b +:+ c).
Proof. induction a as [|x a IH]; simpl_append; [done|]. by f_equal. Qed.

Lemma length_append (a b : string) :
  String.length (a +:+ b) = (String.length a + String.length b)%nat.
Proof. induction a as [|x a IH]; simpl_append; [done|]. by f_equal. Qed.

Lemma find_append_None c a b :
  Py.find c a = None →
  Py.find c (a +:+ b) = (λ k, (String.length a + k)%nat) <$> Py.find c b.
Proof.
  induction a as [|x a IH]; simpl_append.
  - intros _. by destruct (Py.find c b).
  - destruct (Ascii.eqb x c); [done|].
    destruct (Py.find c a) eqn:Ha; [done|]. intros _.
    rewrite IH by done. by destruct (Py.find c b).
Qed.

Lemma substring_append_left a b :
  String.substring 0 (String.length a) (a +:+ b) = a.
Proof. induction a as [|x a IH]; simpl_append; [by destruct b|]. by f_equal. Qed.

Lemma substring_append_right a b :
  String.substring (String.length a) (String.length b) (a +:+ b) = b.
Proof. induction a as [|x a IH]; simpl_append; [apply substring_all | done]. Qed.

Lemma from_append a b : Py.from (Z.of_nat (String.length a)) (a +:+ b) = b.
Proof.
  unfold Py.from. rewrite Nat2Z.id, length_append.
  replace (String.length a + String.length b - String.length a)%nat
    with (String.length b) by lia.
  apply substring_append_right.
Qed.

Lemma upto_append a b : Py.upto (Z.of_nat (String.length a)) (a +:+ b) = a.
Proof. unfold Py.upto. rewrite Nat2Z.id. apply substring_append_left. Qed.

(** Where no [';'] stands no marker starts. *)
Lemma prefix_marker_semicolon s :
  String.prefix Py.marker s = true → ∃ r, s = String ";" r.
Proof.
  intros H%String.prefix_correct.
  destruct s as [|c r]; simpl in H; [done|]. injection H as -> _. eauto.
Qed.

Lemma last_marker_no_semicolon s i best :
  Py.find ";" s = None → Py.last_marker s i best = best.
Proof.
  revert i best. induction s as [|c r IH]; intros i best; simpl; [done|].
  destruct (Ascii.eqb c ";") eqn:E; [done|].
  destruct (Py.find ";" r) eqn:Hr; [done|]. intros _.
  destruct (Ascii.eqb c Py.LF); [done|]. rewrite IH by done.
  destruct (0 <? i)%nat; simpl; [|done].
  destruct (String.prefix Py.marker (String c r)) eqn:Hp; [|done].
  apply prefix_marker_semicolon in Hp as [r' [= -> _]].
  by rewrite Ascii.eqb_refl in E.
Qed.

Lemma last_marker_skip u v i best :
  Py.find ";" u = None → Py.find Py.LF u = None →
  Py.last_marker (u +:+ v) i best =
  Py.last_marker v (i + String.length u) best.
Proof.
  revert i best. induction u as [|c r IH]; intros i best; simpl_append.
  - intros _ _. by rewrite Nat.add_0_r.
  - destruct (Ascii.eqb c ";") eqn:E; [done|].
    destruct (Py.find ";" r) eqn:Hr; [done|]. intros _.
    destruct (Ascii.eqb c Py.LF) eqn:E'; [done|].
    destruct (Py.find Py.LF r) eqn:Hr'; [done|]. intros _.
    rewrite IH by done.
    replace (S i + String.length r)%nat with (i + S (String.length r))%nat by lia.
    destruct (0 <? i)%nat; simpl; [|done].
    destruct (String.prefix Py.marker (String c (r +:+ v))) eqn:Hp; [|done].
    apply prefix_marker_semicolon in Hp as [r' [= -> _]].
    by rewrite Ascii.eqb_refl in E.
Qed.

Lemma prefix_append a b : String.prefix a (a +:+ b) = true.
Proof. apply String.prefix_correct, substring_append_left. Qed.

(** X3. The two decoders of the service, the regular expression of
    [decode_image] (line 68) and the [split(',', 1)] of
    [guardar_foto_registro] (line 155), cut the same base64 text out of
    a data URL whose media subtype is not empty and has no [';'], no
    [','] and no line feed, and whose base64 text has no [';']. *)
Theorem decoders_agree_on_data_urls (subtype b64 : string) :
  subtype ≠ "" →
  Py.find ";" subtype = None →
  Py.find "," subtype = None →
  Py.find Py.LF subtype = None →
  Py.find ";" b64 = None →
  Py.strip_data_url (data_url subtype b64) = b64 ∧
  Py.split_comma (data_url subtype b64) =
    Some (Py.scheme +:+ subtype +:+ ";base64", b64).
Proof.
  intros Hne Hsemi Hcomma Hlf Hb64. unfold data_url. split.
  - unfold Py.strip_data_url. rewrite prefix_append, from_append.
    rewrite last_marker_skip by done.
    assert (Hpos : (0 <? 0 + String.length subtype)%nat = true)
      by (by destruct subtype).
    assert (Hscan : Py.last_marker (Py.marker +:+ b64)
                      (0 + String.length subtype) None
                    = Some (0 + String.length subtype)%nat).
    { unfold Py.marker at 1. rewrite append_cons.
      cbn [Py.last_marker].
      change (String ";" ("base64," +:+ b64)) with (Py.marker +:+ b64).
      rewrite prefix_append, Hpos.
      change (Ascii.eqb ";" Py.LF) with false. cbv iota. cbn [andb].
      apply last_marker_no_semicolon.
      rewrite find_append_None by done. by rewrite Hb64. }
    rewrite Hscan.
    replace (0 + String.length subtype + String.length Py.marker)%nat
      with (String.length (subtype +:+ Py.marker))
      by (rewrite length_append; lia).
    rewrite <- (append_assoc subtype Py.marker b64). apply from_append.
  - unfold Py.split_comma.
    replace (Py.scheme +:+ subtype +:+ Py.marker +:+ b64)
      with ((Py.scheme +:+ subtype +:+ ";base64") +:+ ("," +:+ b64))
      by (by rewrite !append_assoc).
    assert (Hfind : Py.find "," (Py.scheme +:+ subtype +:+ ";base64") = None).
    { rewrite find_append_None by done. rewrite find_append_None by done. done. }
    rewrite (find_append_None _ _ _ Hfind).
    rewrite append_cons. cbn [Py.find]. change (Ascii.eqb "," ",") with true.
    cbv iota. cbn [fmap option_fmap option_map]. rewrite Nat.add_0_r.
    rewrite <- (append_cons "," "" b64).
    rewrite upto_append. f_equal. f_equal.
    replace (Z.of_nat (String.length (Py.scheme +:+ subtype +:+ ";base64")) + 1)
      with (Z.of_nat (String.length ((Py.scheme +:+ subtype +:+ ";base64") +:+ ",")))
      by (rewrite (length_append _ ","); simpl; lia).
    rewrite <- (append_assoc _ "," b64). apply from_append.
Qed.
End PayloadFacts.

(** The payload of a JPEG photo. *)
Lemma decoders_agree_on_data_urls_witness :
  Py.strip_data_url (data_url "jpeg" "/9j/4AAQSkZJRg==") = "/9j/4AAQSkZJRg==" ∧
  Py.split_comma (data_url "jpeg" "/9j/4AAQSkZJRg==") =
    Some ("data:image/jpeg;base64", "/9j/4AAQSkZJRg==").
Proof.
  apply (decoders_agree_on_data_urls "jpeg" "/9j/4AAQSkZJRg=="); done.
Defined.

(** ** The crop of line 105 *)

Section CropFacts.

Lemma length_slice {A : Type} (i j : Z) (l : list A) :
  0 ≤ i → 0 ≤ j →
  length (Py.slice i j l) =
  Z.to_nat (Z.min j (Z.of_nat (length l)) - Z.min i (Z.of_nat (length l))).
Proof.
  intros Hi Hj. unfold Py.slice, Py.clamp.
  destruct (Z.ltb_spec i 0); [lia|]. destruct (Z.ltb_spec j 0); [lia|].
  rewrite length_take, length_drop. lia.
Qed.

(** X4. A box with a non-negative corner and size cuts out its part of the
    image: the crop has the rows and columns of the box that lie
    inside the image, all of them for a box inside the image, fewer
    for a box that overruns it. *)
Theorem crop_shape (img : gray) (rows cols : nat) (x y w h : Z) :
  has_shape img rows cols →
  0 ≤ x → 0 ≤ y → 0 ≤ w → 0 ≤ h →
  has_shape (crop img x y w h)
    (Z.to_nat (Z.min (y + h) (Z.of_nat rows) - Z.min y (Z.of_nat rows)))
    (Z.to_nat (Z.min (x + w) (Z.of_nat cols) - Z.min x (Z.of_nat cols))) ∧
  (x + w ≤ Z.of_nat cols → y + h ≤ Z.of_nat rows →
   has_shape (crop img x y w h) (Z.to_nat h) (Z.to_nat w)).
Proof.
  intros [Hrows Hcols] Hx Hy Hw Hh.
  assert (Hgen : has_shape (crop img x y w h)
    (Z.to_nat (Z.min (y + h) (Z.of_nat rows) - Z.min y (Z.of_nat rows)))
    (Z.to_nat (Z.min (x + w) (Z.of_nat cols) - Z.min x (Z.of_nat cols)))).
  { unfold crop. split.
    - rewrite length_fmap, length_slice by lia. by rewrite Hrows.
    - apply Forall_fmap. apply slice_Forall.
      eapply Forall_impl; [exact Hcols|]. intros r Hr. simpl in *.
      rewrite length_slice by lia. by rewrite Hr. }
  split; [exact Hgen|]. intros Hxw Hyh.
  replace (Z.to_nat h) with
    (Z.to_nat (Z.min (y + h) (Z.of_nat rows) - Z.min y (Z.of_nat rows))) by lia.
  replace (Z.to_nat w) with
    (Z.to_nat (Z.min (x + w) (Z.of_nat cols) - Z.min x (Z.of_nat cols))) by lia.
  exact Hgen.
Qed.
End CropFacts.

(** A 2x3 image and a 2x2 box at its right edge, and one that overruns
    the edge. *)
Lemma crop_shape_witness :
  has_shape [[1; 2; 3]; [4; 5; 6]] 2 3 ∧
  crop [[1; 2; 3]; [4; 5; 6]] 1 0 2 2 = [[2; 3]; [5; 6]] ∧
  has_shape (crop [[1; 2; 3]; [4; 5; 6]] 1 0 2 2) 2 2 ∧
  has_shape (crop [[1; 2; 3]; [4; 5; 6]] 2 1 2 2) 1 1.
Proof.
  assert (H : has_shape [[1; 2; 3]; [4; 5; 6]] 2 3)
    by (split; [reflexivity | by repeat constructor]).
  split; [exact H|]. split; [reflexivity|]. split.
  - apply (proj2 (crop_shape _ 2 3 1 0 2 2 H ltac:(lia) ltac:(lia) ltac:(lia)
                    ltac:(lia))); lia.
  - apply (proj1 (crop_shape _ 2 3 2 1 2 2 H ltac:(lia) ltac:(lia) ltac:(lia)
                    ltac:(lia))).
Defined.

(** ** Recognition: what it touches and what it answers *)

Section RecognitionFacts.
Context {cv : OpenCV}.

Lemma reconocer_rostro_outside_session settings now up image_data (X : World) :
  keeps (λ w, outside_session w X) any_event
    (reconocer_rostro settings now up image_data).
Proof.
  unfold reconocer_rostro, decode_image, detectar_rostro,
    registro_unico_con_tiempo, registrar_asistencia.
  keeps_walk;
    match goal with
    | |- keeps _ _ (emit _) => by apply keeps_emit
    | |- keeps _ _ (set_self _) =>
        apply keeps_set_self; intros ? [Hm (? & ? & ?)];
        repeat match goal with
               | H : ∃ _, _ |- _ => destruct H as (? & [Hm' (? & ? & ?)] & <-)
               end;
        unfold outside_session, model_state in *; simpl;
        injection Hm as ? ? ? ? ? ?; injection Hm' as ? ? ? ? ? ?;
        repeat split; congruence
    end.
Qed.

(** X5. [reconocer_rostro] reads the recognizer and the registry and
    writes neither: whatever the image and whatever the outcome, the
    recognizer, the identity list, the label map, the next label, the
    holding directories and the model file are after the call what
    they were before it. Only the two session containers can change. *)
Theorem reconocer_rostro_only_session settings now up image_data (w : World) :
  outside_session (after (reconocer_rostro settings now up image_data w)) w.
Proof.
  apply (reconocer_rostro_outside_session settings now up image_data w w).
  by unfold outside_session.
Qed.

(** With the attendance store up, the dedup logic always returns. *)
Lemma registro_returns now nombre (w : World) :
  result (registro_unico_con_tiempo now true nombre w) = Return tt.
Proof.
  destruct (tiempos_reconocimiento (self w) !! nombre) as [t0|] eqn:Ht.
  - destruct (Py.ge (now - t0)%Q (duracion_reconocimiento (self w))) eqn:Hge.
    + destruct (decide (nombre ∈ estudiantes_reconocidos (self w))) as [Hin|Hnot].
      * by rewrite (registro_waits _ _ _ _ _ Ht) by auto.
      * by rewrite (registro_fires _ _ _ _ _ Ht Hge Hnot).
    + by rewrite (registro_waits _ _ _ _ _ Ht) by auto.
  - by rewrite (registro_first _ _ _ _ Ht).
Qed.

(** X6. The attendance service is called for a recognised student exactly
    when the student was seen before in the session, a full duration
    or more ago, and is not registered yet. The first sighting only
    stores its time, so it never registers, not even with a duration
    of zero; and a call that recognises one student never registers
    another. *)
Theorem attendance_fires_iff settings now up image_data (w : World) nombre c b :
  let r := reconocer_rostro settings now up image_data w in
  returned r = Some (Reconocido nombre c b) →
  (avisos nombre (events r) = 1%nat ↔
   ∃ t0, tiempos_reconocimiento (self w) !! nombre = Some t0 ∧
         (duracion_reconocimiento (self w) <= now - t0)%Q ∧
         nombre ∉ estudiantes_reconocidos (self w)) ∧
  (tiempos_reconocimiento (self w) !! nombre = None →
   avisos nombre (events r) = 0%nat ∧
   tiempos_reconocimiento (self (after r)) !! nombre = Some now) ∧
  (∀ otro, otro ≠ nombre → avisos otro (events r) = 0%nat).
Proof.
  cbv zeta. intros [Ha [p He]]%reconocer_rostro_candidate.
  rewrite Ha, He. clear Ha He.
  destruct (tiempos_reconocimiento (self w) !! nombre) as [t0|] eqn:Ht.
  - destruct (Py.ge (now - t0)%Q (duracion_reconocimiento (self w))) eqn:Hge.
    + destruct (decide (nombre ∈ estudiantes_reconocidos (self w))) as [Hin|Hnot].
      * rewrite (registro_waits _ _ _ _ _ Ht) by auto. cbn [after events].
        split; [|split]; [|done|done].
        split; [done|]. by intros (? & _ & _ & ?).
      * rewrite (registro_fires _ _ _ _ _ Ht Hge Hnot). cbn [after events].
        split; [|split]; [|done|].
        -- split; [|intros _; unfold avisos; simpl; by rewrite String.eqb_refl].
           intros _. exists t0. split; [done|]. split; [by apply ge_iff | done].
        -- intros otro Hotro. unfold avisos. simpl.
           by destruct (String.eqb_spec nombre otro).
    + rewrite (registro_waits _ _ _ _ _ Ht) by auto. cbn [after events].
      split; [|split]; [|done|done].
      split; [done|]. intros (t & [= <-] & Hle%ge_iff & _). congruence.
  - rewrite (registro_first _ _ _ _ Ht). cbn [after events].
    split; [|split]; [| |done].
    + split; [done|]. by intros (? & ? & _).
    + intros _. split; [done|]. simpl. by rewrite lookup_insert_eq.
Qed.

(** X7. With an empty identity list, as in a fresh service, no image is
    recognised: the call answers ["sin_rostro"] or ["desconocido"] or
    raises, calls the attendance service for nobody and leaves the
    world as it was. *)
Theorem empty_registry_recognises_nobody settings now up image_data (w : World) :
  image_paths (self w) = [] →
  let r := reconocer_rostro settings now up image_data w in
  estado_de r ≠ Some "reconocido" ∧
  Forall no_aviso (events r) ∧
  after r = w.
Proof.
  intros Hempty. cbv zeta.
  unfold estado_de, returned, reconocer_rostro, decode_image, detectar_rostro.
  unfold_M. simpl.
  destruct (b64decode _) as [?|bytes]; simpl; [done|].
  destruct (imdecode bytes) as [?|[f|]]; simpl; [done| |done].
  destruct (detectMultiScale _ _ _) as [|[[[x y] bw] bh] ?]; simpl; [done|].
  destruct (resize _ _ _) as [?|rostro]; simpl; [done|].
  destruct (predict _ _) as [?|[label confianza]]; simpl;
    [by repeat constructor|].
  rewrite Hempty. simpl.
  destruct (_ && _) eqn:Hcond; simpl; [|by repeat constructor].
  unfold Py.index. simpl. clear Hcond.
  destruct (label <? 0); [destruct (label + _ <? 0)|];
    rewrite ?lookup_nil; simpl; by repeat constructor.
Qed.
End RecognitionFacts.

(** "ana", seen at t = 0 and recognised again at t = 2.5. *)
Lemma attendance_fires_iff_witness :
  let w := (atender (cv := Fake.cv) Fake.settings (Fake.ana_at 0) Fake.with_ana).1 in
  let r := reconocer_rostro (cv := Fake.cv) Fake.settings (5 # 2) true "ana" w in
  returned r = Some (Reconocido "ana" 0 [0; 0; 3; 1]) ∧
  avisos "ana" (events r) = 1%nat ∧
  avisos "bob" (events r) = 0%nat.
Proof.
  cbv zeta.
  destruct (attendance_fires_iff (cv := Fake.cv) Fake.settings (5 # 2) true "ana"
              (atender (cv := Fake.cv) Fake.settings (Fake.ana_at 0) Fake.with_ana).1
              "ana" 0%Q [0; 0; 3; 1] eq_refl) as (_ & _ & Hotro).
  split; [reflexivity|]. split; [reflexivity|]. by apply Hotro.
Defined.

(** A fresh service. *)
Lemma empty_registry_recognises_nobody_witness :
  image_paths (self Fake.fresh) = [] ∧
  estado_de (reconocer_rostro (cv := Fake.cv) Fake.settings 0 true "ana" Fake.fresh)
  ≠ Some "reconocido".
Proof.
  split; [reflexivity|].
  by apply (empty_registry_recognises_nobody (cv := Fake.cv) Fake.settings 0 true
              "ana" Fake.fresh).
Defined.

(** ** Recognition: from the predicted label to the student *)

Section LabelFacts.
Context {cv : OpenCV}.

(** Runs [reconocer_rostro] up to the decision of line 112, given what
    the library answered. *)
Ltac to_decision :=
  unfold returned, reconocer_rostro, decode_image, detectar_rostro, normalize;
  unfold_M; simpl;
  destruct (b64decode _) as [?|bytes]; simpl; [done|];
  destruct (imdecode bytes) as [?|[f'|]]; simpl; [done| |done];
  intros [= ->] ->; simpl; intros ->; simpl; intros ->; simpl.

(** The dedup logic raises exactly when it calls the attendance
    service while the store is down. *)
Lemma registro_result now up nombre (w : World) :
  (up = true ∨ dispara now nombre (self w) = false →
   result (registro_unico_con_tiempo now up nombre w) = Return tt) ∧
  (up = false → dispara now nombre (self w) = true →
   ∃ m, result (registro_unico_con_tiempo now up nombre w) = Raise (FirebaseError m)).
Proof.
  unfold dispara.
  destruct (tiempos_reconocimiento (self w) !! nombre) as [t0|] eqn:Ht.
  - destruct (Py.ge (now - t0)%Q (duracion_reconocimiento (self w))) eqn:Hge.
    + destruct (decide (nombre ∈ estudiantes_reconocidos (self w))) as [Hin|Hnot].
      * rewrite (registro_waits _ _ _ _ _ Ht) by auto.
        rewrite bool_decide_true by done. by split.
      * rewrite (registro_fires _ _ _ _ _ Ht Hge Hnot).
        rewrite bool_decide_false by done. simpl. split.
        -- by intros [->|?].
        -- intros -> _. eauto.
    + rewrite (registro_waits _ _ _ _ _ Ht) by auto. by split.
  - rewrite (registro_first _ _ _ _ Ht). by split.
Qed.

(** What [reconocer_rostro] ends with once it has resolved the label
    to [nombre]. *)
Lemma reconocido_o_error now up nombre (w : World) (esperado : resultado) :
  let r := bind (registro_unico_con_tiempo now up nombre) (λ _, ret esperado) w in
  (up = true ∨ dispara now nombre (self w) = false →
   returned r = Some esperado) ∧
  (up = false → dispara now nombre (self w) = true →
   ∃ m, result r = Raise (FirebaseError m)).
Proof.
  cbv zeta. destruct (registro_result now up nombre w) as [Hret Hraise].
  unfold returned. unfold_M.
  destruct (registro_unico_con_tiempo now up nombre w) as [w1 evs1 res].
  simpl in *. split.
  - intros H. by rewrite (Hret H).
  - intros H1 H2. destruct (Hraise H1 H2) as [m ->]. eauto.
Qed.

(** X8. The student whose label the classifier predicts, with a distance
    under the threshold, is the student the call reports: the label
    map and the identity list of a registry that satisfies its
    invariant agree. The call returns that report unless this very
    call registers the attendance while the attendance store is down:
    then the error of the attendance service leaves the call. *)
Theorem reconocer_rostro_resolves_label settings now up image_data (w : World)
    f x y bw bh rest p label conf nombre :
  returned (decode_image image_data w) = Some (Some f) →
  detectMultiScale (cvtColor f) (13 # 10) 5 = (x, y, bw, bh) :: rest →
  normalize f (x, y, bw, bh) = inr p →
  predict (face_recognizer (self w)) p = inr (label, conf) →
  registry_inv (self w) →
  Py.lt conf (confianza_threshold settings) = true →
  label_dict (self w) !! nombre = Some label →
  let r := reconocer_rostro settings now up image_data w in
  (up = true ∨ dispara now nombre (self w) = false →
   returned r = Some (Reconocido nombre conf [x; y; bw; bh])) ∧
  (up = false → dispara now nombre (self w) = true →
   ∃ m, result r = Raise (FirebaseError m)).
Proof.
  cbv zeta. to_decision. intros (_ & _ & Hdict) Hlt [Hpos Hidx]%Hdict.
  rewrite Hlt. simpl.
  assert (Hlen : (label <? Z.of_nat (length (image_paths (self w)))) = true).
  { apply Z.ltb_lt. apply lookup_lt_Some in Hidx. lia. }
  rewrite Hlen. simpl. unfold Py.index.
  destruct (Z.ltb_spec label 0); [lia|]. rewrite Hidx. simpl.
  pose proof (reconocido_o_error now up nombre w
                (Reconocido nombre conf [x; y; bw; bh])) as Hr.
  cbv zeta in Hr. unfold returned in Hr. unfold_M.
  destruct (registro_unico_con_tiempo now up nombre w) as [w1 evs1 [[]|e]];
    simpl in *; exact Hr.
Qed.

(** X9. The decision of line 112 checks the label against the length of
    the identity list only. A label at or beyond the length is
    ["desconocido"], whatever the distance. With a distance under the
    threshold, a negative label down to minus the length counts from
    the end of the list, as Python indexes, and names a student, whom
    the call reports unless it registers the attendance while the
    attendance store is down; a label below that raises
    [IndexError]. *)
Theorem reconocer_rostro_label_bounds settings now up image_data (w : World)
    f x y bw bh rest p label conf :
  returned (decode_image image_data w) = Some (Some f) →
  detectMultiScale (cvtColor f) (13 # 10) 5 = (x, y, bw, bh) :: rest →
  normalize f (x, y, bw, bh) = inr p →
  predict (face_recognizer (self w)) p = inr (label, conf) →
  let n := Z.of_nat (length (image_paths (self w))) in
  let r := reconocer_rostro settings now up image_data w in
  (n ≤ label → returned r = Some (Desconocido conf [x; y; bw; bh])) ∧
  (Py.lt conf (confianza_threshold settings) = true → - n ≤ label < 0 →
   ∃ nombre,
     image_paths (self w) !! Z.to_nat (n + label) = Some nombre ∧
     (up = true ∨ dispara now nombre (self w) = false →
      returned r = Some (Reconocido nombre conf [x; y; bw; bh])) ∧
     (up = false → dispara now nombre (self w) = true →
      ∃ m, result r = Raise (FirebaseError m))) ∧
  (Py.lt conf (confianza_threshold settings) = true → label < - n →
   result r = Raise (IndexError "list index out of range")).
Proof.
  cbv zeta. to_decision. split; [|split].
  - intros Hge. destruct (Z.ltb_spec label (Z.of_nat (length (image_paths (self w)))));
      [lia|].
    by rewrite andb_false_r.
  - intros Hlt [Hlo Hhi]. rewrite Hlt. simpl.
    destruct (Z.ltb_spec label (Z.of_nat (length (image_paths (self w)))));
      [|lia].
    simpl. unfold Py.index.
    destruct (Z.ltb_spec label 0); [|lia].
    destruct (Z.ltb_spec (label + Z.of_nat (length (image_paths (self w)))) 0);
      [lia|].
    destruct (lookup_lt_is_Some_2 (image_paths (self w))
                (Z.to_nat (label + Z.of_nat (length (image_paths (self w))))))
      as [nombre Hn]; [lia|].
    exists nombre. rewrite Z.add_comm. split; [done|]. rewrite Hn. simpl.
    pose proof (reconocido_o_error now up nombre w
                  (Reconocido nombre conf [x; y; bw; bh])) as Hr.
    cbv zeta in Hr. unfold returned in Hr. unfold_M.
    destruct (registro_unico_con_tiempo now up nombre w) as [w1 evs1 [[]|e]];
      simpl in *; exact Hr.
  - intros Hlt Hlo. rewrite Hlt. simpl.
    destruct (Z.ltb_spec label (Z.of_nat (length (image_paths (self w)))));
      [|lia].
    simpl. unfold Py.index.
    destruct (Z.ltb_spec label 0); [|lia].
    destruct (Z.ltb_spec (label + Z.of_nat (length (image_paths (self w)))) 0);
      [|lia].
    done.
Qed.
End LabelFacts.

(** The trained test double sees "ana", with the store up; and at
    t = 2.5, two seconds and more after the first sighting, with the
    store down, the call registers her and raises. *)
Lemma reconocer_rostro_resolves_label_witness :
  let w := (atender_todas (cv := Fake.cv) Fake.settings
              [Fake.ana_at 0; Fake.ana_at 1] Fake.with_ana).1 in
  registry_inv (self Fake.with_ana) ∧
  label_dict (self Fake.with_ana) !! "ana" = Some 0 ∧
  returned (reconocer_rostro (cv := Fake.cv) Fake.settings 0 true "ana" Fake.with_ana)
  = Some (Reconocido "ana" 0 [0; 0; 3; 1]) ∧
  dispara (5 # 2) "ana" (self w) = true ∧
  ∃ m, result (reconocer_rostro (cv := Fake.cv) Fake.settings (5 # 2) false "ana" w)
       = Raise (FirebaseError m).
Proof.
  cbv zeta.
  assert (Hinv : ∀ cs, registry_inv
            (self (atender_todas (cv := Fake.cv) Fake.settings cs Fake.fresh).1)).
  { intros cs.
    exact (proj1 (atender_todas_registry (cv := Fake.cv) Fake.settings cs Fake.fresh
                    (conj registry_ok_nil (NoDup_nil_2 (A := string))))). }
  split; [exact (Hinv [GuardarFotoRegistro 1000 "ana" "data:image/jpeg;base64,ana";
                       EntrenarIncremental (true, true) "ana"])|].
  split; [reflexivity|]. split.
  - apply (reconocer_rostro_resolves_label (cv := Fake.cv) Fake.settings 0 true "ana"
             Fake.with_ana [[97; 110; 97]] 0 0 3 1 []
             Scenes.ana_patch 0 0%Q "ana");
      [reflexivity | reflexivity | reflexivity | reflexivity
      | exact (Hinv [GuardarFotoRegistro 1000 "ana" "data:image/jpeg;base64,ana";
                     EntrenarIncremental (true, true) "ana"])
      | reflexivity | reflexivity | by left].
  - split; [reflexivity|].
    apply (reconocer_rostro_resolves_label (cv := Fake.cv) Fake.settings (5 # 2) false
             "ana" _ [[97; 110; 97]] 0 0 3 1 []
             Scenes.ana_patch 0 0%Q "ana");
      [reflexivity | reflexivity | reflexivity | reflexivity
      | exact (Hinv [GuardarFotoRegistro 1000 "ana" "data:image/jpeg;base64,ana";
                     EntrenarIncremental (true, true) "ana";
                     Fake.ana_at 0; Fake.ana_at 1])
      | reflexivity | reflexivity | reflexivity | reflexivity].
Defined.

(** The recognizer answers label -1 with distance 0 for "ana": the
    call reports the last student of the list. *)
Lemma reconocer_rostro_label_bounds_witness :
  predict (face_recognizer (self Scenes.negative_label)) Scenes.ana_patch
  = inr (-1, 0%Q) ∧
  image_paths (self Scenes.negative_label) = ["ana"; "bob"] ∧
  returned (reconocer_rostro (cv := Fake.cv) Fake.settings 0 false "ana"
              Scenes.negative_label)
  = Some (Reconocido "bob" 0 [0; 0; 3; 1]).
Proof.
  split; [reflexivity|]. split; [reflexivity|].
  destruct (reconocer_rostro_label_bounds (cv := Fake.cv) Fake.settings 0 false "ana"
              Scenes.negative_label [[97; 110; 97]] 0 0 3 1 []
              Scenes.ana_patch (-1) 0%Q eq_refl eq_refl eq_refl eq_refl)
    as (_ & Hneg & _).
  destruct (Hneg eq_refl) as (nombre & Hn & Hr & _); [simpl; lia|].
  injection Hn as <-. apply Hr. by right.
Defined.

(** ** The session keeps the first sighting *)

Section FirstSeen.
Context {cv : OpenCV}.

Lemma reconocer_rostro_first_seen settings now up image_data n (t0 : Q) :
  keeps (λ w, tiempos_reconocimiento (self w) !! n = Some t0) any_event
    (reconocer_rostro settings now up image_data).
Proof.
  unfold reconocer_rostro, decode_image, detectar_rostro,
    registro_unico_con_tiempo, registrar_asistencia.
  keeps_walk;
    match goal with
    | |- keeps _ _ (emit _) => by apply keeps_emit
    | |- keeps _ _ (set_self _) =>
        apply keeps_set_self; intros ? ?; simpl;
        repeat match goal with
               | H : ∃ _, _ |- _ => destruct H as (? & ? & <-)
               end;
        try done
    end.
  rewrite lookup_insert_ne; [done|]. intros ->. congruence.
Qed.

Lemma atender_first_seen settings (c : llamada) n (t0 : Q) (w : World) :
  es_reset c = false →
  tiempos_reconocimiento (self w) !! n = Some t0 →
  tiempos_reconocimiento (self (atender settings c w).1) !! n = Some t0.
Proof.
  intros Hc Hn. destruct c as [now up img|now e f|disk e|disk_ok| |]; simpl;
    [| | | |done|done].
  - by apply reconocer_rostro_first_seen.
  - destruct (guardar_foto_registro_session _ _ now e f w (conj eq_refl eq_refl))
      as [[_ ->] _]. done.
  - destruct (entrenar_incremental_session _ _ disk e w (conj eq_refl eq_refl))
      as [[_ ->] _]. done.
  - destruct (entrenar_modelo_completo_session _ _ disk_ok w (conj eq_refl eq_refl))
      as [[_ ->] _]. done.
Qed.

(** X10. Within a session the time of the first sighting of a student is
    never overwritten: later recognitions, enrolments and trainings
    leave it as it is, so the duration is always counted from the
    first sighting. *)
Theorem first_seen_is_kept settings (cs : list llamada) n (t0 : Q) (w : World) :
  one_session cs →
  tiempos_reconocimiento (self w) !! n = Some t0 →
  tiempos_reconocimiento (self (atender_todas settings cs w).1) !! n = Some t0.
Proof.
  intros Hcs. revert w. induction Hcs as [|c cs Hc _ IH]; intros w Hn; simpl;
    [done|].
  pose proof (atender_first_seen settings c n t0 w Hc Hn) as H1.
  destruct (atender settings c w) as [w1 evs1]. simpl in H1.
  specialize (IH w1 H1).
  by destruct (atender_todas settings cs w1) as [w2 evs2].
Qed.
End FirstSeen.

(** "ana" is first seen at t = 0; the sightings at t = 1 and t = 2.5
    leave that time. *)
Lemma first_seen_is_kept_witness :
  let w := (atender (cv := Fake.cv) Fake.settings (Fake.ana_at 0) Fake.with_ana).1 in
  let cs := [Fake.ana_at 1; Fake.ana_at (5 # 2)] in
  one_session cs ∧
  tiempos_reconocimiento (self w) !! "ana" = Some 0%Q ∧
  tiempos_reconocimiento (self (atender_todas (cv := Fake.cv) Fake.settings cs w).1)
    !! "ana" = Some 0%Q.
Proof.
  cbv zeta.
  assert (Hcs : one_session [Fake.ana_at 1; Fake.ana_at (5 # 2)])
    by (repeat constructor).
  split; [exact Hcs|]. split; [reflexivity|].
  by apply (first_seen_is_kept (cv := Fake.cv) Fake.settings _ "ana" 0%Q _ Hcs).
Defined.

(** ** Enrolment: what a photo changes *)

Section AssocMore.
Context {A : Type}.
Implicit Types (k : string) (v : A) (l : list (string * A)).

Lemma assoc_get_put_ne k k' v l :
  k ≠ k' → assoc_get k' (assoc_put k v l) = assoc_get k' l.
Proof.
  intros Hne. induction l as [|[j x] l IH]; simpl.
  - by destruct (String.eqb_spec k k').
  - destruct (String.eqb_spec j k) as [->|]; simpl.
    + destruct (String.eqb_spec k k'); done.
    + by rewrite IH.
Qed.

Lemma assoc_get_snoc_ne k k' v l :
  k ≠ k' → assoc_get k' (l ++ [(k, v)]) = assoc_get k' l.
Proof.
  intros Hne. induction l as [|[j x] l IH]; simpl.
  - by destruct (String.eqb_spec k k').
  - by rewrite IH.
Qed.

Lemma assoc_get_del_ne k k' l :
  k ≠ k' → assoc_get k' (assoc_del k l) = assoc_get k' l.
Proof.
  intros Hne. induction l as [|[j x] l IH]; simpl; [done|].
  destruct (String.eqb_spec j k) as [->|]; simpl.
  - by destruct (String.eqb_spec k k').
  - by rewrite IH.
Qed.

Lemma assoc_get_del k l :
  NoDup (names l) → assoc_get k (assoc_del k l) = None.
Proof.
  unfold names. induction l as [|[j x] l IH]; simpl; [done|].
  intros [Hj Hl]%NoDup_cons. destruct (String.eqb_spec j k) as [->|Hne]; simpl.
  - by apply assoc_get_None.
  - destruct (String.eqb_spec j k); [done|]. by apply IH.
Qed.
End AssocMore.

Section EnrolmentFacts.
Context {cv : OpenCV}.

Lemma guardar_foto_registro_others timestamp estudiante foto (S : Service)
    (saved : option recognizer) (k : string) (entry : option node) :
  Some k ≠ entrada_tocada timestamp estudiante →
  keeps (λ w, self w = S ∧ model_file w = saved ∧ assoc_get k (data w) = entry)
    any_event (guardar_foto_registro timestamp estudiante foto).
Proof.
  unfold entrada_tocada, nombre_foto, guardar_foto_registro, makedirs,
    detectar_rostro, cv_imwrite.
  generalize ((Py.splitext (Py.basename estudiante)).1). intros nombre Hk.
  keeps_walk;
    match goal with
    | |- keeps _ _ (emit _) => by apply keeps_emit
    | |- keeps _ _ (set_data _) =>
        apply keeps_set_data; intros ? (? & ? & ?); simpl;
        repeat match goal with
               | H : ∃ _, _ |- _ => destruct H as (? & (? & ? & ?) & <-)
               end;
        repeat match goal with
               | H : lugar_de nombre = _ |- _ => rewrite H in Hk; clear H
               end;
        split; [done|]; split; [done|]
    end.
  - rewrite assoc_get_snoc_ne; [done|congruence].
  - rewrite assoc_get_put_ne; [congruence|congruence].
  - rewrite assoc_get_put_ne; [congruence|congruence].
  - rewrite assoc_get_put_ne; [congruence|congruence].
Qed.

(** X11. An enrolment, failed or not, changes at most one entry of the
    data directory and nothing else: the holding directory of the
    sanitized name, or, for a name that leads to the data directory
    itself, the photo it writes there; for the name that leads to the
    parent it changes no entry. The service object, with its
    recognizer, registry and session, the model file and every other
    entry of the data directory are what they were. *)
Theorem guardar_foto_registro_frame timestamp estudiante foto (w : World) :
  let r := guardar_foto_registro timestamp estudiante foto w in
  self (after r) = self w ∧
  model_file (after r) = model_file w ∧
  ∀ k, Some k ≠ entrada_tocada timestamp estudiante →
       assoc_get k (data (after r)) = assoc_get k (data w).
Proof.
  cbv zeta.
  assert (H : ∀ k, Some k ≠ entrada_tocada timestamp estudiante →
     self (after (guardar_foto_registro timestamp estudiante foto w)) = self w ∧
     model_file (after (guardar_foto_registro timestamp estudiante foto w))
     = model_file w ∧
     assoc_get k (data (after (guardar_foto_registro timestamp estudiante foto w)))
     = assoc_get k (data w)).
  { intros k Hk.
    by apply (guardar_foto_registro_others timestamp estudiante foto (self w)
                (model_file w) k (assoc_get k (data w)) Hk w). }
  destruct (H (default "" (entrada_tocada timestamp estudiante) +:+ "x"))
    as (Hs & Hm & _).
  { destruct (entrada_tocada timestamp estudiante) as [t|]; [|done]. simpl.
    intros [= Heq]. apply (f_equal String.length) in Heq.
    rewrite length_append in Heq. simpl in Heq. lia. }
  split; [exact Hs|]. split; [exact Hm|]. intros k Hk. by apply H.
Qed.

(** X12. An enrolment that answers [ok = True] has written one photo: the
    normalized patch of the first detected face, to the file named
    after the millisecond count the call computed, and the path it
    returns is that file. For a name that is the name of an entry the
    file is in its holding directory, whose other files are kept, so
    a second photo with the same count replaces the first. For a name
    that leads to the data directory itself the file is an entry of
    the data directory, unless a directory of that name is in the
    way; for the name that leads to the parent the data directory is
    as it was. *)
Theorem guardar_foto_registro_writes timestamp estudiante foto (w : World) resp :
  let nombre := (Py.splitext (Py.basename estudiante)).1 in
  let filename := nombre_foto timestamp in
  let r := guardar_foto_registro timestamp estudiante foto w in
  returned r = Some resp → ok resp = true →
  ∃ rostro,
    patches_written (events r) = [rostro] ∧
    ruta resp = Some (Py.path_join (person_path (self w) nombre) filename) ∧
    match lugar_de nombre with
    | Entrada name =>
        assoc_get name (data (after r)) =
          Some (Directory (assoc_put filename (imwrite rostro)
                             (listdir (data w) name)))
    | LaCarpeta =>
        data (after r) =
          match assoc_get filename (data w) with
          | Some (Directory _) => data w
          | _ => assoc_put filename RegularFile (data w)
          end
    | ElPadre => data (after r) = data w
    end.
Proof.
  cbv zeta. unfold nombre_foto, returned, guardar_foto_registro, makedirs,
    detectar_rostro, cv_imwrite, listdir.
  generalize ((Py.splitext (Py.basename estudiante)).1). intros nombre.
  unfold_M. simpl.
  destruct (Py.find NUL nombre); simpl; [done|].
  destruct (lugar_de nombre) as [| |name]; simpl.
  - destruct (Py.split_comma foto) as [[header encoded]|]; simpl;
      [|by intros [= <-]].
    destruct (b64decode encoded) as [?|bytes]; simpl; [by intros [= <-]|].
    destruct (imdecode bytes) as [?|[f|]]; simpl; [by intros [= <-]| |done].
    destruct (detectMultiScale _ _ _) as [|[[[x y] bw] bh] ?]; simpl;
      [by intros [= <-]|].
    destruct (resize _ _ _) as [?|rostro]; simpl; [done|].
    destruct (assoc_get _ (data w)) as [[|files]|]; simpl;
      intros [= <-] _; by exists rostro.
  - destruct (Py.split_comma foto) as [[header encoded]|]; simpl;
      [|by intros [= <-]].
    destruct (b64decode encoded) as [?|bytes]; simpl; [by intros [= <-]|].
    destruct (imdecode bytes) as [?|[f|]]; simpl; [by intros [= <-]| |done].
    destruct (detectMultiScale _ _ _) as [|[[[x y] bw] bh] ?]; simpl;
      [by intros [= <-]|].
    destruct (resize _ _ _) as [?|rostro]; simpl; [done|].
    intros [= <-] _. by exists rostro.
  - destruct (_ <? _)%nat; simpl; [done|].
    destruct (assoc_get name (data w)) as [[|files]|] eqn:Hget; simpl; [done| |].
    + destruct (Py.split_comma foto) as [[header encoded]|]; simpl;
        [|by intros [= <-]].
      destruct (b64decode encoded) as [?|bytes]; simpl; [by intros [= <-]|].
      destruct (imdecode bytes) as [?|[f|]]; simpl; [by intros [= <-]| |done].
      destruct (detectMultiScale _ _ _) as [|[[[x y] bw] bh] ?]; simpl;
        [by intros [= <-]|].
      destruct (resize _ _ _) as [?|rostro]; simpl; [done|].
      rewrite Hget. simpl. intros [= <-] _. exists rostro.
      by rewrite assoc_get_put.
    + destruct (Py.split_comma foto) as [[header encoded]|]; simpl;
        [|by intros [= <-]].
      destruct (b64decode encoded) as [?|bytes]; simpl; [by intros [= <-]|].
      destruct (imdecode bytes) as [?|[f|]]; simpl; [by intros [= <-]| |done].
      destruct (detectMultiScale _ _ _) as [|[[[x y] bw] bh] ?]; simpl;
        [by intros [= <-]|].
      destruct (resize _ _ _) as [?|rostro]; simpl; [done|].
      rewrite assoc_get_snoc, Hget. simpl. intros [= <-] _. exists rostro.
      by rewrite assoc_get_put.
Qed.
End EnrolmentFacts.

(** The first photo of "ana", with the count 1500; and a photo for
    the name "x/", which lands in the data directory itself. *)
Lemma guardar_foto_registro_writes_witness :
  let r := guardar_foto_registro (cv := Fake.cv) 1500 "ana"
             "data:image/jpeg;base64,ana" Fake.fresh in
  let r' := guardar_foto_registro (cv := Fake.cv) 1500 "x/"
              "data:image/jpeg;base64,ana" Fake.fresh in
  ok <$> returned r = Some true ∧
  ruta <$> returned r = Some (Some "Data/ana/rostro_1500.jpg") ∧
  (∃ rostro, assoc_get "ana" (data (after r)) =
             Some (Directory (cv := Fake.cv) [("rostro_1500.jpg", Some rostro)])) ∧
  ruta <$> returned r' = Some (Some "Data/rostro_1500.jpg") ∧
  data (after r') = [("rostro_1500.jpg", RegularFile)].
Proof.
  cbv zeta. split; [reflexivity|]. split; [reflexivity|]. split.
  - destruct (guardar_foto_registro_writes (cv := Fake.cv) 1500 "ana"
                "data:image/jpeg;base64,ana" Fake.fresh
                {| ok := true; msg := "guardado";
                   ruta := Some "Data/ana/rostro_1500.jpg";
                   imagenes_procesadas := None; personas := None;
                   imagenes_totales := None |} eq_refl eq_refl)
      as (rostro & _ & _ & Hd).
    exists rostro. exact Hd.
  - split; [reflexivity|].
    destruct (guardar_foto_registro_writes (cv := Fake.cv) 1500 "x/"
                "data:image/jpeg;base64,ana" Fake.fresh
                {| ok := true; msg := "guardado";
                   ruta := Some "Data/rostro_1500.jpg";
                   imagenes_procesadas := None; personas := None;
                   imagenes_totales := None |} eq_refl eq_refl)
      as (rostro & _ & _ & Hd).
    exact Hd.
Defined.

(** ** Labels once given are kept *)

Section StableLabels.
Context {cv : OpenCV}.

Ltac label_side :=
  match goal with
  | |- keeps _ _ (emit _) => by apply keeps_emit
  | |- keeps _ _ (set_data _) => by apply keeps_set_data
  | |- keeps _ _ (set_model_file _) => by apply keeps_set_model_file
  | |- keeps _ _ (set_self _) =>
      apply keeps_set_self; intros ? [? ?]; unfold label_kept; simpl;
      repeat match goal with
             | H : ∃ _, _ |- _ => destruct H as (? & [? ?] & <-)
             end;
      try done
  end.

Lemma reconocer_rostro_labels settings now up image_data n l P :
  keeps (label_kept n l P) any_event (reconocer_rostro settings now up image_data).
Proof.
  unfold reconocer_rostro, decode_image, detectar_rostro,
    registro_unico_con_tiempo, registrar_asistencia.
  keeps_walk; label_side.
Qed.

Lemma guardar_foto_registro_labels now estudiante foto n l P :
  keeps (label_kept n l P) any_event (guardar_foto_registro now estudiante foto).
Proof.
  unfold guardar_foto_registro, makedirs, detectar_rostro, cv_imwrite.
  keeps_walk; label_side.
Qed.

Lemma entrenar_incremental_labels disk estudiante n l P :
  keeps (label_kept n l P) any_event (entrenar_incremental disk estudiante).
Proof.
  unfold entrenar_incremental, recognizer_update, recognizer_train, write_model.
  keeps_walk; label_side.
  split.
  - rewrite lookup_insert_ne; [done|]. intros ->. congruence.
  - by apply prefix_app_r.
Qed.

Lemma atender_labels settings (c : llamada) n l P (w : World) :
  es_completo c = false →
  label_kept n l P w → label_kept n l P (atender settings c w).1.
Proof.
  intros Hc Hw. destruct c as [now up img|now e f|disk e|disk_ok| |]; simpl;
    [| | |done| |].
  - by apply reconocer_rostro_labels.
  - by apply guardar_foto_registro_labels.
  - by apply entrenar_incremental_labels.
  - done.
  - done.
Qed.

(** X13. As long as no full retrain runs, a label once given to a student
    is never changed or taken away, and the identity list only grows
    at its end: recognitions, enrolments, resets and incremental
    trainings, failed ones included, keep every entry of the label map
    and every position of the list. *)
Theorem labels_are_stable settings (cs : list llamada) n l (w : World) :
  no_full_retrain cs →
  label_dict (self w) !! n = Some l →
  let w' := (atender_todas settings cs w).1 in
  label_dict (self w') !! n = Some l ∧
  image_paths (self w) `prefix_of` image_paths (self w').
Proof.
  intros Hcs Hn. cbv zeta.
  assert (H : label_kept n l (image_paths (self w)) (atender_todas settings cs w).1);
    [|exact H].
  assert (Hw : label_kept n l (image_paths (self w)) w) by (by split).
  revert Hw. generalize (image_paths (self w)). intros P. revert w Hn.
  induction Hcs as [|c cs Hc _ IH]; intros w Hn Hw; simpl; [done|].
  pose proof (atender_labels settings c n l P w Hc Hw) as H1.
  destruct (atender settings c w) as [w1 evs1]. simpl in H1.
  specialize (IH w1 (proj1 H1) H1).
  by destruct (atender_todas settings cs w1) as [w2 evs2].
Qed.

Lemma entrenar_incremental_known_registry disk estudiante l
    (R : list string * gmap string Z * Z) :
  R.1.2 !! estudiante = Some l →
  keeps (λ w, registry w = R) any_event (entrenar_incremental disk estudiante).
Proof.
  intros HR.
  unfold entrenar_incremental, recognizer_update, recognizer_train, write_model.
  keeps_walk;
    match goal with
    | |- keeps _ _ (emit _) => by apply keeps_emit
    | |- keeps _ _ (set_data _) => by apply keeps_set_data
    | |- keeps _ _ (set_model_file _) => by apply keeps_set_model_file
    | |- keeps _ _ (set_self _) =>
        apply keeps_set_self; intros ? ?; unfold registry in *; simpl;
        repeat match goal with
               | H : ∃ _, _ |- _ => destruct H as (? & ? & <-)
               end;
        try done
    end.
  subst R. simpl in HR. congruence.
Qed.

(** X14. Training a student who has a label already, again and whatever the
    outcome, leaves the identity list, the label map and the next
    label as they were: the label is reused. *)
Theorem entrenar_incremental_reuses_label disk estudiante l (w : World) :
  label_dict (self w) !! estudiante = Some l →
  registry (after (entrenar_incremental disk estudiante w)) = registry w.
Proof.
  intros Hl.
  by apply (entrenar_incremental_known_registry disk estudiante l (registry w) Hl w).
Qed.
End StableLabels.

(** "ana" has label 0; "bob" enrols and trains, "ana" is seen, the
    session is reset. *)
Lemma labels_are_stable_witness :
  let cs := [GuardarFotoRegistro 3000 "bob" "data:image/jpeg;base64,bob";
             EntrenarIncremental (true, true) "bob";
             Fake.ana_at 0; ResetReconocimientos] in
  let w' := (atender_todas (cv := Fake.cv) Fake.settings cs Fake.with_ana).1 in
  no_full_retrain cs ∧
  label_dict (self Fake.with_ana) !! "ana" = Some 0 ∧
  label_dict (self w') !! "ana" = Some 0 ∧
  image_paths (self w') = ["ana"; "bob"].
Proof.
  cbv zeta.
  match goal with
  | |- no_full_retrain ?cs ∧ _ =>
      assert (Hcs : no_full_retrain cs) by (repeat constructor)
  end.
  split; [exact Hcs|]. split; [reflexivity|]. split; [|reflexivity].
  exact (proj1 (labels_are_stable (cv := Fake.cv) Fake.settings _ "ana" 0
                  Fake.with_ana Hcs eq_refl)).
Defined.

(** "bob" has a label and a new photo. *)
Lemma entrenar_incremental_reuses_label_witness :
  let w := (atender_todas (cv := Fake.cv) Fake.settings
              [GuardarFotoRegistro 3000 "bob" "data:image/jpeg;base64,bob";
               EntrenarIncremental (true, true) "bob";
               GuardarFotoRegistro 4000 "bob" "data:image/jpeg;base64,bob"]
              Fake.with_ana).1 in
  label_dict (self w) !! "bob" = Some 1 ∧
  registry (after (entrenar_incremental (cv := Fake.cv) (true, true) "bob" w))
  = registry w.
Proof.
  cbv zeta. split; [reflexivity|].
  by apply (entrenar_incremental_reuses_label (cv := Fake.cv) (true, true) "bob" 1).
Defined.

(** ** Training: what a successful call leaves *)

Section TrainingSuccess.
Context {cv : OpenCV}.

Local Arguments leer_personas : simpl never.
Local Arguments people : simpl never.
Local Arguments readable : simpl never.

(** X15. A training that answers [ok = True], incremental or full, has
    written the model file, and the file holds the recognizer the
    service has in memory. *)
Theorem training_success_is_persisted :
  (∀ disk estudiante (w : World) resp,
     let r := entrenar_incremental disk estudiante w in
     returned r = Some resp → ok resp = true →
     model_file (after r) = Some (face_recognizer (self (after r)))) ∧
  (∀ disk_ok (w : World) resp,
     let r := entrenar_modelo_completo disk_ok w in
     returned r = Some resp → ok resp = true →
     model_file (after r) = Some (face_recognizer (self (after r)))).
Proof.
  split.
  - intros disk estudiante w resp. cbv zeta.
    unfold returned, entrenar_incremental, recognizer_update, recognizer_train,
      write_model.
    unfold_M. simpl.
    destruct (assoc_get estudiante (data w)) as [[|files]|]; simpl;
      [| |by intros [= <-]].
    { by destruct (label_dict (self w) !! estudiante). }
    destruct (label_dict (self w) !! estudiante) as [label|]; simpl;
      (destruct ((readable files).*2) as [|face faces]; simpl;
       [by intros [= <-]|]);
      (destruct (update _ _ _) as [?|updated]; simpl;
       [ destruct (train _ _ _) as [?|trained]; simpl; [done|];
         destruct disk.2; simpl; [|done]
       | destruct disk.1; simpl;
         [| destruct (train _ _ _) as [?|trained]; simpl; [done|];
            destruct disk.2; simpl; [|done] ] ]);
      by destruct (List.filter _ files).
  - intros disk_ok w resp. cbv zeta.
    unfold returned, entrenar_modelo_completo, recognizer_train, write_model.
    unfold_M. simpl.
    destruct (people (data w)) as [|p ps]; simpl; [by intros [= <-]|].
    destruct (leer_personas _ _ _) as [[|face faces] labels]; simpl;
      [by intros [= <-]|].
    destruct (train _ _ _) as [?|trained]; simpl; [done|].
    by destruct disk_ok.
Qed.
End TrainingSuccess.

(** The first training of "ana" and a full retrain of two folders. *)
Lemma training_success_is_persisted_witness :
  let w := (atender (cv := Fake.cv) Fake.settings
              (GuardarFotoRegistro 1000 "ana" "data:image/jpeg;base64,ana")
              Fake.fresh).1 in
  let r := entrenar_incremental (cv := Fake.cv) (true, true) "ana" w in
  let r' := entrenar_modelo_completo (cv := Fake.cv) true Fake.two_folders in
  (ok <$> returned r = Some true ∧
   model_file (after r) = Some (face_recognizer (self (after r)))) ∧
  (ok <$> returned r' = Some true ∧
   model_file (after r') = Some (face_recognizer (self (after r')))).
Proof.
  cbv zeta. destruct (training_success_is_persisted (cv := Fake.cv)) as [Hinc Hfull].
  split; (split; [reflexivity|]).
  - eapply Hinc; reflexivity.
  - eapply Hfull; reflexivity.
Defined.

(** ** Training consumes the photos *)

Section Consumption.
Context {cv : OpenCV}.

Local Arguments leer_personas : simpl never.
Local Arguments people : simpl never.
Local Arguments readable : simpl never.

(** What is left of a directory once the files that could be read are
    removed holds nothing that can be read. *)
Lemma readable_left (files : list (string * file)) :
  readable
    (List.filter (λ nf, negb (bool_decide (nf.1 ∈ (readable files).*1))) files)
  = [].
Proof.
  destruct (readable (List.filter _ files)) as [|[name img] rest] eqn:Hleft;
    [done|].
  assert (Hin : (name, img) ∈ readable (List.filter
            (λ nf, negb (bool_decide (nf.1 ∈ (readable files).*1))) files))
    by (rewrite Hleft; left).
  unfold readable in Hin at 1.
  apply list_elem_of_omap in Hin as ([n f] & Hnf & Hread).
  apply list_elem_of_In, filter_In in Hnf as [Hnf Hout]. simpl in *.
  destruct (imread f) as [img'|] eqn:Hf; [|done]. simpl in Hread.
  injection Hread as -> ->.
  apply negb_true_iff, bool_decide_eq_false in Hout. exfalso. apply Hout.
  apply list_elem_of_fmap. exists (name, img). split; [done|].
  unfold readable. apply list_elem_of_omap. exists (name, f).
  split; [by apply list_elem_of_In|]. simpl. by rewrite Hf.
Qed.

Lemma filter_sublist {A : Type} (p : A → bool) (l : list A) :
  List.filter p l `sublist_of` l.
Proof.
  induction l as [|x l IH]; simpl; [done|].
  destruct (p x); [by apply sublist_skip | by apply sublist_cons].
Qed.

(** For a name that is the name of an entry, the path the training
    joins leads where the path of the enrolment leads: to the entry
    of that name. *)
Lemma nombre_llano_entrada (nombre : string) :
  nombre_llano nombre = true →
  lugar_de nombre = Entrada nombre ∧ Py.find "/" nombre = None ∧
  Py.find NUL nombre = None.
Proof.
  unfold nombre_llano, lugar_de. intros H.
  repeat (apply andb_true_iff in H as [H ?]).
  destruct (String.eqb nombre ""); [done|].
  destruct (String.eqb nombre "."); [done|].
  destruct (String.eqb nombre ".."); [done|]. simpl.
  split; [done|].
  split; [destruct (Py.find "/" nombre)|destruct (Py.find NUL nombre)];
    try done;
    match goal with
    | H : negb (bool_decide (is_Some (Some _))) = true |- _ =>
        rewrite bool_decide_true in H by eauto; done
    end.
Qed.

(** X16. An incremental training for a student whose name is the name
    of an entry (not empty, not ["."] or [".."], without separator or
    null byte) that answers [ok = True] has consumed the photos it
    used: it reports the number of files it could read, and
    afterwards the directory of the student is gone or holds only
    files that cannot be read as images. The directories of the other
    students are what they were. *)
Theorem entrenar_incremental_consumes_photos disk estudiante (w : World) resp :
  nombre_llano estudiante = true →
  data_ok w →
  let r := entrenar_incremental disk estudiante w in
  returned r = Some resp → ok resp = true →
  ∃ files left,
    assoc_get estudiante (data w) = Some (Directory files) ∧
    readable files ≠ [] ∧
    imagenes_procesadas resp = Some (Z.of_nat (length (readable files))) ∧
    left `sublist_of` files ∧ readable left = [] ∧
    assoc_get estudiante (data (after r)) =
      match left with [] => None | _ :: _ => Some (Directory left) end ∧
    ∀ k, k ≠ estudiante → assoc_get k (data (after r)) = assoc_get k (data w).
Proof.
  intros _ Hdata. cbv zeta.
  unfold returned, entrenar_incremental, recognizer_update, recognizer_train,
    write_model.
  unfold_M. simpl.
  destruct (assoc_get estudiante (data w)) as [[|files]|] eqn:Hget; simpl;
    [| |by intros [= <-]].
  { by destruct (label_dict (self w) !! estudiante). }
  pose proof (readable_left files) as Hleft.
  pose proof (filter_sublist
    (λ nf, negb (bool_decide (nf.1 ∈ (readable files).*1))) files) as Hsub.
  assert (Hend : ∀ (left : list (string * file)),
    assoc_get estudiante
      (match left with
       | [] => assoc_del estudiante
                 (assoc_put estudiante (Directory left) (data w))
       | _ :: _ => assoc_put estudiante (Directory left) (data w)
       end) =
      match left with [] => None | _ :: _ => Some (Directory left) end ∧
    ∀ k, k ≠ estudiante →
      assoc_get k
        (match left with
         | [] => assoc_del estudiante
                   (assoc_put estudiante (Directory left) (data w))
         | _ :: _ => assoc_put estudiante (Directory left) (data w)
         end) = assoc_get k (data w)).
  { intros left. destruct left as [|x left].
    - split.
      + apply assoc_get_del. by apply NoDup_names_put.
      + intros k Hk. by rewrite assoc_get_del_ne, assoc_get_put_ne.
    - split.
      + apply assoc_get_put.
      + intros k Hk. by rewrite assoc_get_put_ne. }
  specialize (Hend (List.filter
    (λ nf, negb (bool_decide (nf.1 ∈ (readable files).*1))) files)).
  revert Hend Hleft Hsub.
  generalize (List.filter
    (λ nf, negb (bool_decide (nf.1 ∈ (readable files).*1))) files).
  intros left [Hsame Hothers] Hleft Hsub.
  assert (Hlen : ∀ face faces, (readable files).*2 = face :: faces →
            readable files ≠ [] ∧
            Z.of_nat (length (face :: faces)) = Z.of_nat (length (readable files))).
  { intros face faces Heq. split.
    - intros Hnil. by rewrite Hnil in Heq.
    - by rewrite <- Heq, length_fmap. }
  destruct (label_dict (self w) !! estudiante) as [label|]; simpl;
    (destruct ((readable files).*2) as [|face faces] eqn:Hfaces; simpl;
     [by intros [= <-]|]);
    destruct (Hlen face faces eq_refl) as [Hne Hcount];
    (destruct (update _ _ _) as [?|updated]; simpl;
     [ destruct (train _ _ _) as [?|trained]; simpl; [done|];
       destruct disk.2; simpl; [|done]
     | destruct disk.1; simpl;
       [| destruct (train _ _ _) as [?|trained]; simpl; [done|];
          destruct disk.2; simpl; [|done] ] ]);
    (destruct left as [|x left']; simpl in *; intros [= <-] _;
     eexists files, _; simpl;
     (split; [done|]); (split; [done|]); (split; [by rewrite <- Hcount|]);
     (split; [exact Hsub|]); (split; [exact Hleft|]);
     (split; [exact Hsame | exact Hothers])).
Qed.
End Consumption.

(** "bob" has one photo and one file that is no image: the training
    uses the photo and leaves the other file. *)
Lemma entrenar_incremental_consumes_photos_witness :
  let r := entrenar_incremental (cv := Fake.cv) (true, true) "bob"
             Scenes.mixed_folder in
  nombre_llano "bob" = true ∧
  data_ok Scenes.mixed_folder ∧
  imagenes_procesadas <$> returned r = Some (Some 1) ∧
  assoc_get "bob" (data (after r)) =
    Some (Directory (cv := Fake.cv) [("notas.txt", None)]).
Proof.
  cbv zeta.
  assert (Hdata : data_ok Scenes.mixed_folder) by apply NoDup_singleton.
  split; [reflexivity|]. split; [exact Hdata|]. split; [reflexivity|].
  destruct (entrenar_incremental_consumes_photos (cv := Fake.cv) (true, true) "bob"
              Scenes.mixed_folder
              {| ok := true; msg := "Modelo entrenado"; ruta := None;
                 imagenes_procesadas := Some 1; personas := None;
                 imagenes_totales := None |} eq_refl Hdata eq_refl eq_refl)
    as (files & left & _ & _ & _ & _ & _ & _ & _).
  reflexivity.
Defined.

(** ** The full retrain empties the holding area *)

Section FullRetrainFacts.
Context {cv : OpenCV}.

Local Arguments leer_personas : simpl never.
Local Arguments people : simpl never.

Lemma foldl_del_cons (ks : list string) (k : string) (n : node)
    (l : list (string * node)) :
  k ∉ ks →
  foldl (λ acc name_dir, assoc_del name_dir acc) ((k, n) :: l) ks =
  (k, n) :: foldl (λ acc name_dir, assoc_del name_dir acc) l ks.
Proof.
  revert l. induction ks as [|j ks IH]; intros l Hk; simpl; [done|].
  apply not_elem_of_cons in Hk as [Hne Hk].
  destruct (String.eqb_spec k j); [done|]. by apply IH.
Qed.

Lemma people_subseteq (d : list (string * node)) : people d ⊆ names d.
Proof.
  intros k [files Hk]%elem_of_people. unfold names.
  apply list_elem_of_fmap. by exists (k, Directory files).
Qed.

(** Removing every directory by name leaves the entries that are not
    directories. *)
Lemma foldl_del_people (d : list (string * node)) :
  NoDup (names d) →
  foldl (λ acc name_dir, assoc_del name_dir acc) d (people d) = regular_files d.
Proof.
  unfold names. induction d as [|[k n] d IH]; [done|].
  intros [Hk Hd]%NoDup_cons. destruct n as [|files].
  - change (people ((k, RegularFile) :: d)) with (people d).
    change (regular_files ((k, RegularFile) :: d))
      with ((k, RegularFile) :: regular_files d).
    rewrite foldl_del_cons; [by rewrite IH|].
    intros Hin. by apply Hk, people_subseteq.
  - change (people ((k, Directory files) :: d)) with (k :: people d).
    change (regular_files ((k, Directory files) :: d)) with (regular_files d).
    simpl. rewrite String.eqb_refl. by apply IH.
Qed.

Lemma people_regular_files (d : list (string * node)) :
  people (regular_files d) = [].
Proof.
  unfold people, regular_files, names.
  induction d as [|[k [|files]] d IH]; simpl; done.
Qed.

(** What a full retrain that answers [ok = True] leaves. *)
Lemma entrenar_modelo_completo_success disk_ok (w : World) resp :
  data_ok w →
  let r := entrenar_modelo_completo disk_ok w in
  returned r = Some resp → ok resp = true →
  data (after r) = regular_files (data w) ∧
  image_paths (self (after r)) = people (data w) ∧
  model_file (after r) = Some (face_recognizer (self (after r))) ∧
  personas resp = Some (Z.of_nat (length (people (data w)))) ∧
  imagenes_totales resp =
    Some (Z.of_nat (length (leer_personas (data w) (people (data w)) 0).1)).
Proof.
  intros Hdata. cbv zeta.
  unfold returned, entrenar_modelo_completo, recognizer_train, write_model.
  unfold_M. simpl.
  pose proof (foldl_del_people (data w) Hdata) as Hdel.
  destruct (people (data w)) as [|p ps]; simpl; [by intros [= <-]|].
  destruct (leer_personas _ _ _) as [[|face faces] labels]; simpl;
    [by intros [= <-]|].
  destruct (train _ _ _) as [?|trained]; simpl; [done|].
  destruct disk_ok; simpl; [|done].
  intros [= <-] _. simpl in *. by rewrite Hdel.
Qed.

(** X17. A full retrain that answers [ok = True] has deleted every holding
    directory, with the photos it used and the files it could not
    read: what is left of the data directory are its entries that are
    not directories, in their order. It reports the number of
    directories and of images it read. *)
Theorem entrenar_modelo_completo_empties disk_ok (w : World) resp :
  data_ok w →
  let r := entrenar_modelo_completo disk_ok w in
  returned r = Some resp → ok resp = true →
  data (after r) = regular_files (data w) ∧
  people (data (after r)) = [] ∧
  personas resp = Some (Z.of_nat (length (people (data w)))) ∧
  imagenes_totales resp =
    Some (Z.of_nat (length (leer_personas (data w) (people (data w)) 0).1)).
Proof.
  intros Hdata. cbv zeta. intros Hret Hok.
  destruct (entrenar_modelo_completo_success disk_ok w resp Hdata Hret Hok)
    as (Hempty & _ & _ & Hpersonas & Himagenes).
  rewrite Hempty. split; [done|]. split; [apply people_regular_files|done].
Qed.

(** X18. Restarting the service after a full retrain that answered
    [ok = True]: [_initialize] loads the saved recognizer and takes
    the identity list from the listing of the data directory, which
    holds no holding directory any more. None of the identities the
    recognizer was just trained on is in the new identity list. *)
Theorem restart_after_full_retrain settings disk_ok (w : World) resp :
  data_ok w →
  let r := entrenar_modelo_completo disk_ok w in
  let w' := _initialize settings (data (after r)) (model_file (after r)) in
  returned r = Some resp → ok resp = true →
  face_recognizer (self w') = face_recognizer (self (after r)) ∧
  image_paths (self w') = names (regular_files (data w)) ∧
  ∀ nombre, nombre ∈ image_paths (self (after r)) →
            nombre ∉ image_paths (self w').
Proof.
  intros Hdata. cbv zeta. intros Hret Hok.
  destruct (entrenar_modelo_completo_success disk_ok w resp Hdata Hret Hok)
    as (Hempty & Hpaths & Hsaved & _).
  unfold _initialize. simpl. rewrite Hempty, Hsaved.
  split; [done|]. split; [done|].
  intros nombre. rewrite Hpaths. intros [files Hdir]%elem_of_people Hreg.
  unfold names, regular_files in Hreg.
  apply list_elem_of_fmap in Hreg as ([k n] & -> & Hin).
  apply list_elem_of_In, filter_In in Hin as [Hin Hfile]. simpl in *.
  destruct n as [|files']; [|done].
  apply list_elem_of_In in Hin.
  unfold data_ok, names in Hdata.
  apply list_elem_of_lookup in Hdir as [i Hi], Hin as [j Hj].
  assert (i = j).
  { eapply NoDup_lookup; [exact Hdata| |]; rewrite list_lookup_fmap.
    - by rewrite Hi.
    - by rewrite Hj. }
  subst j. congruence.
Qed.
End FullRetrainFacts.

(** The folders "ana" and "bob" are retrained in full, and a stray
    regular file stays. *)
Lemma entrenar_modelo_completo_empties_witness :
  let r := entrenar_modelo_completo (cv := Fake.cv) true Scenes.stray_file in
  data_ok Scenes.stray_file ∧
  ok <$> returned r = Some true ∧
  data (after r) = [("LEEME.txt", RegularFile)].
Proof.
  cbv zeta.
  assert (Hdata : data_ok Scenes.stray_file).
  { unfold data_ok. simpl. apply NoDup_cons. split; [|apply NoDup_singleton].
    by intros ?%list_elem_of_singleton. }
  split; [exact Hdata|]. split; [reflexivity|].
  by destruct (entrenar_modelo_completo_empties (cv := Fake.cv) true
                 Scenes.stray_file
                 {| ok := true; msg := "Modelo entrenado completo"; ruta := None;
                    imagenes_procesadas := None; personas := Some 1;
                    imagenes_totales := Some 1 |} Hdata eq_refl eq_refl)
    as [-> _].
Defined.

(** After that retrain and a restart the recognizer knows "ana" and
    the identity list holds the stray file instead. *)
Lemma restart_after_full_retrain_witness :
  let r := entrenar_modelo_completo (cv := Fake.cv) true Scenes.stray_file in
  let w' := _initialize (cv := Fake.cv) Fake.settings (data (after r))
              (model_file (after r)) in
  data_ok Scenes.stray_file ∧
  ok <$> returned r = Some true ∧
  image_paths (self (after r)) = ["ana"] ∧
  face_recognizer (self w') = [(97, 0)] ∧
  image_paths (self w') = ["LEEME.txt"].
Proof.
  cbv zeta.
  assert (Hdata : data_ok Scenes.stray_file).
  { unfold data_ok. simpl. apply NoDup_cons. split; [|apply NoDup_singleton].
    by intros ?%list_elem_of_singleton. }
  split; [exact Hdata|]. do 3 (split; [reflexivity|]).
  by destruct (restart_after_full_retrain (cv := Fake.cv) Fake.settings true
                 Scenes.stray_file
                 {| ok := true; msg := "Modelo entrenado completo"; ruta := None;
                    imagenes_procesadas := None; personas := Some 1;
                    imagenes_totales := Some 1 |} Hdata eq_refl eq_refl)
    as (_ & -> & _).
Defined.

(** ** What the recognizer is trained on *)

Section Batches.
Context {cv : OpenCV}.

Local Arguments leer_personas : simpl never.
Local Arguments people : simpl never.
Local Arguments readable : simpl never.
Local Arguments Py.index : simpl never.

Lemma fmap_const_replicate {A B : Type} (x : B) (l : list A) :
  (λ _, x) <$> l = replicate (length l) x.
Proof. induction l; simpl; by f_equal. Qed.

Lemma index_known paths dict next nombre l :
  registry_ok paths dict next → dict !! nombre = Some l →
  Py.index paths l = Some nombre.
Proof.
  intros (_ & _ & Hdict) [Hl Hin]%Hdict. unfold Py.index.
  by destruct (Z.ltb_spec l 0); [lia|].
Qed.

Lemma index_new (paths : list string) next nombre :
  next = Z.of_nat (length paths) →
  Py.index (paths ++ [nombre]) next = Some nombre.
Proof.
  intros ->. unfold Py.index. destruct (Z.ltb_spec (Z.of_nat (length paths)) 0); [lia|].
  rewrite Nat2Z.id. by apply list_lookup_middle.
Qed.

Ltac one_event H :=
  repeat (apply elem_of_cons in H as [H|H]; [try discriminate H|]);
  try (by apply elem_of_nil in H).

(** X19. For a student whose name is the name of an entry (not empty,
    not ["."] or [".."], without separator or null byte), whatever an
    incremental training hands to [update] or to [train] is the
    student's own batch: every readable image of the student's
    holding directory, in the order of the listing, each with one and
    the same label, and that label is the student's position in the
    identity list the call leaves. This holds for every outcome of
    the call. *)
Theorem entrenar_incremental_batch disk estudiante (w : World) faces_data labels :
  nombre_llano estudiante = true →
  registry_inv (self w) →
  let r := entrenar_incremental disk estudiante w in
  Update faces_data labels ∈ events r ∨ Train faces_data labels ∈ events r →
  ∃ files label,
    assoc_get estudiante (data w) = Some (Directory files) ∧
    faces_data = (readable files).*2 ∧
    faces_data ≠ [] ∧
    labels = replicate (length faces_data) label ∧
    Py.index (image_paths (self (after r))) label = Some estudiante.
Proof.
  intros _ Hinv. cbv zeta.
  assert (Hbatch : ∀ files label (paths : list string) f l,
            Py.index paths label = Some estudiante →
            (readable files).*2 ≠ [] →
            Update f l = Update ((readable files).*2) ((λ _, label) <$> readable files) ∨
            Train f l = Train ((readable files).*2) ((λ _, label) <$> readable files) →
            assoc_get estudiante (data w) = Some (Directory files) →
            ∃ files label,
              assoc_get estudiante (data w) = Some (Directory files) ∧
              f = (readable files).*2 ∧ f ≠ [] ∧
              l = replicate (length f) label ∧
              Py.index paths label = Some estudiante).
  { intros files label paths f l Hindex Hne Heq Hdir. exists files, label.
    assert (f = (readable files).*2 ∧ l = (λ _, label) <$> readable files) as [-> ->].
    { by destruct Heq as [[= -> ->]|[= -> ->]]. }
    by rewrite fmap_const_replicate, !length_fmap. }
  unfold entrenar_incremental, recognizer_update, recognizer_train, write_model.
  unfold_M. simpl.
  destruct (assoc_get estudiante (data w)) as [[|files]|] eqn:Hdir; simpl.
  - destruct (label_dict (self w) !! estudiante); simpl;
      intros [H|H]; by apply elem_of_nil in H.
  - destruct (label_dict (self w) !! estudiante) as [label|] eqn:Hlabel; simpl.
    + pose proof (index_known _ _ _ _ _ Hinv Hlabel) as Hindex.
      destruct ((readable files).*2) as [|face faces] eqn:Hfaces; simpl.
      { intros [H|H]; by apply elem_of_nil in H. }
      rewrite <- Hfaces.
      assert (Hne : (readable files).*2 ≠ []) by (by rewrite Hfaces).
      destruct (update _ _ _) as [?|updated]; simpl;
        [ destruct (train _ _ _) as [?|trained]; simpl;
          [|destruct disk.2; simpl]
        | destruct disk.1; simpl;
          [| destruct (train _ _ _) as [?|trained]; simpl;
             [|destruct disk.2; simpl] ] ];
        try destruct (List.filter _ files); simpl;
        intros [H|H]; one_event H;
        (eapply Hbatch; [exact Hindex|exact Hne| |done]); eauto.
    + destruct Hinv as (_ & Hnext & _).
      pose proof (index_new (image_paths (self w)) _ estudiante Hnext) as Hindex.
      destruct ((readable files).*2) as [|face faces] eqn:Hfaces; simpl.
      { intros [H|H]; by apply elem_of_nil in H. }
      rewrite <- Hfaces.
      assert (Hne : (readable files).*2 ≠ []) by (by rewrite Hfaces).
      destruct (update _ _ _) as [?|updated]; simpl;
        [ destruct (train _ _ _) as [?|trained]; simpl;
          [|destruct disk.2; simpl]
        | destruct disk.1; simpl;
          [| destruct (train _ _ _) as [?|trained]; simpl;
             [|destruct disk.2; simpl] ] ];
        try destruct (List.filter _ files); simpl;
        intros [H|H]; one_event H;
        (eapply Hbatch; [exact Hindex|exact Hne| |done]); eauto.
  - intros [H|H]; by apply elem_of_nil in H.
Qed.

Lemma leer_personas_cons d name_dir rest label :
  leer_personas d (name_dir :: rest) label =
  ((readable (listdir d name_dir)).*2 ++ (leer_personas d rest (label + 1)).1,
   ((λ _, label) <$> (readable (listdir d name_dir)).*2)
     ++ (leer_personas d rest (label + 1)).2).
Proof.
  unfold leer_personas at 1. fold leer_personas.
  by destruct (leer_personas d rest (label + 1)).
Qed.

(** The nested loops label every image with the position of the
    directory it was read from. *)
Lemma leer_personas_labels d people_list label0 :
  length (leer_personas d people_list label0).2 =
    length (leer_personas d people_list label0).1 ∧
  ∀ i face label,
    (leer_personas d people_list label0).1 !! i = Some face →
    (leer_personas d people_list label0).2 !! i = Some label →
    ∃ k name_dir,
      label = label0 + Z.of_nat k ∧ people_list !! k = Some name_dir ∧
      face ∈ (readable (listdir d name_dir)).*2.
Proof.
  revert label0. induction people_list as [|name_dir rest IH]; intros label0.
  { split; [done|]. intros i face label. unfold leer_personas. simpl.
    by rewrite lookup_nil. }
  rewrite leer_personas_cons. simpl. destruct (IH (label0 + 1)) as [Hlen Hrest].
  split; [by rewrite !length_app, length_fmap, Hlen|].
  intros i face label Hface Hlabel.
  destruct (decide (i < length (readable (listdir d name_dir)).*2)%nat) as [Hi|Hi].
  - rewrite lookup_app_l in Hface by done.
    rewrite lookup_app_l in Hlabel by (by rewrite length_fmap).
    rewrite list_lookup_fmap, Hface in Hlabel. injection Hlabel as <-.
    exists 0%nat, name_dir. split; [lia|]. split; [done|].
    by eapply list_elem_of_lookup_2.
  - rewrite lookup_app_r in Hface by lia.
    rewrite lookup_app_r in Hlabel by (rewrite length_fmap; lia).
    rewrite length_fmap in Hlabel.
    destruct (Hrest _ _ _ Hface Hlabel) as (k & name & -> & Hk & Hin).
    exists (S k), name. split; [lia|]. by split.
Qed.

(** X20. What a full retrain hands to [train]: as many labels as images,
    at least one image, and every image with the position of the
    directory it was read from in the list of directories. When the
    call returns, that list is the identity list it leaves, so the
    label of an image is the position of its student. *)
Theorem entrenar_modelo_completo_batch disk_ok (w : World) faces_data labels :
  let r := entrenar_modelo_completo disk_ok w in
  Train faces_data labels ∈ events r →
  length labels = length faces_data ∧
  faces_data ≠ [] ∧
  (∀ i face label,
     faces_data !! i = Some face → labels !! i = Some label →
     ∃ name_dir,
       Py.index (people (data w)) label = Some name_dir ∧
       face ∈ (readable (listdir (data w) name_dir)).*2) ∧
  (is_Some (returned r) → image_paths (self (after r)) = people (data w)).
Proof.
  cbv zeta.
  pose proof (leer_personas_labels (data w) (people (data w)) 0) as [Hlen Hlabels].
  assert (Hindex : ∀ i face label,
            (leer_personas (data w) (people (data w)) 0).1 !! i = Some face →
            (leer_personas (data w) (people (data w)) 0).2 !! i = Some label →
            ∃ name_dir,
              Py.index (people (data w)) label = Some name_dir ∧
              face ∈ (readable (listdir (data w) name_dir)).*2).
  { intros i face label Hface Hlabel.
    destruct (Hlabels i face label Hface Hlabel) as (k & name_dir & -> & Hk & Hin).
    exists name_dir. split; [|done]. unfold Py.index.
    destruct (Z.ltb_spec (0 + Z.of_nat k) 0); [lia|].
    by replace (Z.to_nat (0 + Z.of_nat k)) with k by lia. }
  unfold returned, entrenar_modelo_completo, recognizer_train, write_model.
  unfold_M. simpl.
  destruct (people (data w)) as [|p ps] eqn:Hpeople; simpl.
  { intros H. by apply elem_of_nil in H. }
  destruct (leer_personas _ _ _) as [[|face faces] batch] eqn:Hread; simpl.
  { intros H. by apply elem_of_nil in H. }
  simpl in Hlen, Hindex.
  destruct (train _ _ _) as [?|trained]; simpl.
  - intros [= -> ->]%list_elem_of_singleton. split; [done|]. split; [done|].
    split; [done|]. by intros [? ?].
  - destruct disk_ok; simpl; intros H; one_event H; injection H as -> ->;
      (split; [done|]); (split; [done|]); by split.
Qed.
End Batches.

(** The first training of "ana" in the test double: one image, with
    label 0, and "ana" is at position 0 afterwards. *)
Lemma entrenar_incremental_batch_witness :
  let w := (atender (cv := Fake.cv) Fake.settings
              (GuardarFotoRegistro 1000 "ana" "data:image/jpeg;base64,ana")
              Fake.fresh).1 in
  let r := entrenar_incremental (cv := Fake.cv) (true, true) "ana" w in
  nombre_llano "ana" = true ∧
  registry_inv (self w) ∧
  (∃ faces_data, Train faces_data [0] ∈ events r) ∧
  Py.index (image_paths (self (after r))) 0 = Some "ana".
Proof.
  cbv zeta.
  assert (Hinv : registry_inv
                   (self (atender (cv := Fake.cv) Fake.settings
                            (GuardarFotoRegistro 1000 "ana" "data:image/jpeg;base64,ana")
                            Fake.fresh).1)).
  { exact (proj1 (atender_registry (cv := Fake.cv) Fake.settings
                    (GuardarFotoRegistro 1000 "ana" "data:image/jpeg;base64,ana")
                    Fake.fresh (conj registry_ok_nil (NoDup_nil_2 (A := string))))). }
  split; [reflexivity|]. split; [exact Hinv|]. split.
  - exists [Scenes.ana_patch]. apply list_elem_of_further, list_elem_of_here.
  - destruct (entrenar_incremental_batch (cv := Fake.cv) (true, true) "ana" _
                [Scenes.ana_patch] [0] eq_refl Hinv
                (or_intror (list_elem_of_further _ _ _ (list_elem_of_here _ _))))
      as (files & label & _ & _ & _ & [= <-] & Hindex).
    exact Hindex.
Defined.

(** The full retrain of the folders "ana" (one photo) and "bob"
    (none). *)
Lemma entrenar_modelo_completo_batch_witness :
  let r := entrenar_modelo_completo (cv := Fake.cv) true Fake.two_folders in
  Train [[[97; 110; 97]]] [0] ∈ events r ∧
  ∃ name_dir,
    Py.index (people (data Fake.two_folders)) 0 = Some name_dir ∧
    [[97; 110; 97]] ∈ (readable (listdir (data Fake.two_folders) name_dir)).*2.
Proof.
  cbv zeta.
  assert (H : Train [[[97; 110; 97]]] [0]
              ∈ events (entrenar_modelo_completo (cv := Fake.cv) true Fake.two_folders))
    by apply list_elem_of_here.
  split; [exact H|].
  destruct (entrenar_modelo_completo_batch (cv := Fake.cv) true Fake.two_folders
              _ _ H) as (_ & _ & Hlabel & _).
  exact (Hlabel 0%nat _ 0 eq_refl eq_refl).
Defined.

(** ** The token check of [permissions.py] *)

Section SplitFacts.

Lemma str_split_not_nil (sep : ascii) (s : string) : str_split sep s ≠ [].
Proof.
  induction s as [|c s IH]; simpl; [done|].
  destruct (Ascii.eqb c sep); [done|]. by destruct (str_split sep s).
Qed.

(** One part: the separator does not occur. *)
Lemma str_split_one (sep : ascii) (s a : string) :
  str_split sep s = [a] ↔ s = a ∧ Py.find sep s = None.
Proof.
  revert a. induction s as [|c s IH]; intros a; simpl.
  - split; [by intros [= <-]|by intros [<- _]].
  - destruct (Ascii.eqb c sep) eqn:Hc.
    + split; [|by intros [_ ?]]. intros [= _ Hnil]. by apply str_split_not_nil in Hnil.
    + destruct (str_split sep s) as [|p ps] eqn:Hs; [by apply str_split_not_nil in Hs|].
      split.
      * intros [= <- ->]. destruct (proj1 (IH p) eq_refl) as [-> Hfind].
        by rewrite Hfind.
      * intros [<- Hfind]. destruct (Py.find sep s) eqn:Hfs; [done|].
        by injection (proj2 (IH s) (conj eq_refl eq_refl)) as -> ->.
Qed.

(** Two parts: the separator occurs once, between them. *)
Lemma str_split_two (sep : ascii) (s a b : string) :
  str_split sep s = [a; b] ↔
  s = a +:+ String sep b ∧ Py.find sep a = None ∧ Py.find sep b = None.
Proof.
  revert a. induction s as [|c s IH]; intros a; simpl.
  - split; [done|]. intros [Hs _]. by destruct a.
  - destruct (Ascii.eqb c sep) eqn:Hc.
    + apply Ascii.eqb_eq in Hc as ->. split.
      * intros [= <- Hb]. apply str_split_one in Hb as [-> Hb]. by rewrite append_nil_l.
      * intros (Hs & Ha & Hb). destruct a as [|d a].
        -- rewrite append_nil_l in Hs. injection Hs as ->.
           by rewrite (proj2 (str_split_one sep b b) (conj eq_refl Hb)).
        -- rewrite append_cons in Hs. injection Hs as <- _. simpl in Ha.
           by rewrite Ascii.eqb_refl in Ha.
    + destruct (str_split sep s) as [|p ps] eqn:Hs; [by apply str_split_not_nil in Hs|].
      split.
      * intros [= <- ->]. destruct (proj1 (IH p) eq_refl) as (-> & Ha & Hb).
        rewrite append_cons. simpl. by rewrite Hc, Ha.
      * intros (Heq & Ha & Hb). destruct a as [|d a].
        -- rewrite append_nil_l in Heq. injection Heq as -> _.
           by rewrite Ascii.eqb_refl in Hc.
        -- rewrite append_cons in Heq. injection Heq as <- ->. simpl in Ha.
           rewrite Hc in Ha. destruct (Py.find sep a) eqn:Hfa; [done|].
           by injection (proj2 (IH a) (conj eq_refl (conj Hfa Hb))) as -> ->.
Qed.
End SplitFacts.

Section TokenFacts.
Context {fb : FirebaseAuth}.

(** X21. [verificar_token] lets a request through exactly when its
    [Authorization] header is the word [Bearer], one blank and a token
    without blanks that [verify_id_token] accepts; the decoded token
    is then stored in the request. A second blank anywhere, a missing
    blank or another first word is never let through, and the token
    may be empty as far as this check goes. *)
Theorem verificar_token_accepts_iff (request request' : Request) :
  verificar_token request = (None, request') ↔
  ∃ id_token decoded,
    authorization request = Some ("Bearer " +:+ id_token) ∧
    Py.find " " id_token = None ∧
    verify_id_token id_token = inr decoded ∧
    request' = con_usuario request decoded.
Proof.
  unfold verificar_token. split.
  - destruct (authorization request) as [auth_header|]; [|done].
    destruct (String.eqb auth_header ""); [done|].
    destruct (str_split " " auth_header) as [|p0 [|id_token [|? ?]]] eqn:Hparts;
      [done..| |done].
    destruct (String.eqb_spec p0 "Bearer") as [->|]; [|done]. simpl.
    apply str_split_two in Hparts as (-> & _ & Htok).
    destruct (verify_id_token id_token) as [e|decoded] eqn:Hverify.
    + by repeat case_match.
    + intros [= <-]. by exists id_token, decoded.
  - intros (id_token & decoded & -> & Htok & Hverify & ->).
    assert (Hparts : str_split " " ("Bearer " +:+ id_token) = ["Bearer"; id_token]).
    { apply str_split_two. by split. }
    rewrite Hparts. simpl. by rewrite Hverify.
Qed.

(** X22. Whatever [verificar_token] refuses, it refuses with status 401 and
    an [error] text, and it leaves the request as it was: no decoded
    token is stored. *)
Theorem verificar_token_refuses_with_401 (request : Request) (response : Response) :
  (verificar_token request).1 = Some response →
  status_code response = 401 ∧
  (∃ error, response_data response = CuerpoError error) ∧
  (verificar_token request).2 = request.
Proof.
  unfold verificar_token.
  destruct (authorization request) as [auth_header|]; simpl;
    [|intros [= <-]; by eauto].
  destruct (String.eqb auth_header ""); simpl; [intros [= <-]; by eauto|].
  destruct (str_split " " auth_header) as [|p0 [|id_token [|? ?]]]; simpl;
    try (intros [= <-]; by eauto).
  destruct (String.eqb p0 "Bearer"); simpl; [|intros [= <-]; by eauto].
  destruct (verify_id_token id_token) as [e|decoded]; simpl; [|done].
  destruct (isinstance_InvalidIdTokenError e); simpl; [intros [= <-]; by eauto|].
  destruct (isinstance_ExpiredIdTokenError e); simpl; [intros [= <-]; by eauto|].
  destruct (isinstance_RevokedIdTokenError e); simpl; intros [= <-]; by eauto.
Qed.

(** X23. The [except] clauses are tried in order, and the clause for
    [InvalidIdTokenError] comes first. When the expired-token and the
    revoked-token errors are invalid-token errors too, as the classes
    of [firebase_admin] are, their clauses are never taken: no request
    is answered "Token expirado." or "Token revocado.", and an
    expired or revoked token is answered "Token inválido.". *)
Theorem verificar_token_expired_reported_invalid (request : Request) id_token e :
  (∀ e, isinstance_ExpiredIdTokenError e = true →
        isinstance_InvalidIdTokenError e = true) →
  (∀ e, isinstance_RevokedIdTokenError e = true →
        isinstance_InvalidIdTokenError e = true) →
  (verificar_token request).1 ≠ Some (no_autorizado "Token expirado.") ∧
  (verificar_token request).1 ≠ Some (no_autorizado "Token revocado.") ∧
  (authorization request = Some ("Bearer " +:+ id_token) →
   Py.find " " id_token = None →
   verify_id_token id_token = inl e →
   isinstance_ExpiredIdTokenError e || isinstance_RevokedIdTokenError e = true →
   (verificar_token request).1 = Some (no_autorizado "Token inválido.")).
Proof.
  intros Hexpired Hrevoked. unfold verificar_token. split; [|split].
  - destruct (authorization request) as [auth_header|]; simpl; [|done].
    destruct (String.eqb auth_header ""); simpl; [done|].
    destruct (str_split " " auth_header) as [|p0 [|tok [|? ?]]]; simpl; [done..| |done].
    destruct (String.eqb p0 "Bearer"); simpl; [|done].
    destruct (verify_id_token tok) as [e'|decoded]; simpl; [|done].
    destruct (isinstance_InvalidIdTokenError e') eqn:Hinv; simpl; [done|].
    destruct (isinstance_ExpiredIdTokenError e') eqn:Hexp; simpl.
    { apply Hexpired in Hexp. congruence. }
    destruct (isinstance_RevokedIdTokenError e'); simpl; [done|].
    by intros [= Habs].
  - destruct (authorization request) as [auth_header|]; simpl; [|done].
    destruct (String.eqb auth_header ""); simpl; [done|].
    destruct (str_split " " auth_header) as [|p0 [|tok [|? ?]]]; simpl; [done..| |done].
    destruct (String.eqb p0 "Bearer"); simpl; [|done].
    destruct (verify_id_token tok) as [e'|decoded]; simpl; [|done].
    destruct (isinstance_InvalidIdTokenError e') eqn:Hinv; simpl; [done|].
    destruct (isinstance_ExpiredIdTokenError e') eqn:Hexp; simpl; [done|].
    destruct (isinstance_RevokedIdTokenError e') eqn:Hrev; simpl.
    { apply Hrevoked in Hrev. congruence. }
    by intros [= Habs].
  - intros -> Htok Hverify Hclass.
    assert (Hparts : str_split " " ("Bearer " +:+ id_token) = ["Bearer"; id_token]).
    { apply str_split_two. by split. }
    rewrite Hparts. simpl. rewrite Hverify.
    assert (isinstance_InvalidIdTokenError e = true) as ->; [|done].
    apply orb_true_iff in Hclass as [?|?]; auto.
Qed.
End TokenFacts.

(** A request without the header is refused. *)
Lemma verificar_token_refuses_with_401_witness :
  (verificar_token (FakeWeb.peticion None [])).1 =
    Some (no_autorizado "No se encontró el token de autorización.") ∧
  status_code (no_autorizado "No se encontró el token de autorización.") = 401.
Proof.
  split; [reflexivity|].
  by destruct (verificar_token_refuses_with_401 (fb := FakeWeb.fb)
                 (FakeWeb.peticion None [])
                 (no_autorizado "No se encontró el token de autorización.")
                 eq_refl) as [-> _].
Defined.

(** The expired token "old" of the test double. *)
Lemma verificar_token_expired_reported_invalid_witness :
  (verificar_token (FakeWeb.peticion (Some "Bearer old") [])).1 =
    Some (no_autorizado "Token inválido.").
Proof.
  assert (H1 : ∀ e : auth_error (FirebaseAuth := FakeWeb.fb),
             isinstance_ExpiredIdTokenError e = true →
             isinstance_InvalidIdTokenError e = true) by (by intros []).
  assert (H2 : ∀ e : auth_error (FirebaseAuth := FakeWeb.fb),
             isinstance_RevokedIdTokenError e = true →
             isinstance_InvalidIdTokenError e = true) by (by intros []).
  by apply (proj2 (proj2 (verificar_token_expired_reported_invalid (fb := FakeWeb.fb)
                            (FakeWeb.peticion (Some "Bearer old") []) "old"
                            FakeWeb.Expired H1 H2))).
Defined.

(** ** The views over the service *)

Section ViewFacts.
Context {cv : OpenCV} {fb : FirebaseAuth} {rt : Runtime}.

Local Arguments str : simpl never.

(** The two ways [verificar_token] ends. *)
Lemma verificar_token_cases (request : Request) :
  (∃ response, verificar_token request = (Some response, request) ∧
               status_code response = 401 ∧
               ∃ error, response_data response = CuerpoError error) ∨
  (∃ decoded, verificar_token request = (None, con_usuario request decoded)).
Proof.
  unfold verificar_token.
  destruct (authorization request) as [auth_header|]; [|left; by eauto].
  destruct (String.eqb auth_header ""); [left; by eauto|].
  destruct (str_split " " auth_header) as [|p0 [|id_token [|? ?]]];
    try (left; by eauto).
  destruct (String.eqb p0 "Bearer"); simpl; [|left; by eauto].
  destruct (verify_id_token id_token) as [e|decoded]; [|right; by eauto].
  destruct (isinstance_InvalidIdTokenError e); [left; by eauto|].
  destruct (isinstance_ExpiredIdTokenError e); [left; by eauto|].
  destruct (isinstance_RevokedIdTokenError e); left; by eauto.
Qed.

(** What a view's [try] block around one service call does: the call
    runs once, and its answer or its exception becomes a response. *)
Lemma try_call {A : Type} (m : M A) (k : A → M Response) (h : exn → M Response)
    (f : A → Response) (g : exn → Response) (w : World) :
  (∀ a w', k a w' = Run w' [] (Return (f a))) →
  (∀ e w', h e w' = Run w' [] (Return (g e))) →
  try_except_as (m ≫= k) h w =
  Run (after (m w)) (events (m w))
      (Return match result (m w) with Return a => f a | Raise e => g e end).
Proof.
  intros Hk Hh. unfold try_except_as, mbind, M_bind, bind.
  destruct (m w) as [w1 evs [a|e]]; simpl.
  - rewrite Hk. by rewrite app_nil_r.
  - rewrite Hh. by rewrite app_nil_r.
Qed.

Lemma try_done (response : Response) (g : exn → M Response) (w : World) :
  try_except_as (mret response) g w = Run w [] (Return response).
Proof. done. Qed.

(** X24. A request that [verificar_token] refuses never reaches the
    service: each of the four views answers with the 401 response of
    the check, makes no call and leaves the service as it was. *)
Theorem views_require_token settings now firebase_up timestamp disk disk_ok
    (request : Request) (response : Response) (w : World) :
  (verificar_token request).1 = Some response →
  status_code response = 401 ∧
  RegistroView_post settings now firebase_up request w = Run w [] (Return response) ∧
  GuardarFotoView_post timestamp request w = Run w [] (Return response) ∧
  EntrenarModeloView_post disk disk_ok request w = Run w [] (Return response) ∧
  ListarEstudiantesView_get request w = Run w [] (Return response).
Proof.
  unfold RegistroView_post, GuardarFotoView_post, EntrenarModeloView_post,
    ListarEstudiantesView_get.
  destruct (verificar_token_cases request)
    as [(r & -> & Hr & _)|(decoded & ->)]; simpl; [|done].
  by intros [= <-].
Qed.

Ltac one_of_codes :=
  simpl; repeat first [apply list_elem_of_here | apply list_elem_of_further].

Ltac through_token request :=
  destruct (verificar_token_cases request)
    as [(?r & -> & ?Hr & ?error & ?Hbody)|(?decoded & ->)];
  cbv zeta; simpl.

Lemma responds_try_call {A : Type} (m : M A) (k : A → M Response)
    (h : exn → M Response) (f : A → Response) (g : exn → Response) (w : World)
    (codes : list Z) :
  (∀ a w', k a w' = Run w' [] (Return (f a))) →
  (∀ e w', h e w' = Run w' [] (Return (g e))) →
  (∀ a, status_code (f a) ∈ codes) → (∀ e, status_code (g e) ∈ codes) →
  responds (try_except_as (m ≫= k) h w) codes.
Proof.
  intros Hk Hh Hf Hg. rewrite (try_call m k h f g w Hk Hh). unfold responds. simpl.
  destruct (result (m w)); eauto.
Qed.

Lemma responds_now (response : Response) (w : World) (codes : list Z) :
  status_code response ∈ codes → responds (Run w [] (Return response)) codes.
Proof. intros H. by exists response. Qed.

(** X25. No exception leaves a view: [verificar_token] raises nothing, and
    whatever the body of the [try] block or the service raises is
    answered by the [except] clause. Every call of [RegistroView],
    [GuardarFotoView] and [EntrenarModeloView] answers with status
    200, 400, 401 or 500, and [ListarEstudiantesView] with 200 or
    401. *)
Theorem views_never_raise settings now firebase_up timestamp disk disk_ok
    (request : Request) (w : World) :
  responds (RegistroView_post settings now firebase_up request w) [200; 400; 401; 500] ∧
  responds (GuardarFotoView_post timestamp request w) [200; 400; 401; 500] ∧
  responds (EntrenarModeloView_post disk disk_ok request w) [200; 400; 401; 500] ∧
  responds (ListarEstudiantesView_get request w) [200; 401].
Proof.
  unfold RegistroView_post, GuardarFotoView_post, EntrenarModeloView_post,
    ListarEstudiantesView_get.
  through_token request.
  { repeat split; apply responds_now; rewrite Hr; one_of_codes. }
  split; [|split; [|split]].
  - destruct (request_data request) as [m|d]; [apply responds_now; one_of_codes|].
    destruct (data_get d "image" _) as [image_data|t b] eqn:Himage; simpl.
    + destruct (String.eqb image_data ""); simpl; [apply responds_now; one_of_codes|].
      apply (responds_try_call _ _ _
               (λ a, {| response_data := CuerpoResultado a; status_code := 200 |})
               (λ e, {| response_data := CuerpoEstadoError (str e);
                        status_code := 500 |}));
        [done|done|intros; one_of_codes..].
    + destruct b; apply responds_now; one_of_codes.
  - destruct (request_data request) as [m|d]; [apply responds_now; one_of_codes|].
    destruct (data_get d "estudiante" _) as [estudiante|t b];
      [|apply responds_now; one_of_codes].
    destruct (_ || _); [apply responds_now; one_of_codes|].
    apply (responds_try_call _ _ _
             (λ a, {| response_data := CuerpoRespuesta a; status_code := 200 |})
             (λ e, {| response_data := CuerpoError (str e); status_code := 500 |}));
      [intros a w'; by destruct (ok a)|done|intros; one_of_codes..].
  - destruct (request_data request) as [m|d]; [apply responds_now; one_of_codes|].
    destruct (data_get d "estudiante" _) as [estudiante|t b];
      [|apply responds_now; one_of_codes].
    destruct (_ && _); [apply responds_now; one_of_codes|].
    apply (responds_try_call _ _ _
             (λ a, {| response_data := CuerpoRespuesta a;
                      status_code := if ok a then 200 else 400 |})
             (λ e, {| response_data := CuerpoError (str e); status_code := 500 |}));
      [intros a w'; by destruct (ok a)
      |done
      |intros a; simpl; destruct (ok a); one_of_codes
      |intros; one_of_codes].
  - unfold responds, listar_estudiantes. unfold_M. simpl.
    eexists. split; [reflexivity|one_of_codes].
Qed.

Lemma data_get_Some (d : gmap string valor) key default v :
  d !! key = Some v → data_get d key default = v.
Proof. unfold data_get. by intros ->. Qed.

(** X26. A request that passes the token check and carries its fields as
    non-empty text reaches the service with exactly one call, the one
    [atender] makes: the photo as it came, the student name with
    [strip] applied, a full retrain when [tipo] is "completo" whatever
    the name is, and an incremental training for any other [tipo] and
    a name that is the name of an entry.
    An exception of the call becomes status 500 with the text
    [str(e)], which for an [OSError] is its number, its message and
    the path, and the service stays in the state the call left. *)
Theorem views_reach_service settings now firebase_up timestamp disk disk_ok
    (request : Request) decoded d (w : World) :
  verificar_token request = (None, con_usuario request decoded) →
  request_data request = inr d →
  (∀ image_data,
     d !! "image" = Some (Texto image_data) → image_data ≠ "" →
     let r := reconocer_rostro settings now firebase_up image_data w in
     let v := RegistroView_post settings now firebase_up request w in
     forget v = atender settings (ReconocerRostro now firebase_up image_data) w ∧
     returned v = Some
       match result r with
       | Return resultado =>
           {| response_data := CuerpoResultado resultado; status_code := 200 |}
       | Raise e =>
           {| response_data := CuerpoEstadoError (str e); status_code := 500 |}
       end) ∧
  (∀ estudiante foto,
     d !! "estudiante" = Some (Texto estudiante) → str_strip estudiante ≠ "" →
     d !! "foto" = Some (Texto foto) → foto ≠ "" →
     let r := guardar_foto_registro timestamp (str_strip estudiante) foto w in
     let v := GuardarFotoView_post timestamp request w in
     forget v =
       atender settings (GuardarFotoRegistro timestamp (str_strip estudiante) foto) w ∧
     returned v = Some
       match result r with
       | Return resultado =>
           {| response_data := CuerpoRespuesta resultado; status_code := 200 |}
       | Raise e => {| response_data := CuerpoError (str e); status_code := 500 |}
       end) ∧
  (∀ estudiante,
     data_get d "estudiante" (Texto "") = Texto estudiante →
     d !! "tipo" = Some (Texto "completo") →
     let r := entrenar_modelo_completo disk_ok w in
     let v := EntrenarModeloView_post disk disk_ok request w in
     forget v = atender settings (EntrenarModeloCompleto disk_ok) w ∧
     returned v = Some
       match result r with
       | Return resultado =>
           {| response_data := CuerpoRespuesta resultado;
              status_code := if ok resultado then 200 else 400 |}
       | Raise e => {| response_data := CuerpoError (str e); status_code := 500 |}
       end) ∧
  (∀ estudiante,
     d !! "estudiante" = Some (Texto estudiante) →
     nombre_llano (str_strip estudiante) = true →
     es_texto (data_get d "tipo" (Texto "incremental")) "completo" = false →
     let r := entrenar_incremental disk (str_strip estudiante) w in
     let v := EntrenarModeloView_post disk disk_ok request w in
     forget v = atender settings (EntrenarIncremental disk (str_strip estudiante)) w ∧
     returned v = Some
       match result r with
       | Return resultado =>
           {| response_data := CuerpoRespuesta resultado;
              status_code := if ok resultado then 200 else 400 |}
       | Raise e => {| response_data := CuerpoError (str e); status_code := 500 |}
       end).
Proof.
  intros Htoken Hdata.
  unfold RegistroView_post, GuardarFotoView_post, EntrenarModeloView_post.
  rewrite Htoken. cbv zeta. simpl. rewrite Hdata.
  split; [|split; [|split]].
  - intros image_data Himage Hne.
    rewrite (data_get_Some _ _ _ _ Himage). simpl.
    apply String.eqb_neq in Hne. rewrite Hne. simpl.
    by rewrite (try_call _ _ _
                  (λ a, {| response_data := CuerpoResultado a; status_code := 200 |})
                  (λ e, {| response_data := CuerpoEstadoError (str e);
                           status_code := 500 |})).
  - intros estudiante foto Hestudiante Hne Hfoto Hne'.
    rewrite (data_get_Some _ _ _ _ Hestudiante), (data_get_Some _ _ _ _ Hfoto). simpl.
    apply String.eqb_neq in Hne, Hne'. rewrite Hne, Hne'. simpl.
    rewrite (try_call _ _ _
               (λ a, {| response_data := CuerpoRespuesta a; status_code := 200 |})
               (λ e, {| response_data := CuerpoError (str e); status_code := 500 |}));
      [done| |done]. intros a w'. by destruct (ok a).
  - intros estudiante Hestudiante Htipo.
    rewrite Hestudiante, (data_get_Some _ _ _ _ Htipo). simpl.
    rewrite andb_false_r.
    rewrite (try_call _ _ _
               (λ a, {| response_data := CuerpoRespuesta a;
                        status_code := if ok a then 200 else 400 |})
               (λ e, {| response_data := CuerpoError (str e); status_code := 500 |}));
      [done| |done]. intros a w'. by destruct (ok a).
  - intros estudiante Hestudiante Hllano Htipo.
    rewrite (data_get_Some _ _ _ _ Hestudiante). simpl.
    assert (Hne : String.eqb (str_strip estudiante) "" = false).
    { unfold nombre_llano in Hllano.
      by destruct (String.eqb (str_strip estudiante) ""). }
    rewrite Hne, Htipo. simpl.
    rewrite (try_call _ _ _
               (λ a, {| response_data := CuerpoRespuesta a;
                        status_code := if ok a then 200 else 400 |})
               (λ e, {| response_data := CuerpoError (str e); status_code := 500 |}));
      [done| |done]. intros a w'. by destruct (ok a).
Qed.

(** X27. The status of [EntrenarModeloView] tells whether the training
    succeeded: it is 200 exactly when the body is the dictionary of a
    training with [ok = True]. The status of [GuardarFotoView] does
    not: a body that is the dictionary of the enrolment comes with
    status 200 whether [ok] is true or not. *)
Theorem training_status_tells_success timestamp disk disk_ok
    (request : Request) (w : World) (response : Response) :
  (returned (EntrenarModeloView_post disk disk_ok request w) = Some response →
   (status_code response = 200 ↔
    ∃ resultado, response_data response = CuerpoRespuesta resultado ∧
                 ok resultado = true)) ∧
  (returned (GuardarFotoView_post timestamp request w) = Some response →
   ∀ resultado, response_data response = CuerpoRespuesta resultado →
                status_code response = 200).
Proof.
  unfold EntrenarModeloView_post, GuardarFotoView_post, returned.
  through_token request.
  { split; intros [= <-]; [|intros ? ?; congruence].
    split; [congruence|]. intros (res & Hres & _). congruence. }
  split.
  - destruct (request_data request) as [m|d]; simpl.
    { intros [= <-]. simpl. split; [done|]. by intros (? & ? & _). }
    destruct (data_get d "estudiante" _) as [estudiante|t b]; simpl.
    2: { intros [= <-]. simpl. split; [done|]. by intros (? & ? & _). }
    destruct (_ && _); simpl.
    { intros [= <-]. simpl. split; [done|]. by intros (? & ? & _). }
    rewrite (try_call _ _ _
               (λ a, {| response_data := CuerpoRespuesta a;
                        status_code := if ok a then 200 else 400 |})
               (λ e, {| response_data := CuerpoError (str e); status_code := 500 |}));
      [|intros a w'; by destruct (ok a)|done].
    simpl. destruct (result _) as [a|e]; intros [= <-]; simpl.
    + destruct (ok a) eqn:Hok; split; try done.
      * intros _. by exists a.
      * intros (res & [= <-] & ?). congruence.
    + split; [done|]. by intros (? & ? & _).
  - destruct (request_data request) as [m|d]; simpl.
    { by intros [= <-]. }
    destruct (data_get d "estudiante" _) as [estudiante|t b]; simpl.
    2: { by intros [= <-]. }
    destruct (_ || _); simpl.
    { by intros [= <-]. }
    rewrite (try_call _ _ _
               (λ a, {| response_data := CuerpoRespuesta a; status_code := 200 |})
               (λ e, {| response_data := CuerpoError (str e); status_code := 500 |}));
      [|intros a w'; by destruct (ok a)|done].
    simpl. by destruct (result _) as [a|e]; intros [= <-].
Qed.

(** X28. A request that is answered 400 or 401 by [RegistroView] or
    [GuardarFotoView] was turned away before the service was called:
    the service is as it was and no collaborator was called. For
    [EntrenarModeloView] this holds for a 400 or 401 whose body is an
    [error] text; a 400 with the dictionary of a failed training comes
    after the call. *)
Theorem client_errors_leave_service_untouched settings now firebase_up timestamp
    disk disk_ok
    (request : Request) (w : World) (response : Response) :
  status_code response = 400 ∨ status_code response = 401 →
  (returned (RegistroView_post settings now firebase_up request w) = Some response →
   untouched (RegistroView_post settings now firebase_up request w) w) ∧
  (returned (GuardarFotoView_post timestamp request w) = Some response →
   untouched (GuardarFotoView_post timestamp request w) w) ∧
  (returned (EntrenarModeloView_post disk disk_ok request w) = Some response →
   (∃ error, response_data response = CuerpoError error) →
   untouched (EntrenarModeloView_post disk disk_ok request w) w).
Proof.
  intros Hstatus.
  unfold RegistroView_post, GuardarFotoView_post, EntrenarModeloView_post.
  through_token request; [done|].
  split; [|split].
  - destruct (request_data request) as [m|d]; simpl; [done|].
    destruct (data_get d "image" _) as [image_data|t b]; simpl.
    2: { by destruct b. }
    destruct (String.eqb image_data ""); simpl; [done|].
    rewrite (try_call _ _ _
               (λ a, {| response_data := CuerpoResultado a; status_code := 200 |})
               (λ e, {| response_data := CuerpoEstadoError (str e);
                        status_code := 500 |})); [|done|done].
    unfold returned. simpl.
    destruct (result _); intros [= <-]; simpl in Hstatus; by destruct Hstatus.
  - destruct (request_data request) as [m|d]; simpl; [done|].
    destruct (data_get d "estudiante" _) as [estudiante|t b]; simpl; [|done].
    destruct (_ || _); simpl; [done|].
    rewrite (try_call _ _ _
               (λ a, {| response_data := CuerpoRespuesta a; status_code := 200 |})
               (λ e, {| response_data := CuerpoError (str e); status_code := 500 |}));
      [|intros a w'; by destruct (ok a)|done].
    unfold returned. simpl.
    destruct (result _); intros [= <-]; simpl in Hstatus; by destruct Hstatus.
  - destruct (request_data request) as [m|d]; simpl; [done|].
    destruct (data_get d "estudiante" _) as [estudiante|t b]; simpl; [|done].
    destruct (_ && _); simpl; [done|].
    rewrite (try_call _ _ _
               (λ a, {| response_data := CuerpoRespuesta a;
                        status_code := if ok a then 200 else 400 |})
               (λ e, {| response_data := CuerpoError (str e); status_code := 500 |}));
      [|intros a w'; by destruct (ok a)|done].
    unfold returned. simpl.
    destruct (result _); intros [= <-]; simpl in *.
    + by intros [? ?].
    + by destruct Hstatus.
Qed.
End ViewFacts.

(** A header with another first word, sent to [RegistroView]. *)
Lemma views_require_token_witness :
  RegistroView_post (cv := Fake.cv) (fb := FakeWeb.fb) (rt := FakeWeb.rt)
    Fake.settings 0 true
    (FakeWeb.peticion (Some "Token good") [("image", Texto "ana")]) Fake.with_ana =
  Run Fake.with_ana [] (Return formato_invalido).
Proof.
  by destruct (views_require_token (cv := Fake.cv) (fb := FakeWeb.fb) (rt := FakeWeb.rt)
                 Fake.settings 0 true 1000 (true, true) true
                 (FakeWeb.peticion (Some "Token good") [("image", Texto "ana")])
                 formato_invalido Fake.with_ana eq_refl) as (_ & -> & _).
Defined.

(** "ana" is recognised through [RegistroView]; an enrolment for the
    name "notas", which a regular file has, is answered 500 with the
    text of the [FileExistsError]. *)
Lemma views_reach_service_witness :
  status_code <$>
    returned (RegistroView_post (cv := Fake.cv) (fb := FakeWeb.fb) (rt := FakeWeb.rt)
                Fake.settings 0 true
                (FakeWeb.autorizada [("image", Texto "ana")]) Fake.with_ana) =
  Some 200 ∧
  returned (GuardarFotoView_post (cv := Fake.cv) (fb := FakeWeb.fb) (rt := FakeWeb.rt)
              1000
              (FakeWeb.autorizada [("estudiante", Texto " notas ");
                                   ("foto", Texto "data:image/jpeg;base64,ana")])
              Scenes.archivo_en_medio) =
  Some {| response_data := CuerpoError "[Errno 17] File exists: 'Data/notas'";
          status_code := 500 |}.
Proof.
  split.
  - destruct (views_reach_service (cv := Fake.cv) (fb := FakeWeb.fb) (rt := FakeWeb.rt)
                Fake.settings 0 true 1000 (true, true) true
                (FakeWeb.autorizada [("image", Texto "ana")]) "uid-1"
                (list_to_map [("image", Texto "ana")]) Fake.with_ana eq_refl eq_refl)
      as (Hregistro & _).
    destruct (Hregistro "ana" eq_refl ltac:(done)) as [_ Hresponse].
    cbv zeta in Hresponse. rewrite Hresponse. reflexivity.
  - destruct (views_reach_service (cv := Fake.cv) (fb := FakeWeb.fb) (rt := FakeWeb.rt)
                Fake.settings 0 true 1000 (true, true) true
                (FakeWeb.autorizada [("estudiante", Texto " notas ");
                                     ("foto", Texto "data:image/jpeg;base64,ana")])
                "uid-1"
                (list_to_map [("estudiante", Texto " notas ");
                              ("foto", Texto "data:image/jpeg;base64,ana")])
                Scenes.archivo_en_medio eq_refl eq_refl)
      as (_ & Hguardar & _).
    destruct (Hguardar " notas " "data:image/jpeg;base64,ana" eq_refl ltac:(done)
                eq_refl ltac:(done)) as [_ Hresponse].
    cbv zeta in Hresponse. rewrite Hresponse. reflexivity.
Defined.

(** A photo without a face: the enrolment fails and the status is 200. *)
Lemma training_status_tells_success_witness :
  returned (GuardarFotoView_post (cv := Fake.cv) (fb := FakeWeb.fb) (rt := FakeWeb.rt)
              1000
              (FakeWeb.autorizada [("estudiante", Texto " bob ");
                                   ("foto", Texto "data:image/jpeg;base64, bob")])
              Fake.fresh) =
    Some {| response_data := CuerpoRespuesta (fallo "no face"); status_code := 200 |} ∧
  status_code {| response_data := CuerpoRespuesta (fallo "no face");
                 status_code := 200 |} = 200.
Proof.
  split; [reflexivity|].
  exact (proj2 (training_status_tells_success (cv := Fake.cv) (fb := FakeWeb.fb)
                  (rt := FakeWeb.rt) 1000 (true, true) true
                  (FakeWeb.autorizada [("estudiante", Texto " bob ");
                                       ("foto", Texto "data:image/jpeg;base64, bob")])
                  Fake.fresh
                  {| response_data := CuerpoRespuesta (fallo "no face");
                     status_code := 200 |})
               eq_refl (fallo "no face") eq_refl).
Defined.

(** A request without an image is answered 400 by [RegistroView]. *)
Lemma client_errors_leave_service_untouched_witness :
  untouched (RegistroView_post (cv := Fake.cv) (fb := FakeWeb.fb) (rt := FakeWeb.rt)
               Fake.settings 0 true (FakeWeb.autorizada []) Fake.with_ana)
    Fake.with_ana.
Proof.
  apply (proj1 (client_errors_leave_service_untouched (cv := Fake.cv) (fb := FakeWeb.fb)
                  (rt := FakeWeb.rt) Fake.settings 0 true 1000 (true, true) true
                  (FakeWeb.autorizada []) Fake.with_ana
                  {| response_data := CuerpoEstadoError "No se recibió imagen";
                     status_code := 400 |} (or_introl eq_refl))).
  reflexivity.
Defined.
